(** * Lit auth client: provider lifecycle and identity derivation

    A shallow embedding of the authentication providers of
    [packages/lit-auth-client] (EthWalletProvider, WebAuthnProvider,
    AppleProvider) and of the helpers of its [utils] module (login URL
    construction, OAuth state parameter, the [getAuthMethodId] dispatcher and
    its per-method rules).

    Conventions of the model.
    - A JavaScript string is a [string]: one character per UTF-16 code unit,
      code units below 256 only.
    - A JavaScript value that comes out of [JSON.parse] is a [JsValue]; a
      Number is represented by the text that [String(n)] gives for it.
    - An [async] function is a state transformer over the [World] (the
      browser window, the log of collaborator calls and the state [Ext] of
      everything outside the client); [await] is sequencing, a rejected
      promise and a thrown exception are both [Throw].
    - Library functions (ethers, jose, nanoid, SIWE, the browser) and remote
      collaborators are the fields of a [Platform]; the module [Reference]
      gives one concrete platform on which the model can be run. *)

From Stdlib Require Import ZArith String Ascii List Bool Lia.
From stdpp Require Import base strings gmap list.

Set Warnings "-register-all".
Local Open Scope list_scope.
Local Open Scope string_scope.

(** ** Completions: a value or a thrown exception *)

(** What the code can [throw] or a promise can reject with.  [Error] is
    [new Error(message)], the only exception the client itself creates; the
    others are raised by the language and its libraries. *)
Inductive Exn : Type :=
| Error (message : string)
| TypeError (message : string)
| SyntaxError (message : string)
| URIError (message : string)
| InvalidCharacterError (message : string)
| SecurityError (message : string)
| JWTInvalid (message : string)
| Rejection (reason : string).

Inductive Res (A : Type) : Type :=
| Ok (a : A)
| Throw (e : Exn).
Arguments Ok {A} a.
Arguments Throw {A} e.

Definition Res_bind {A B : Type} (r : Res A) (k : A -> Res B) : Res B :=
  match r with
  | Ok a => k a
  | Throw e => Throw e
  end.

Definition is_Ok {A : Type} (r : Res A) : bool :=
  match r with Ok _ => true | Throw _ => false end.

(** [String(e)] of an exception, as a template literal prints it. *)
Definition Exn_toString (e : Exn) : string :=
  match e with
  | Error m => "Error: " ++ m
  | TypeError m => "TypeError: " ++ m
  | SyntaxError m => "SyntaxError: " ++ m
  | URIError m => "URIError: " ++ m
  | InvalidCharacterError m => "InvalidCharacterError: " ++ m
  | SecurityError m => "SecurityError: " ++ m
  | JWTInvalid m => "JWTInvalid: " ++ m
  | Rejection r => r
  end.

(** A computation over a mutable state [S]: the state it leaves is kept also
    when it throws. *)
Definition M (S A : Type) : Type := S -> Res A * S.

Definition ret {S A : Type} (a : A) : M S A := fun s => (Ok a, s).

Definition throw {S A : Type} (e : Exn) : M S A := fun s => (Throw e, s).

Definition bind {S A B : Type} (m : M S A) (k : A -> M S B) : M S B :=
  fun s =>
    match m s with
    | (Ok a, s') => k a s'
    | (Throw e, s') => (Throw e, s')
    end.

Definition lift {S A : Type} (r : Res A) : M S A := fun s => (r, s).

Definition gets {S A : Type} (f : S -> A) : M S A := fun s => (Ok (f s), s).

Definition modify {S : Type} (f : S -> S) : M S unit := fun s => (Ok tt, f s).

Declare Scope js_scope.
Delimit Scope js_scope with js.
Notation "x <- m ;; k" := (bind m (fun x => k))
  (at level 100, m at next level, k at level 200, right associativity) : js_scope.
Notation "m ;; k" := (bind m (fun _ => k))
  (at level 100, k at level 200, right associativity) : js_scope.
Notation "x <~ r ;; k" := (Res_bind r (fun x => k))
  (at level 100, r at next level, k at level 200, right associativity) : js_scope.
Local Open Scope js_scope.

(** ** Strings *)

(** The double quote, which the error messages of the client print around
    the values they report. *)
Definition dq : string := String (ascii_of_nat 34) EmptyString.

Definition quoted (s : string) : string := dq ++ s ++ dq.

(** [s.startsWith(p)] *)
Definition startsWith (s p : string) : bool := String.prefix p s.
Arguments startsWith : simpl never.

(** [s.split(sep)] for a separator of one character. *)
Fixpoint split (sep : ascii) (s : string) : list string :=
  match s with
  | EmptyString => [EmptyString]
  | String c rest =>
      if Ascii.eqb c sep then EmptyString :: split sep rest
      else match split sep rest with
           | seg :: segs => String c seg :: segs
           | [] => [String c EmptyString]
           end
  end.

(** [c.toLowerCase()] on one code unit below 256: the letters A-Z and the
    Latin-1 capitals U+00C0..U+00DE (U+00D7, the multiplication sign, is not
    a letter). *)
Definition lower_char (c : ascii) : ascii :=
  let n := nat_of_ascii c in
  if ((65 <=? n) && (n <=? 90))%nat then ascii_of_nat (n + 32)
  else if ((192 <=? n) && (n <=? 222) && negb (n =? 215))%nat then ascii_of_nat (n + 32)
  else c.

(** [s.toLowerCase()] *)
Fixpoint toLowerCase (s : string) : string :=
  match s with
  | EmptyString => EmptyString
  | String c rest => String (lower_char c) (toLowerCase rest)
  end.

(** [xs.join(sep)] *)
Fixpoint join (sep : string) (xs : list string) : string :=
  match xs with
  | [] => EmptyString
  | [x] => x
  | x :: rest => x ++ sep ++ join sep rest
  end.

(** ** JavaScript values of JSON shape *)

Inductive JsValue : Type :=
| JUndefined
| JNull
| JBool (b : bool)
| JNum (repr : string)
| JStr (s : string)
| JArr (elems : list JsValue)
| JObj (props : list (string * JsValue)).

(** Own property [k] of an object literal: the first binding of the key. *)
Fixpoint own (k : string) (props : list (string * JsValue)) : option JsValue :=
  match props with
  | [] => None
  | (k', v) :: rest => if String.eqb k k' then Some v else own k rest
  end.

(** [v.k] and [v[k]].  The keys the client reads ([sub], [aud], [address],
    [rawId], [orgId], [extraData], [id], [response], [userHandle],
    [attestationObject], [requestId]) are defined by no prototype, so on a
    string, a number, a boolean or an array the read gives [undefined]; on
    [undefined] and [null] it throws. *)
Definition get (v : JsValue) (k : string) : Res JsValue :=
  match v with
  | JUndefined =>
      Throw (TypeError ("Cannot read properties of undefined (reading '" ++ k ++ "')"))
  | JNull =>
      Throw (TypeError ("Cannot read properties of null (reading '" ++ k ++ "')"))
  | JObj props => Ok (default JUndefined (own k props))
  | _ => Ok JUndefined
  end.

(** [v?.k] *)
Definition get_opt (v : JsValue) (k : string) : Res JsValue :=
  match v with
  | JUndefined | JNull => Ok JUndefined
  | _ => get v k
  end.

(** Truthiness, as [if (v)], [!v], [a && b] and [a || b] test it. *)
Definition truthy (v : JsValue) : bool :=
  match v with
  | JUndefined | JNull => false
  | JBool b => b
  | JNum r => negb (String.eqb r "0" || String.eqb r "NaN")
  | JStr s => negb (String.eqb s EmptyString)
  | JArr _ | JObj _ => true
  end.

(** The string a template literal puts for [${v}].  An array prints its
    elements joined by commas, [undefined] and [null] elements as nothing;
    an object prints as [[object Object]] unless it has an own property
    [toString], which a JSON value cannot make callable. *)
Fixpoint ToString (v : JsValue) : Res string :=
  match v with
  | JUndefined => Ok "undefined"
  | JNull => Ok "null"
  | JBool true => Ok "true"
  | JBool false => Ok "false"
  | JNum r => Ok r
  | JStr s => Ok s
  | JArr elems =>
      ss <~ (fix items (l : list JsValue) : Res (list string) :=
               match l with
               | [] => Ok []
               | x :: rest =>
                   s <~ match x with
                        | JUndefined | JNull => Ok EmptyString
                        | _ => ToString x
                        end ;;
                   ss <~ items rest ;;
                   Ok (s :: ss)
               end) elems ;;
      Ok (join "," ss)
  | JObj props =>
      match own "toString" props with
      | Some _ => Throw (TypeError "Cannot convert object to primitive value")
      | None => Ok "[object Object]"
      end
  end.

(** A method of [String.prototype] called on a value the code asserts to be
    a string ([v as string]): the assertion is erased at run time, so the
    call throws on anything else. *)
Definition as_string_method (name : string) (v : JsValue) : Res string :=
  match v with
  | JStr s => Ok s
  | JUndefined =>
      Throw (TypeError ("Cannot read properties of undefined (reading '" ++ name ++ "')"))
  | JNull =>
      Throw (TypeError ("Cannot read properties of null (reading '" ++ name ++ "')"))
  | _ => Throw (TypeError (name ++ " is not a function"))
  end.

(** [v.k = x] in strict mode.  On an object the binding is replaced, or
    added after the others; on [undefined] and [null] and on a primitive the
    assignment throws; an array takes the property without changing its
    elements, which is all that [JSON.stringify] and the reads above see. *)
Fixpoint put (k : string) (x : JsValue) (props : list (string * JsValue))
  : list (string * JsValue) :=
  match props with
  | [] => [(k, x)]
  | (k', v) :: rest =>
      if String.eqb k k' then (k', x) :: rest else (k', v) :: put k x rest
  end.

Definition set (v : JsValue) (k : string) (x : JsValue) : Res JsValue :=
  match v with
  | JUndefined =>
      Throw (TypeError ("Cannot set properties of undefined (setting '" ++ k ++ "')"))
  | JNull =>
      Throw (TypeError ("Cannot set properties of null (setting '" ++ k ++ "')"))
  | JObj props => Ok (JObj (put k x props))
  | JArr elems => Ok (JArr elems)
  | _ => Throw (TypeError ("Cannot create property '" ++ k ++ "'"))
  end.

(** ** Data model *)

(** Modelled from the spec: the enumeration [AuthMethodType] of
    [@lit-protocol/constants] is not among the sources.  Its six named
    members are those the spec lists; [OtherType n] stands for the members
    the spec leaves out and for any other number a caller passes, the
    enumeration being a number at run time. *)
Inductive AuthMethodType : Type :=
| EthWallet
| WebAuthn
| AppleJwt
| GoogleJwt
| Discord
| OTP
| OtherType (code : Z).

Record AuthMethod : Type := {
  authMethodType : AuthMethodType;
  accessToken : string;
}.

Record AuthSig : Type := {
  sig : string;
  derivedVia : string;
  signedMessage : string;
  address : string;
}.

(** The object [JSON.stringify] and the readers of an [AuthSig] see, its
    keys in the order of the object literal. *)
Definition AuthSig_value (a : AuthSig) : JsValue :=
  JObj [("sig", JStr (sig a)); ("derivedVia", JStr (derivedVia a));
        ("signedMessage", JStr (signedMessage a)); ("address", JStr (address a))].

Record RelayerRequest : Type := {
  req_authMethodType : AuthMethodType;
  req_authMethodId : string;
  req_authMethodPubKey : option string;
}.

Record LoginUrlParams : Type := {
  provider : option string;
  param_accessToken : option string;
  idToken : option string;
  state : option string;
  error : option string;
}.

(** The fields [EthWalletProvider.authenticate] gives to [SiweMessage]. *)
Record SiweMessage : Type := {
  siwe_domain : string;
  siwe_uri : string;
  siwe_address : string;
  siwe_version : string;
  siwe_chainId : Z;
  siwe_expirationTime : string;
}.

Record LITChain : Type := { chainId : Z }.

Record Block : Type := { hash : string }.

(** The options [WebAuthnProvider.authenticate] gives to the authenticator. *)
Record AuthenticationOptions : Type := {
  challenge : string;
  timeout : Z;
  userVerification : string;
  rpId : string;
}.

(** The answer of [fetch]: its [ok] flag and what [json()] resolves to. *)
Record Response : Type := {
  ok : bool;
  json : Res JsValue;
}.

(** ** The browser window *)

Record Window : Type := {
  href : string;
  origin : string;
  hostname : string;
  pathname : string;
  search : string;
  title : string;
  sessionStorage : gmap string string;
}.

(** A parsed address, by the fields of a [URL] object: [protocol] is the
    scheme with its colon, [port] is empty for the default port of the
    scheme, [search] is empty or starts with a question mark. *)
Record Url : Type := {
  url_href : string;
  url_protocol : string;
  url_username : string;
  url_password : string;
  url_hostname : string;
  url_port : string;
  url_pathname : string;
  url_search : string;
}.

Definition setItem (k v : string) (w : Window) : Window :=
  {| href := href w; origin := origin w; hostname := hostname w;
     pathname := pathname w; search := search w; title := title w;
     sessionStorage := <[k := v]> (sessionStorage w) |}.

Definition removeItem (k : string) (w : Window) : Window :=
  {| href := href w; origin := origin w; hostname := hostname w;
     pathname := pathname w; search := search w; title := title w;
     sessionStorage := delete k (sessionStorage w) |}.

(** A call that leaves the client: to a wallet, a remote service, the
    authenticator, the random source, or a navigation of the browser. *)
Inductive Call : Type :=
| CallCheckAndSignAuthMessage (chain : string) (expiration : option string)
| CallSignMessage (message : string)
| CallNanoid (size : nat)
| CallLocationAssign (url : string)
| CallHistoryReplaceState (url : string)
| CallFetchDiscordUser (token : string)
| CallGetBlock (rpcUrl : string)
| CallStartAuthentication (options : AuthenticationOptions)
| CallStartRegistration (options : JsValue)
| CallGenerateRegistrationOptions (username : option string)
| CallMintPKP (type : AuthMethodType) (body : string).

(** A byte sequence ([Uint8Array], [Buffer]). *)
Definition bytes : Type := list Byte.byte.

(** ** The platform: libraries and collaborators

    What the client imports and calls but does not define.  The first group
    are functions of their arguments; the second group act on the state
    [Ext] of the world outside the client (wallet, network, relay,
    authenticator, clock, random source) and may fail. *)
Class Platform : Type := {
  Ext : Type;
  (** [JSON.parse]; [JSON.stringify] of a value other than [undefined]
      (for [undefined] it gives no text, which the callers handle). *)
  JSON_parse : string -> Res JsValue;
  JSON_stringify : JsValue -> string;
  (** ethers: [utils.keccak256] (hexadecimal digest with its prefix),
      [utils.toUtf8Bytes], [utils.getAddress], [utils.arrayify] and
      [utils.hexlify]. *)
  keccak256 : bytes -> string;
  toUtf8Bytes : string -> bytes;
  getAddress : string -> Res string;
  arrayify : string -> Res (bytes);
  hexlify : bytes -> string;
  (** The browser: [window.btoa], [window.atob], [decodeURIComponent],
      [new URLSearchParams(search).get(name)] and
      [new URLSearchParams(entries).toString()]. *)
  btoa : string -> string;
  atob : string -> Res string;
  decodeURIComponent : string -> Res string;
  URLSearchParams_get : string -> string -> option string;
  URLSearchParams_toString : list (string * string) -> string;
  (** The URL parser of the browser, [new URL(input)] and
      [new URL(input, base)]: [None] where it fails. *)
  URL_parse : string -> option string -> option Url;
  (** Node: [Buffer.from(s, 'base64')] and, after it, [toString('ascii')]. *)
  Buffer_from_base64 : string -> bytes;
  Buffer_toString_ascii : bytes -> string;
  (** [jose.decodeJwt]; the [base64url] package on bytes and on a value. *)
  decodeJwt : string -> Res JsValue;
  base64url : bytes -> string;
  base64url_encode : JsValue -> Res string;
  (** [new Date(ms).toISOString()] *)
  toISOString : Z -> string;
  (** The table [LIT_CHAINS] and the text of a member of [AuthMethodType],
      both of [@lit-protocol/constants]. *)
  LIT_CHAINS : string -> option LITChain;
  AuthMethodType_toString : AuthMethodType -> string;
  (** [parseJWT] and [parseAuthenticatorData], which the providers import
      from [utils] and [utils] does not define; the second is taken with the
      read of the credential public key that follows it. *)
  parseJWT : string -> Res JsValue;
  credentialPublicKey : bytes -> Res (bytes);
  (** Collaborators. *)
  Date_now : Ext -> Z;
  nanoid : nat -> Ext -> string * Ext;
  checkAndSignAuthMessage : string -> option string -> Ext -> Res (option AuthSig) * Ext;
  convertToISOString : Z -> string -> Ext -> Res string * Ext;
  prepareMessage : SiweMessage -> Ext -> Res string * Ext;
  fetch : string -> string -> Ext -> Res Response * Ext;
  getBlock : string -> Ext -> Res Block * Ext;
  startAuthentication : AuthenticationOptions -> Ext -> Res JsValue * Ext;
  startRegistration : JsValue -> Ext -> Res JsValue * Ext;
  generateRegistrationOptions : option string -> Ext -> Res JsValue * Ext;
  mintPKP : AuthMethodType -> string -> Ext -> Res JsValue * Ext;
}.

(** A function the caller passes as [options.signMessage]. *)
Definition SignMessage `{P : Platform} : Type := string -> Ext -> Res string * Ext.

(** ** The world a call runs in *)

Record World `{P : Platform} : Type := {
  window : Window;
  calls : list Call;
  ext : Ext;
}.

Section Effects.
Context `{P : Platform}.

(** A call that leaves the client: it is logged, and runs on [Ext]. *)
Definition call {A : Type} (c : Call) (f : Ext -> Res A * Ext) : M World A :=
  fun w =>
    let '(r, e) := f (ext w) in
    (r, {| window := window w; calls := (calls w ++ [c])%list; ext := e |}).

(** A library function that reads the clock or the random source. *)
Definition run_ext {A : Type} (f : Ext -> Res A * Ext) : M World A :=
  fun w =>
    let '(r, e) := f (ext w) in
    (r, {| window := window w; calls := calls w; ext := e |}).

Definition window_get {A : Type} (f : Window -> A) : M World A :=
  gets (fun w => f (window w)).

Definition window_set (f : Window -> Window) : M World unit :=
  modify (fun w => {| window := f (window w); calls := calls w; ext := ext w |}).

(** [window.location.assign(url)]: the navigation is logged. *)
Definition location_assign (url : string) : M World unit :=
  call (CallLocationAssign url) (fun e => (Ok tt, e)).

(** Whether a document can have its address rewritten to a target: the
    scheme, the credentials, the host and the port are the same; under a
    scheme other than [http] and [https] the path is the same too, and but
    for [file] the query. *)
Definition can_rewrite (document target : Url) : bool :=
  String.eqb (url_protocol target) (url_protocol document)
  && String.eqb (url_username target) (url_username document)
  && String.eqb (url_password target) (url_password document)
  && String.eqb (url_hostname target) (url_hostname document)
  && String.eqb (url_port target) (url_port document)
  && (String.eqb (url_protocol target) "https:"
      || String.eqb (url_protocol target) "http:"
      || (String.eqb (url_pathname target) (url_pathname document)
          && (String.eqb (url_protocol target) "file:"
              || String.eqb (url_search target) (url_search document)))).

(** What [history.replaceState] throws for an address that does not parse
    or that the document cannot be rewritten to: a [SecurityError], here
    with the message one browser gives it. *)
Definition insecure_operation : Exn := SecurityError "The operation is insecure.".

(** The window after [history.replaceState(data, title, url)]: [url] is
    parsed against the address of the document; the address, its path and
    its query become those of the result.  The origin stays, as the check
    demands, and the title is not used. *)
Definition replaceState (url : string) (w : Window) : Res Window :=
  match URL_parse (href w) None, URL_parse url (Some (href w)) with
  | Some document, Some target =>
      if can_rewrite document target
      then Ok {| href := url_href target; origin := origin w; hostname := hostname w;
                 pathname := url_pathname target; search := url_search target;
                 title := title w; sessionStorage := sessionStorage w |}
      else Throw insecure_operation
  | _, _ => Throw insecure_operation
  end.

(** [window.history.replaceState(null, title, url)] *)
Definition history_replaceState (url : string) : M World unit :=
  call (CallHistoryReplaceState url) (fun e => (Ok tt, e)) ;;
  current <- window_get (fun w => w) ;;
  rewritten <- lift (replaceState url current) ;;
  window_set (fun _ => rewritten).

(** A method of an object with fields [Self]: it runs on the fields and the
    world. *)
Definition inWorld {Self A : Type} (m : M World A) : M (Self * World) A :=
  fun s =>
    let '(r, w) := m (snd s) in (r, (fst s, w)).

Definition this {Self : Type} : M (Self * World) Self := gets fst.

Definition set_this {Self : Type} (f : Self -> Self) : M (Self * World) unit :=
  modify (fun s => (f (fst s), snd s)).

End Effects.

(** Truthiness of a value that is a string, [null] or [undefined]. *)
Definition truthy_str (o : option string) : bool :=
  match o with
  | Some s => negb (String.eqb s EmptyString)
  | None => false
  end.

(** [${o}] for a string or [null]. *)
Definition str_or_null (o : option string) : string := default "null" o.

(** ** [utils]: login URL, OAuth state parameter, identity derivation *)

Module Utils.
Section Utils.
Context `{P : Platform}.

Definition STATE_PARAM_KEY : string := "lit-state-param".

Definition isSocialLoginSupported (provider : string) : bool :=
  existsb (String.eqb provider) ["google"; "discord"].

Definition getLoginRoute (provider : string) : Res string :=
  if String.eqb provider "google" then Ok "/auth/google"
  else if String.eqb provider "discord" then Ok "/auth/discord"
  else Throw (Error ("No login route available for the given provider "
                       ++ quoted provider ++ ".")).

(** The parameters are the entries of the object in key order, [None] for
    an [undefined] value. *)
Definition createQueryParams (params : list (string * option string)) : string :=
  let filteredParams :=
    omap (fun kv => match snd kv with
                    | Some v => Some (fst kv, v)
                    | None => None
                    end) params in
  URLSearchParams_toString filteredParams.

Definition parseLoginParams (search : string) : LoginUrlParams :=
  {| provider := URLSearchParams_get search "provider";
     param_accessToken := URLSearchParams_get search "access_token";
     idToken := URLSearchParams_get search "id_token";
     state := URLSearchParams_get search "state";
     error := URLSearchParams_get search "error" |}.

Definition isSignInRedirect (redirectUri : string) : M World bool :=
  h <- window_get href ;;
  let isRedirectUri := startsWith h redirectUri in
  if negb isRedirectUri then ret false
  else
    q <- window_get search ;;
    let params := parseLoginParams q in
    if isRedirectUri
       && (truthy_str (provider params) || truthy_str (param_accessToken params)
           || truthy_str (idToken params) || truthy_str (state params)
           || truthy_str (error params))
    then ret true
    else ret false.

Definition getProviderFromUrl : M World (option string) :=
  q <- window_get search ;;
  ret (provider (parseLoginParams q)).

Definition setStateParam : M World string :=
  state <- call (CallNanoid 15)
             (fun e => let '(s, e') := nanoid 15 e in (Ok s, e')) ;;
  window_set (setItem STATE_PARAM_KEY state) ;;
  ret state.

Definition getStateParam : M World (option string) :=
  window_get (fun w => sessionStorage w !! STATE_PARAM_KEY).

Definition removeStateParam : M World unit :=
  window_set (removeItem STATE_PARAM_KEY).

Definition encode (value : string) : string := btoa value.

Definition decode (value : string) : Res string := atob value.

Definition prepareLoginUrl (provider redirectUri : string) : M World string :=
  let baseUrl := "https://login.litgateway.com" in
  route <- lift (getLoginRoute provider) ;;
  let loginUrl := baseUrl ++ route in
  token <- setStateParam ;;
  let state := encode token in
  let authParams := [("app_redirect", Some redirectUri)] in
  let queryAuthParams := createQueryParams authParams in
  ret (loginUrl ++ "?" ++ queryAuthParams ++ "&state=" ++ state).

(** [\w] and [\d] of the two patterns of [getRPIdFromOrigin]. *)
Definition is_digit (c : ascii) : bool :=
  let n := nat_of_ascii c in ((48 <=? n) && (n <=? 57))%nat.

Definition is_word (c : ascii) : bool :=
  let n := nat_of_ascii c in
  (((65 <=? n) && (n <=? 90)) || ((97 <=? n) && (n <=? 122)) || (n =? 95))%nat
  || is_digit c.

Fixpoint drop_while (f : ascii -> bool) (s : string) : string :=
  match s with
  | String c rest => if f c then drop_while f rest else s
  | EmptyString => EmptyString
  end.

Definition string_rev (s : string) : string :=
  string_of_list_ascii (rev (list_ascii_of_string s)).

(** [origin.replace(/(^\w+:|^)\/\//, '')]: a leading scheme with its two
    slashes, or two leading slashes, are removed. *)
Definition remove_protocol (origin : string) : string :=
  let rest := drop_while is_word origin in
  if negb (String.eqb rest origin) && String.prefix "://" rest
  then String.substring 3 (String.length rest - 3) rest
  else if String.prefix "//" origin
  then String.substring 2 (String.length origin - 2) origin
  else origin.

(** [s.replace(/:\d+$/, '')]: a colon followed by digits up to the end is
    removed. *)
Definition remove_port (s : string) : string :=
  let r := string_rev s in
  let rest := drop_while is_digit r in
  if negb (String.eqb rest r) && String.prefix ":" rest
  then string_rev (String.substring 1 (String.length rest - 1) rest)
  else s.

Definition getRPIdFromOrigin (origin : string) : string :=
  let newOrigin := remove_protocol origin in
  remove_port newOrigin.

Definition getDiscordUserInfo (accessToken : string) : M World JsValue :=
  let url := "https://discord.com/api/users/@me" in
  let authorization := "Bearer " ++ accessToken in
  meResponse <- call (CallFetchDiscordUser accessToken) (fetch url authorization) ;;
  if ok meResponse then lift (json meResponse)
  else throw (Error "Unable to fetch Discord user info").

Definition getDiscordAuthMethodId (authMethod : AuthMethod) : M World JsValue :=
  user <- getDiscordUserInfo (accessToken authMethod) ;;
  lift (id <~ get user "id" ;;
        id_text <~ ToString id ;;
        Ok (JStr (keccak256 (toUtf8Bytes (id_text ++ ":1052874239658692668"))))).

Definition getGoogleUserInfo (idToken : string) : Res JsValue := decodeJwt idToken.

Definition getGoogleAuthMethodId (authMethod : AuthMethod) : Res JsValue :=
  payload <~ getGoogleUserInfo (accessToken authMethod) ;;
  sub <~ get payload "sub" ;;
  sub_text <~ ToString sub ;;
  aud <~ get payload "aud" ;;
  aud_text <~ ToString aud ;;
  Ok (JStr (keccak256 (toUtf8Bytes (sub_text ++ ":" ++ aud_text)))).

Definition getEthWalletAuthMethodId (authMethod : AuthMethod) : Res JsValue :=
  authSig <~ JSON_parse (accessToken authMethod) ;;
  get authSig "address".

Definition getWebAuthnAuthMethodId (authMethod : AuthMethod) : Res JsValue :=
  data <~ JSON_parse (accessToken authMethod) ;;
  rawId <~ get data "rawId" ;;
  rawId_text <~ ToString rawId ;;
  Ok (JStr (keccak256 (toUtf8Bytes (rawId_text ++ ":lit")))).

Definition parseOTPJWT (jwt : string) : Res JsValue :=
  let parts := split "." jwt in
  if negb (length parts =? 3)%nat then Throw (Error "Invalid token length")
  else
    let body := Buffer_from_base64 (nth 1 parts EmptyString) in
    JSON_parse (Buffer_toString_ascii body).

Definition getOTPMethodId (authMethod : AuthMethod) : Res JsValue :=
  tokenBody <~ parseOTPJWT (accessToken authMethod) ;;
  orgId_claim <~ get tokenBody "orgId" ;;
  orgId_text <~ as_string_method "toLowerCase" orgId_claim ;;
  let orgId := toLowerCase orgId_text in
  extraData <~ get tokenBody "extraData" ;;
  message <~ as_string_method "split" extraData ;;
  let contents := split "|" message in
  let userId := hd EmptyString contents in
  Ok (JStr (keccak256 (toUtf8Bytes (userId ++ ":" ++ orgId)))).

(** The message of the [default] branch of the dispatcher. *)
Definition invalid_type_message (t : AuthMethodType) : string :=
  "Invalid auth method type " ++ quoted (AuthMethodType_toString t) ++ " passed".

Definition getAuthMethodId (authMethod : AuthMethod) : M World JsValue :=
  match authMethodType authMethod with
  | GoogleJwt => lift (getGoogleAuthMethodId authMethod)
  | Discord => getDiscordAuthMethodId authMethod
  | EthWallet => lift (getEthWalletAuthMethodId authMethod)
  | WebAuthn => lift (getWebAuthnAuthMethodId authMethod)
  | OTP => lift (getOTPMethodId authMethod)
  | other => throw (Error (invalid_type_message other))
  end.

End Utils.
End Utils.

(** ** [EthWalletProvider] *)

Module EthWalletProvider.
Section Provider.
Context `{P : Platform}.

(** The fields of an instance: [domain], [origin] and the private
    [#authSig]. *)
Record Fields : Type := {
  this_domain : string;
  this_origin : string;
  this_authSig : option AuthSig;
}.

Record EthWalletProviderOptions : Type := {
  options_domain : option string;
  options_origin : option string;
}.

Record EthWalletAuthenticateOptions : Type := {
  options_address : option string;
  options_signMessage : option SignMessage;
  options_chain : option string;
  options_expiration : option string;
  options_cache : JsValue;
  options_expirationUnit : option string;
  options_expirationLength : option Z;
}.

Definition constructor (options : EthWalletProviderOptions) (w : Window) : Fields :=
  {| this_domain := if truthy_str (options_domain options)
                    then default EmptyString (options_domain options)
                    else hostname w;
     this_origin := if truthy_str (options_origin options)
                    then default EmptyString (options_origin options)
                    else origin w;
     this_authSig := None |}.

Definition set_authSig (a : AuthSig) (p : Fields) : Fields :=
  {| this_domain := this_domain p; this_origin := this_origin p;
     this_authSig := Some a |}.

(** [options.cache] after the line that turns [null] into [true] (the
    assignment is to the object of the caller, which nothing reads
    afterwards but this method). *)
Definition cache_of (options : option EthWalletAuthenticateOptions) : JsValue :=
  match options with
  | Some o => match options_cache o with
              | JNull => JBool true
              | c => c
              end
  | None => JUndefined
  end.

(** The [expiration] argument of the cached path: present when both
    [expirationUnit] and [expirationLength] are truthy. *)
Definition cache_expiration (options : option EthWalletAuthenticateOptions)
  : M World (option string) :=
  match options ≫= options_expirationUnit, options ≫= options_expirationLength with
  | Some unit_, Some len =>
      if negb (String.eqb unit_ EmptyString) && negb (len =? 0)%Z
      then e <- run_ext (convertToISOString len unit_) ;; ret (Some e)
      else ret None
  | _, _ => ret None
  end.

(** The branch that builds the sign-in message and has it signed by the
    function of the caller. *)
Definition sign_with (p : Fields) (options : option EthWalletAuthenticateOptions)
    (chain address : string) (signMessage : SignMessage) : M World AuthSig :=
  let selectedChain := LIT_CHAINS chain in
  let chainId :=
    match selectedChain with
    | Some c => if (chainId c =? 0)%Z then 1%Z else chainId c
    | None => 1%Z
    end in
  expiration <-
    (if truthy_str (options ≫= options_expiration)
     then ret (default EmptyString (options ≫= options_expiration))
     else now <- gets (fun w => Date_now (ext w)) ;;
          ret (toISOString (now + 1000 * 60 * 60 * 24)%Z)) ;;
  checksummed <- lift (getAddress address) ;;
  let preparedMessage :=
    {| siwe_domain := this_domain p;
       siwe_uri := this_origin p;
       siwe_address := checksummed;
       siwe_version := "1";
       siwe_chainId := chainId;
       siwe_expirationTime := expiration |} in
  toSign <- run_ext (prepareMessage preparedMessage) ;;
  signature <- call (CallSignMessage toSign) (signMessage toSign) ;;
  ret {| sig := signature;
         derivedVia := "web3.eth.personal.sign";
         signedMessage := toSign;
         address := address |}.

(** [options?.chain || 'ethereum'] *)
Definition chain_of (options : option EthWalletAuthenticateOptions) : string :=
  if truthy_str (options ≫= options_chain)
  then default EmptyString (options ≫= options_chain)
  else "ethereum".

Definition authenticate (options : option EthWalletAuthenticateOptions)
  : M (Fields * World) AuthMethod :=
  let address := options ≫= options_address in
  let signMessage := options ≫= options_signMessage in
  let chain := chain_of options in
  p <- this ;;
  authSig <-
    (if truthy (cache_of options)
     then
       inWorld (expiration <- cache_expiration options ;;
                call (CallCheckAndSignAuthMessage chain expiration)
                  (checkAndSignAuthMessage chain expiration))
     else
       match (if truthy_str address then signMessage else None) with
       | Some sign =>
           a <- inWorld (sign_with p options chain
                           (default EmptyString address) sign) ;;
           ret (Some a)
       | None =>
           inWorld (call (CallCheckAndSignAuthMessage chain None)
                      (checkAndSignAuthMessage chain None))
       end) ;;
  match authSig with
  | None => throw (Error "Auth signature is undefined")
  | Some a =>
      set_this (set_authSig a) ;;
      let authMethod :=
        {| authMethodType := EthWallet;
           accessToken := JSON_stringify (AuthSig_value a) |} in
      ret authMethod
  end.

Definition getAuthMethodId : M (Fields * World) string :=
  p <- this ;;
  match this_authSig p with
  | None => throw (Error "Auth signature is not defined. Call authenticate first.")
  | Some a =>
      let authMethodId := address a in
      ret authMethodId
  end.

End Provider.
End EthWalletProvider.

(** ** [AppleProvider] *)

Module AppleProvider.
Section Provider.
Context `{P : Platform}.

(** The fields of an instance: [redirectUri] and the private [#idToken]
    (the private [#clientId] is a constant no method reads). *)
Record Fields : Type := {
  redirectUri : string;
  this_idToken : option string;
}.

Definition constructor (options_redirectUri : option string) (w : Window) : Fields :=
  {| redirectUri := if truthy_str options_redirectUri
                    then default EmptyString options_redirectUri
                    else origin w;
     this_idToken := None |}.

Definition set_idToken (token : string) (p : Fields) : Fields :=
  {| redirectUri := redirectUri p; this_idToken := Some token |}.

Definition signIn : M (Fields * World) unit :=
  p <- this ;;
  loginUrl <- inWorld (Utils.prepareLoginUrl "apple" (redirectUri p)) ;;
  inWorld (location_assign loginUrl).

Definition getAuthMethodStorageUID (accessToken : option string) : Res string :=
  Throw (Error "Method not implemented.").

(** The messages of the four checks of [authenticate]. *)
Definition redirect_mismatch (href redirectUri : string) : Exn :=
  Error ("Current url " ++ quoted href
           ++ " does not match provided redirect uri " ++ quoted redirectUri).

Definition provider_mismatch (provider : option string) : Exn :=
  Error ("OAuth provider " ++ quoted (str_or_null provider)
           ++ " passed in redirect callback URL does not match " ++ quoted "apple").

Definition invalid_state (state : option string) : Exn :=
  Error ("Invalid state parameter " ++ quoted (str_or_null state)
           ++ " passed in redirect callback URL").

Definition missing_id_token : Exn :=
  Error ("Missing ID token in redirect callback URL for Apple OAuth" ++ dq).

(** [state && decode(decodeURIComponent(state)) === getStateParam()]: the
    condition under which the state check lets the callback through. *)
Definition state_matches (state : option string) : M World bool :=
  if negb (truthy_str state) then ret false
  else
    unescaped <- lift (decodeURIComponent (default EmptyString state)) ;;
    decoded <- lift (Utils.decode unescaped) ;;
    stored <- Utils.getStateParam ;;
    ret (bool_decide (Some decoded = stored)).

Definition authenticate : M (Fields * World) AuthMethod :=
  p <- this ;;
  current <- inWorld (window_get href) ;;
  if negb (startsWith current (redirectUri p))
  then throw (redirect_mismatch current (redirectUri p))
  else
    query <- inWorld (window_get search) ;;
    let params := Utils.parseLoginParams query in
    if truthy_str (error params)
    then throw (Error (default EmptyString (error params)))
    else if negb (truthy_str (provider params))
            || negb (bool_decide (provider params = Some "apple"))
    then throw (provider_mismatch (provider params))
    else
      matches <- inWorld (state_matches (state params)) ;;
      if negb matches
      then throw (invalid_state (state params))
      else
        path <- inWorld (window_get pathname) ;;
        inWorld (history_replaceState path) ;;
        if negb (truthy_str (idToken params))
        then throw missing_id_token
        else
          let token := default EmptyString (idToken params) in
          set_this (set_idToken token) ;;
          let authMethod :=
            {| authMethodType := AppleJwt; accessToken := token |} in
          ret authMethod.

Definition getAuthMethodId : M (Fields * World) string :=
  p <- this ;;
  if negb (truthy_str (this_idToken p))
  then throw (Error "Id token is not defined. Call authenticate first.")
  else
    lift (tokenPayload <~ parseJWT (default EmptyString (this_idToken p)) ;;
          userId <~ get tokenPayload "sub" ;;
          audience <~ get tokenPayload "aud" ;;
          userId_text <~ ToString userId ;;
          audience_text <~ ToString audience ;;
          Ok (keccak256 (toUtf8Bytes (userId_text ++ ":" ++ audience_text)))).

End Provider.
End AppleProvider.

(** ** [WebAuthnProvider] *)

Module WebAuthnProvider.
Section Provider.
Context `{P : Platform}.

(** The fields of an instance: [rpcUrl], which the base class sets, and the
    private [#attestationResponse], [undefined] at first. *)
Record Fields : Type := {
  rpcUrl : string;
  this_attestationResponse : JsValue;
}.

Definition constructor (options_rpcUrl : string) : Fields :=
  {| rpcUrl := options_rpcUrl; this_attestationResponse := JUndefined |}.

Definition set_attestationResponse (v : JsValue) (p : Fields) : Fields :=
  {| rpcUrl := rpcUrl p; this_attestationResponse := v |}.

Definition register (username : option string) : M (Fields * World) JsValue :=
  inWorld (call (CallGenerateRegistrationOptions username)
             (generateRegistrationOptions username)).

Definition getAuthMethodId : M (Fields * World) string :=
  p <- this ;;
  if negb (truthy (this_attestationResponse p))
  then throw (Error "Authentication data is not defined. Call authenticate first.")
  else
    lift (credentialRawId <~ get (this_attestationResponse p) "rawId" ;;
          rawId_text <~ ToString credentialRawId ;;
          Ok (keccak256 (toUtf8Bytes (rawId_text ++ ":lit")))).

(** The request [verifyAndMintPKPThroughRelayer] serializes for the relay. *)
Definition RelayerRequest_value (r : RelayerRequest) : JsValue :=
  JObj ([("authMethodType", JNum (AuthMethodType_toString (req_authMethodType r)));
         ("authMethodId", JStr (req_authMethodId r))]
        ++ match req_authMethodPubKey r with
           | Some k => [("authMethodPubKey", JStr k)]
           | None => []
           end)%list.

Definition verifyAndMintPKPThroughRelayer (options : JsValue)
  : M (Fields * World) JsValue :=
  attResp <- inWorld (call (CallStartRegistration options) (startRegistration options)) ;;
  authMethodId <- getAuthMethodId ;;
  response <- lift (get attResp "response") ;;
  attestationObject <- lift (get response "attestationObject") ;;
  attestationBuffer <-
    match attestationObject with
    | JStr s => ret (Buffer_from_base64 s)
    | _ => throw (TypeError "The first argument must be of type string")
    end ;;
  publicKey <-
    match credentialPublicKey attestationBuffer with
    | Ok publicKeyCoseBuffer => ret (hexlify publicKeyCoseBuffer)
    | Throw e =>
        throw (Error ("Error while decoding credential create response for public key retrieval. attestation response not encoded as expected: "
                        ++ Exn_toString e))
    end ;;
  let req := {| req_authMethodType := WebAuthn;
                req_authMethodId := authMethodId;
                req_authMethodPubKey := Some publicKey |} in
  let body := JSON_stringify (RelayerRequest_value req) in
  mintRes <- inWorld (call (CallMintPKP WebAuthn body) (mintPKP WebAuthn body)) ;;
  if negb (truthy mintRes) then
    throw (Error "Missing mint response or request ID from relay server")
  else
    requestId <- lift (get mintRes "requestId") ;;
    if negb (truthy requestId) then
      throw (Error "Missing mint response or request ID from relay server")
    else ret requestId.

Definition mintPKPThroughRelayer : M (Fields * World) string :=
  throw (Error "Use verifyAndMintPKPThroughRelayer for WebAuthnProvider instead.").

(** [JSON.parse(JSON.stringify(v))]: for [undefined] the text to parse is
    the word [undefined]. *)
Definition json_copy (v : JsValue) : Res JsValue :=
  match v with
  | JUndefined => JSON_parse "undefined"
  | _ => JSON_parse (JSON_stringify v)
  end.

Definition authenticate : M (Fields * World) AuthMethod :=
  p <- this ;;
  block <- inWorld (call (CallGetBlock (rpcUrl p)) (getBlock (rpcUrl p))) ;;
  let blockHash := hash block in
  blockHashBytes <- lift (arrayify blockHash) ;;
  o <- inWorld (window_get origin) ;;
  let rpId := Utils.getRPIdFromOrigin o in
  let authenticationOptions :=
    {| challenge := base64url blockHashBytes;
       timeout := 60000;
       userVerification := "required";
       rpId := rpId |} in
  authenticationResponse <-
    inWorld (call (CallStartAuthentication authenticationOptions)
               (startAuthentication authenticationOptions)) ;;
  copy <- lift (json_copy authenticationResponse) ;;
  response <- lift (get authenticationResponse "response") ;;
  userHandle <- lift (get_opt response "userHandle") ;;
  actualAuthenticationResponse <-
    (if truthy userHandle
     then lift (target <~ get copy "response" ;;
                encoded <~ base64url_encode userHandle ;;
                target' <~ set target "userHandle" (JStr encoded) ;;
                set copy "response" target')
     else ret copy) ;;
  set_this (set_attestationResponse actualAuthenticationResponse) ;;
  let authMethod :=
    {| authMethodType := WebAuthn;
       accessToken := JSON_stringify actualAuthenticationResponse |} in
  ret authMethod.

Definition verify : M (Fields * World) bool :=
  throw (Error "Call useSessionSigs as the Lit nodes will verify the WebAuthn credential when generating session sigs.").

Definition getRelayerRequest : M (Fields * World) RelayerRequest :=
  p <- this ;;
  if negb (truthy (this_attestationResponse p))
  then throw (Error "Access token is not defined. Call authenticate first.")
  else
    authMethodId <- getAuthMethodId ;;
    ret {| req_authMethodType := WebAuthn;
           req_authMethodId := authMethodId;
           req_authMethodPubKey := None |}.

End Provider.
End WebAuthnProvider.

(** * A reference platform

    Concrete definitions of the library functions, on which the model runs:
    Keccak-256 and the EIP-55 address checksum of ethers, base64 in the
    variants of the browser, of Node and of the [base64url] package, JSON,
    query strings and JWT decoding; and simple collaborators whose answers
    are read from a record. *)

Module Reference.

(** ** Bytes and hexadecimal text *)

Definition Z_of_byte (b : Byte.byte) : Z := Z.of_N (Byte.to_N b).

Definition byte_of_Z (z : Z) : Byte.byte :=
  default Byte.x00 (Byte.of_N (Z.to_N (z mod 256))).

Definition Z_of_ascii (c : ascii) : Z := Z.of_N (N_of_ascii c).

Definition ascii_of_Z (z : Z) : ascii := ascii_of_N (Z.to_N (z mod 256)).

Definition codes (s : string) : list Z := map Z_of_ascii (list_ascii_of_string s).

Definition of_codes (l : list Z) : string := string_of_list_ascii (map ascii_of_Z l).

Definition hex_digit (n : Z) : ascii :=
  if (n <? 10)%Z then ascii_of_Z (48 + n) else ascii_of_Z (87 + n).

(** The value of a hexadecimal digit of either case. *)
Definition hex_value (c : ascii) : option Z :=
  let n := Z_of_ascii c in
  if ((48 <=? n) && (n <=? 57))%Z then Some (n - 48)%Z
  else if ((97 <=? n) && (n <=? 102))%Z then Some (n - 87)%Z
  else if ((65 <=? n) && (n <=? 70))%Z then Some (n - 55)%Z
  else None.

Fixpoint hex_of_bytes (l : bytes) : string :=
  match l with
  | [] => EmptyString
  | b :: rest =>
      let n := Z_of_byte b in
      String (hex_digit (n / 16)) (String (hex_digit (n mod 16)) (hex_of_bytes rest))
  end.

(** [utils.hexlify] of bytes. *)
Definition hexlify (l : bytes) : string := "0x" ++ hex_of_bytes l.

Fixpoint bytes_of_hex (s : string) : option bytes :=
  match s with
  | EmptyString => Some []
  | String hi (String lo rest) =>
      match hex_value hi, hex_value lo, bytes_of_hex rest with
      | Some h, Some l, Some bs => Some (byte_of_Z (16 * h + l) :: bs)
      | _, _, _ => None
      end
  | String _ EmptyString => None
  end.

(** [utils.arrayify] of a string: hexadecimal text with its prefix and an
    even number of digits. *)
Definition arrayify (s : string) : Res bytes :=
  if String.prefix "0x" s then
    match bytes_of_hex (String.substring 2 (String.length s - 2) s) with
    | Some bs => Ok bs
    | None => Throw (Error "invalid arrayify value")
    end
  else Throw (Error "invalid arrayify value").

(** [utils.toUtf8Bytes]: a code unit below 128 is one byte, one below 256
    two bytes. *)
Definition toUtf8Bytes (s : string) : bytes :=
  flat_map (fun n => if (n <? 128)%Z then [byte_of_Z n]
                     else [byte_of_Z (192 + n / 64); byte_of_Z (128 + n mod 64)])
    (codes s).

(** ** Keccak-256 *)

Module Keccak.

Definition rotl (v n : Z) : Z :=
  Z.land (Z.lor (Z.shiftl v n) (Z.shiftr v (64 - n))) (Z.ones 64).

(** The state: 25 lanes of 64 bits, lane [(x, y)] at index [x + 5 y]. *)
Definition lane (st : list Z) (x y : nat) : Z :=
  nth ((x mod 5) + 5 * (y mod 5))%nat st 0%Z.

Definition round_constants : list Z :=
  [0x0000000000000001; 0x0000000000008082; 0x800000000000808A; 0x8000000080008000;
   0x000000000000808B; 0x0000000080000001; 0x8000000080008081; 0x8000000000008009;
   0x000000000000008A; 0x0000000000000088; 0x0000000080008009; 0x000000008000000A;
   0x000000008000808B; 0x800000000000008B; 0x8000000000008089; 0x8000000000008003;
   0x8000000000008002; 0x8000000000000080; 0x000000000000800A; 0x800000008000000A;
   0x8000000080008081; 0x8000000000008080; 0x0000000080000001; 0x8000000080008008]%Z.

Definition rotation_offsets : list Z :=
  [0; 1; 62; 28; 27;
   36; 44; 6; 55; 20;
   3; 10; 43; 25; 39;
   41; 45; 15; 21; 8;
   18; 2; 61; 56; 14]%Z.

Definition coords : list (nat * nat) :=
  flat_map (fun y => map (fun x => (x, y)) (seq 0 5)) (seq 0 5).

Definition theta (st : list Z) : list Z :=
  let C x := fold_left Z.lxor (map (lane st x) (seq 0 5)) 0%Z in
  let D x := Z.lxor (C (x + 4)%nat) (rotl (C (x + 1)%nat) 1) in
  map (fun '(x, y) => Z.lxor (lane st x y) (D x)) coords.

Definition rho_pi (st : list Z) : list Z :=
  map (fun '(X, Y) =>
         let x := ((X + 3 * Y) mod 5)%nat in
         let y := X in
         rotl (lane st x y) (nth (x + 5 * y)%nat rotation_offsets 0%Z)) coords.

Definition chi (st : list Z) : list Z :=
  map (fun '(x, y) =>
         Z.lxor (lane st x y)
           (Z.land (Z.lxor (lane st (x + 1) y) (Z.ones 64)) (lane st (x + 2) y)))
    coords.

Definition iota (rc : Z) (st : list Z) : list Z :=
  match st with
  | a :: rest => Z.lxor a rc :: rest
  | [] => []
  end.

Definition round (st : list Z) (rc : Z) : list Z := iota rc (chi (rho_pi (theta st))).

Definition permute (st : list Z) : list Z := fold_left round round_constants st.

(** A lane from eight bytes, least significant first, and back. *)
Fixpoint lane_of_bytes (l : list Z) : Z :=
  match l with
  | [] => 0
  | b :: rest => b + 256 * lane_of_bytes rest
  end%Z.

Fixpoint bytes_of_lane (n : nat) (v : Z) : list Z :=
  match n with
  | O => []
  | S n' => (v mod 256)%Z :: bytes_of_lane n' (v / 256)%Z
  end.

Fixpoint chunks (fuel size : nat) (l : list Z) : list (list Z) :=
  match fuel with
  | O => []
  | S fuel' =>
      match l with
      | [] => []
      | _ => firstn size l :: chunks fuel' size (skipn size l)
      end
  end.

(** The rate of Keccak-256 in bytes, and the padding of a message to whole
    blocks: a byte 1, zeros, and the top bit of the last byte. *)
Definition rate : nat := 136.

Definition pad (msg : list Z) : list Z :=
  let zeros := (rate - 1 - (length msg mod rate))%nat in
  let padded := (msg ++ 1%Z :: repeat 0%Z zeros)%list in
  (firstn (length padded - 1) padded
     ++ [Z.lor (List.last padded 0%Z) 128])%list.

Definition absorb (st : list Z) (block : list Z) : list Z :=
  let lanes := map lane_of_bytes (chunks 25 8 block) in
  let lanes := (lanes ++ repeat 0%Z (25 - length lanes))%list in
  permute (map (fun '(a, b) => Z.lxor a b) (combine st lanes)).

Definition digest (msg : list Z) : list Z :=
  let padded := pad msg in
  let st := fold_left absorb (chunks (S (length padded)) rate padded) (repeat 0%Z 25) in
  firstn 32 (flat_map (bytes_of_lane 8) st).

End Keccak.

(** [utils.keccak256] of bytes. *)
Definition keccak256 (data : bytes) : string :=
  hexlify (map byte_of_Z (Keccak.digest (map Z_of_byte data))).

(** ** Decimal text *)

Fixpoint digits_of (fuel : nat) (n : Z) (acc : string) : string :=
  match fuel with
  | O => acc
  | S fuel' =>
      let acc' := String (ascii_of_Z (48 + n mod 10)) acc in
      if (n <? 10)%Z then acc' else digits_of fuel' (n / 10)%Z acc'
  end.

(** The decimal text of an integer. *)
Definition decimal (n : Z) : string :=
  if (n <? 0)%Z then "-" ++ digits_of (Z.to_nat (Z.log2 (- n)) + 1) (- n) EmptyString
  else digits_of (Z.to_nat (Z.log2 n) + 1) n EmptyString.

(** The value of a text of decimal digits. *)
Definition number_of_digits (s : string) : Z :=
  fold_left (fun acc d => (10 * acc + (d - 48))%Z) (codes s) 0%Z.

Definition is_digit (c : ascii) : bool :=
  let n := Z_of_ascii c in ((48 <=? n) && (n <=? 57))%Z.

(** [s.padStart(n, c)] *)
Definition pad_left (n : nat) (c : ascii) (s : string) : string :=
  string_of_list_ascii (repeat c (n - String.length s)) ++ s.

(** ** Base64 *)

Module Base64.

Definition alphabet : string :=
  "ABCDEFGHIJKLMNOPQRSTUVWXYZabcdefghijklmnopqrstuvwxyz0123456789+/".

Definition url_alphabet : string :=
  "ABCDEFGHIJKLMNOPQRSTUVWXYZabcdefghijklmnopqrstuvwxyz0123456789-_".

Definition sextet_char (abc : string) (n : Z) : ascii :=
  default "="%char (String.get (Z.to_nat n) abc).

(** The value of a character of the standard alphabet. *)
Definition sextet (c : ascii) : option Z :=
  let n := Z_of_ascii c in
  if ((65 <=? n) && (n <=? 90))%Z then Some (n - 65)%Z
  else if ((97 <=? n) && (n <=? 122))%Z then Some (n - 71)%Z
  else if ((48 <=? n) && (n <=? 57))%Z then Some (n + 4)%Z
  else if (n =? 43)%Z then Some 62%Z
  else if (n =? 47)%Z then Some 63%Z
  else None.

(** The same, with the two characters of the URL-safe alphabet as well. *)
Definition sextet_any (c : ascii) : option Z :=
  let n := Z_of_ascii c in
  if (n =? 45)%Z then Some 62%Z
  else if (n =? 95)%Z then Some 63%Z
  else sextet c.

(** Three bytes give four characters; one or two bytes at the end give two
    or three, and padding when [padding] is set. *)
Fixpoint encode_with (abc : string) (padding : bool) (l : list Z) : string :=
  match l with
  | [] => EmptyString
  | [a] =>
      String (sextet_char abc (a / 4))
        (String (sextet_char abc (a mod 4 * 16))
           (if padding then "==" else EmptyString))
  | [a; b] =>
      String (sextet_char abc (a / 4))
        (String (sextet_char abc (a mod 4 * 16 + b / 16))
           (String (sextet_char abc (b mod 16 * 4))
              (if padding then "=" else EmptyString)))
  | a :: b :: c :: rest =>
      String (sextet_char abc (a / 4))
        (String (sextet_char abc (a mod 4 * 16 + b / 16))
           (String (sextet_char abc (b mod 16 * 4 + c / 64))
              (String (sextet_char abc (c mod 64))
                 (encode_with abc padding rest))))
  end.

(** Four sextets give three bytes; two or three at the end give one or two
    bytes, their unused low bits dropped; one at the end gives nothing. *)
Fixpoint decode_sextets (l : list Z) : list Z :=
  match l with
  | a :: b :: c :: d :: rest =>
      (a * 4 + b / 16) :: (b mod 16 * 16 + c / 4) :: (c mod 4 * 64 + d)
        :: decode_sextets rest
  | [a; b; c] => [a * 4 + b / 16; b mod 16 * 16 + c / 4]
  | [a; b] => [a * 4 + b / 16]
  | _ => []
  end%Z.

Definition is_whitespace (c : ascii) : bool :=
  let n := Z_of_ascii c in
  ((n =? 9) || (n =? 10) || (n =? 12) || (n =? 13) || (n =? 32))%Z.

Fixpoint all_some {A : Type} (l : list (option A)) : option (list A) :=
  match l with
  | [] => Some []
  | Some a :: rest => cons a <$> all_some rest
  | None :: _ => None
  end.

(** [window.btoa] *)
Definition btoa (s : string) : string := encode_with alphabet true (codes s).

(** The forgiving decoding of [window.atob]: white space is dropped; one
    or two padding characters are dropped from a text whose length is a
    multiple of four; a length of one more than a multiple of four, or a
    character outside the alphabet, is an error. *)
Definition strip_padding (l : list ascii) : list ascii :=
  if (length l mod 4 =? 0)%nat then
    match rev l with
    | "="%char :: "="%char :: r => rev r
    | "="%char :: r => rev r
    | _ => l
    end
  else l.

Definition atob (s : string) : Res string :=
  let l := strip_padding (filter (fun c => negb (is_whitespace c)) (list_ascii_of_string s)) in
  if (length l mod 4 =? 1)%nat
  then Throw (InvalidCharacterError "The string to be decoded is not correctly encoded.")
  else
    match all_some (map sextet l) with
    | Some ss => Ok (of_codes (decode_sextets ss))
    | None => Throw (InvalidCharacterError "The string to be decoded is not correctly encoded.")
    end.

(** [Buffer.from(s, 'base64')]: characters of neither alphabet are skipped,
    the text ends at the first padding character. *)
Fixpoint legal_sextets (l : list ascii) : list Z :=
  match l with
  | [] => []
  | c :: rest =>
      if Ascii.eqb c "=" then []
      else match sextet_any c with
           | Some v => v :: legal_sextets rest
           | None => legal_sextets rest
           end
  end.

Definition Buffer_from_base64 (s : string) : bytes :=
  map byte_of_Z (decode_sextets (legal_sextets (list_ascii_of_string s))).

(** [buf.toString('ascii')]: the low seven bits of each byte. *)
Definition Buffer_toString_ascii (b : bytes) : string :=
  of_codes (map (fun x => Z_of_byte x mod 128)%Z b).

(** [base64url(buf)]: the URL-safe alphabet, no padding. *)
Definition base64url (b : bytes) : string :=
  encode_with url_alphabet false (map Z_of_byte b).

(** [base64url.encode(v)] for a string, which is encoded as UTF-8. *)
Definition base64url_encode (v : JsValue) : Res string :=
  match v with
  | JStr s => Ok (base64url (toUtf8Bytes s))
  | _ => Throw (TypeError "The first argument must be of type string or an instance of Buffer")
  end.

(** The decoding of the payload of a JWT by [jose]: URL-safe characters are
    mapped to the standard ones, then the text is decoded as by [atob]. *)
Definition decode_url (s : string) : Res string :=
  atob (string_of_list_ascii
          (map (fun c => if Ascii.eqb c "-" then "+"%char
                         else if Ascii.eqb c "_" then "/"%char else c)
             (list_ascii_of_string s))).

End Base64.

(** ** JSON *)

Module Json.

Definition quote_char : ascii := "034".
Definition backslash : ascii := "092".

Definition is_ws (c : ascii) : bool :=
  let n := Z_of_ascii c in
  ((n =? 32) || (n =? 9) || (n =? 10) || (n =? 13))%Z.

Fixpoint skip_ws (s : string) : string :=
  match s with
  | String c rest => if is_ws c then skip_ws rest else s
  | EmptyString => EmptyString
  end.

(** The longest prefix of characters that satisfy [f], and the rest. *)
Fixpoint span (f : ascii -> bool) (s : string) : string * string :=
  match s with
  | String c rest =>
      if f c then let '(a, b) := span f rest in (String c a, b)
      else (EmptyString, s)
  | EmptyString => (EmptyString, EmptyString)
  end.

(** The character a two-character escape stands for. *)
Definition escape (e : ascii) : option ascii :=
  let n := Z_of_ascii e in
  if (n =? 34)%Z then Some quote_char
  else if (n =? 92)%Z then Some backslash
  else if (n =? 47)%Z then Some "/"%char
  else if (n =? 98)%Z then Some "008"%char
  else if (n =? 102)%Z then Some "012"%char
  else if (n =? 110)%Z then Some "010"%char
  else if (n =? 114)%Z then Some "013"%char
  else if (n =? 116)%Z then Some "009"%char
  else None.

(** The characters of a string literal after its opening quote, and the
    text after its closing quote.  A [\u] escape is read when it names a
    code unit below 256. *)
Fixpoint parse_string (s : string) : option (string * string) :=
  match s with
  | EmptyString => None
  | String c rest =>
      if Ascii.eqb c quote_char then Some (EmptyString, rest)
      else if Ascii.eqb c backslash then
        match rest with
        | String e rest' =>
            if Ascii.eqb e "u" then
              match rest' with
              | String h1 (String h2 (String h3 (String h4 rest''))) =>
                  match hex_value h1, hex_value h2, hex_value h3, hex_value h4 with
                  | Some 0%Z, Some 0%Z, Some a, Some b =>
                      match parse_string rest'' with
                      | Some (str, r) => Some (String (ascii_of_Z (16 * a + b)) str, r)
                      | None => None
                      end
                  | _, _, _, _ => None
                  end
              | _ => None
              end
            else
              match escape e, parse_string rest' with
              | Some ch, Some (str, r) => Some (String ch str, r)
              | _, _ => None
              end
        | EmptyString => None
        end
      else if (Z_of_ascii c <? 32)%Z then None
      else
        match parse_string rest with
        | Some (str, r) => Some (String c str, r)
        | None => None
        end
  end.

Fixpoint strip_leading_zeros (s : string) : string :=
  match s with
  | String "0" rest => strip_leading_zeros rest
  | _ => s
  end.

Definition strip_trailing_zeros (s : string) : string :=
  Utils.string_rev (strip_leading_zeros (Utils.string_rev s)).

Definition zeros (n : Z) : string := of_codes (repeat 48%Z (Z.to_nat n)).

(** [String(x)] for the number whose decimal digits are [digits] (no zero
    at either end, at most fifteen of them) and whose value is
    [0.digits * 10^n]: the notation of the language for a Number. *)
Definition number_text (negative : bool) (digits : string) (n : Z) : string :=
  let k := Z.of_nat (String.length digits) in
  let body :=
    if ((k <=? n) && (n <=? 21))%Z then digits ++ zeros (n - k)
    else if ((0 <? n) && (n <=? 21))%Z then
      String.substring 0 (Z.to_nat n) digits ++ "."
        ++ String.substring (Z.to_nat n) (Z.to_nat (k - n)) digits
    else if ((-6 <? n) && (n <=? 0))%Z then "0." ++ zeros (- n) ++ digits
    else
      let e := (n - 1)%Z in
      let exponent := (if (e <? 0)%Z then "e-" else "e+") ++ decimal (Z.abs e) in
      if (k =? 1)%Z then digits ++ exponent
      else String.substring 0 1 digits ++ "."
             ++ String.substring 1 (Z.to_nat (k - 1)) digits ++ exponent in
  if negative then "-" ++ body else body.

(** A number literal at the head of [s]: the text of its value and the
    rest.  Literals of more than fifteen significant digits, or of an
    exponent beyond 300, are not read. *)
Definition parse_number (s : string) : option (string * string) :=
  let '(negative, s1) :=
    match s with
    | String "-" r => (true, r)
    | _ => (false, s)
    end in
  let '(int_part, s2) := span is_digit s1 in
  if String.eqb int_part EmptyString then None
  else if String.prefix "0" int_part && negb (String.eqb int_part "0") then None
  else
    let frac :=
      match s2 with
      | String "." r =>
          let '(f, r') := span is_digit r in
          if String.eqb f EmptyString then None else Some (f, r')
      | _ => Some (EmptyString, s2)
      end in
    match frac with
    | None => None
    | Some (frac_part, s3) =>
        let expo :=
          match s3 with
          | String c r =>
              if Ascii.eqb c "e" || Ascii.eqb c "E" then
                let '(sign, r1) :=
                  match r with
                  | String "-" r' => ((-1)%Z, r')
                  | String "+" r' => (1%Z, r')
                  | _ => (1%Z, r)
                  end in
                let '(ds, r2) := span is_digit r1 in
                if String.eqb ds EmptyString then None
                else if (6 <? String.length ds)%nat then None
                else Some ((sign * number_of_digits ds)%Z, r2)
              else Some (0%Z, s3)
          | EmptyString => Some (0%Z, s3)
          end in
        match expo with
        | None => None
        | Some (e, rest) =>
            let all := int_part ++ frac_part in
            let significant := strip_leading_zeros all in
            let leading := (String.length all - String.length significant)%nat in
            let digits := strip_trailing_zeros significant in
            let n := (Z.of_nat (String.length int_part) + e - Z.of_nat leading)%Z in
            if String.eqb digits EmptyString then Some ("0", rest)
            else if (15 <? String.length digits)%nat then None
            else if (300 <? Z.abs n)%Z then None
            else Some (number_text negative digits n, rest)
        end
    end.

(** A value at the head of [s], after white space.  A key that occurs
    twice keeps its first place and its last value. *)
Fixpoint parse_value (fuel : nat) (s : string) : option (JsValue * string) :=
  match fuel with
  | O => None
  | S fuel' =>
      match skip_ws s with
      | EmptyString => None
      | String c rest as s' =>
          if Ascii.eqb c "{" then
            match skip_ws rest with
            | String "}" r => Some (JObj [], r)
            | _ => parse_members fuel' rest []
            end
          else if Ascii.eqb c "[" then
            match skip_ws rest with
            | String "]" r => Some (JArr [], r)
            | _ => parse_elements fuel' rest []
            end
          else if Ascii.eqb c quote_char then
            match parse_string rest with
            | Some (str, r) => Some (JStr str, r)
            | None => None
            end
          else if String.prefix "true" s' then
            Some (JBool true, String.substring 4 (String.length s' - 4) s')
          else if String.prefix "false" s' then
            Some (JBool false, String.substring 5 (String.length s' - 5) s')
          else if String.prefix "null" s' then
            Some (JNull, String.substring 4 (String.length s' - 4) s')
          else
            match parse_number s' with
            | Some (repr, r) => Some (JNum repr, r)
            | None => None
            end
      end
  end
with parse_members (fuel : nat) (s : string) (acc : list (string * JsValue))
  : option (JsValue * string) :=
  match fuel with
  | O => None
  | S fuel' =>
      match skip_ws s with
      | String c rest =>
          if Ascii.eqb c quote_char then
            match parse_string rest with
            | Some (key, r) =>
                match skip_ws r with
                | String ":" r1 =>
                    match parse_value fuel' r1 with
                    | Some (v, r2) =>
                        let acc' := put key v acc in
                        match skip_ws r2 with
                        | String "," r3 => parse_members fuel' r3 acc'
                        | String "}" r3 => Some (JObj acc', r3)
                        | _ => None
                        end
                    | None => None
                    end
                | _ => None
                end
            | None => None
            end
          else None
      | EmptyString => None
      end
  end
with parse_elements (fuel : nat) (s : string) (acc : list JsValue)
  : option (JsValue * string) :=
  match fuel with
  | O => None
  | S fuel' =>
      match parse_value fuel' s with
      | Some (v, r) =>
          match skip_ws r with
          | String "," r1 => parse_elements fuel' r1 (acc ++ [v])%list
          | String "]" r1 => Some (JArr (acc ++ [v])%list, r1)
          | _ => None
          end
      | None => None
      end
  end.

(** [JSON.parse] *)
Definition parse (text : string) : Res JsValue :=
  match parse_value (3 * String.length text + 3) text with
  | Some (v, rest) =>
      if String.eqb (skip_ws rest) EmptyString then Ok v
      else Throw (SyntaxError "Unexpected non-whitespace character after JSON")
  | None => Throw (SyntaxError "Unexpected token in JSON")
  end.

(** A string literal for [s]. *)
Fixpoint escape_chars (s : string) : string :=
  match s with
  | EmptyString => EmptyString
  | String c rest =>
      let n := Z_of_ascii c in
      (if (n =? 34)%Z then String backslash (String quote_char EmptyString)
       else if (n =? 92)%Z then String backslash (String backslash EmptyString)
       else if (n =? 8)%Z then String backslash "b"
       else if (n =? 12)%Z then String backslash "f"
       else if (n =? 10)%Z then String backslash "n"
       else if (n =? 13)%Z then String backslash "r"
       else if (n =? 9)%Z then String backslash "t"
       else if (n <? 32)%Z then
         String backslash ("u00" ++ String (hex_digit (n / 16))
                                      (String (hex_digit (n mod 16)) EmptyString))
       else String c EmptyString) ++ escape_chars rest
  end.

Definition string_literal (s : string) : string :=
  String quote_char (escape_chars s) ++ String quote_char EmptyString.

(** [JSON.stringify]: a property whose value is [undefined] is left out,
    an [undefined] element of an array is written [null]. *)
Fixpoint stringify (v : JsValue) : string :=
  match v with
  | JUndefined => EmptyString
  | JNull => "null"
  | JBool true => "true"
  | JBool false => "false"
  | JNum r =>
      if String.eqb r "NaN" || String.eqb r "Infinity" || String.eqb r "-Infinity"
      then "null" else r
  | JStr s => string_literal s
  | JArr elems =>
      "[" ++ join ","
               ((fix items (l : list JsValue) : list string :=
                   match l with
                   | [] => []
                   | JUndefined :: rest => "null" :: items rest
                   | x :: rest => stringify x :: items rest
                   end) elems) ++ "]"
  | JObj props =>
      "{" ++ join ","
               ((fix members (l : list (string * JsValue)) : list string :=
                   match l with
                   | [] => []
                   | (_, JUndefined) :: rest => members rest
                   | (k, x) :: rest =>
                       (string_literal k ++ ":" ++ stringify x) :: members rest
                   end) props) ++ "}"
  end.

End Json.

(** ** Addresses: the EIP-55 checksum of [utils.getAddress] *)

Definition upper_char (c : ascii) : ascii :=
  let n := Z_of_ascii c in
  if ((97 <=? n) && (n <=? 122))%Z then ascii_of_Z (n - 32) else c.

Definition is_hex (c : ascii) : bool := bool_decide (is_Some (hex_value c)).

Definition is_alnum (c : ascii) : bool :=
  let n := Z_of_ascii c in
  is_digit c || ((65 <=? n) && (n <=? 90))%Z || ((97 <=? n) && (n <=? 122))%Z.

Definition all_chars (f : ascii -> bool) (s : string) : bool :=
  forallb f (list_ascii_of_string s).

Definition some_char (f : ascii -> bool) (s : string) : bool :=
  existsb f (list_ascii_of_string s).

Definition nibbles (l : list Z) : list Z := flat_map (fun b => [b / 16; b mod 16]%Z) l.

(** The address in the case its hash prescribes: a letter is a capital
    where the hexadecimal digit of the hash at its place is 8 or more. *)
Definition getChecksumAddress (address : string) : string :=
  let chars := list_ascii_of_string
                 (toLowerCase (String.substring 2 (String.length address - 2) address)) in
  let hashed := nibbles (Keccak.digest (map Z_of_ascii chars)) in
  "0x" ++ string_of_list_ascii
            (map (fun '(c, h) => if (8 <=? h)%Z then upper_char c else c)
               (combine chars hashed)).

(** The value of a text in base 36, letters of either case. *)
Definition base36_value (s : string) : Z :=
  fold_left (fun acc n =>
               (36 * acc +
                  (if (n <? 58) then n - 48 else if (n <? 91) then n - 55 else n - 87))%Z)
    (codes s) 0%Z.

Fixpoint hex_of_Z (fuel : nat) (n : Z) (acc : string) : string :=
  match fuel with
  | O => acc
  | S fuel' =>
      let acc' := String (hex_digit (n mod 16)) acc in
      if (n <? 16)%Z then acc' else hex_of_Z fuel' (n / 16)%Z acc'
  end.

(** The two check digits of an ICAP address: 98 minus the remainder by 97
    of the number written by the address after its first four characters,
    followed by those of [XE00], each letter written as its value in base
    36. *)
Definition ibanChecksum (address : string) : string :=
  let upper := string_of_list_ascii (map upper_char (list_ascii_of_string address)) in
  let moved := String.substring 4 (String.length upper - 4) upper
                 ++ String.substring 0 2 upper ++ "00" in
  let expanded :=
    fold_left (fun acc n =>
                 (if (n <? 58) then 10 * acc + (n - 48) else 100 * acc + (n - 55))%Z)
      (codes moved) 0%Z in
  pad_left 2 "0" (decimal (98 - expanded mod 97)).

(** [utils.getAddress] *)
Definition getAddress (address : string) : Res string :=
  let bare := if String.prefix "0x" address
              then String.substring 2 (String.length address - 2) address
              else address in
  if (String.length bare =? 40)%nat && all_chars is_hex bare then
    let prefixed := "0x" ++ bare in
    let result := getChecksumAddress prefixed in
    let mixed :=
      some_char (fun c => is_hex c && negb (is_digit c) && Ascii.eqb c (upper_char c)) bare
      && some_char (fun c => is_hex c && negb (Ascii.eqb c (upper_char c))) bare in
    if mixed && negb (String.eqb result prefixed)
    then Throw (Error "bad address checksum")
    else Ok result
  else if String.prefix "XE" address
          && ((String.length address =? 34) || (String.length address =? 35))%nat
          && all_chars is_digit (String.substring 2 2 address)
          && all_chars is_alnum (String.substring 4 (String.length address - 4) address)
  then
    if negb (String.eqb (String.substring 2 2 address) (ibanChecksum address))
    then Throw (Error "bad icap checksum")
    else
      let value := base36_value (String.substring 4 (String.length address - 4) address) in
      let digits := pad_left 40 "0" (hex_of_Z 50 value EmptyString) in
      if (String.length digits =? 40)%nat
      then Ok (getChecksumAddress ("0x" ++ digits))
      else Throw (Error "invalid address")
  else Throw (Error "invalid address").

(** ** Query strings *)

Module Url.

(** The text of a sequence of UTF-8 bytes, where every code point is below
    256. *)
Fixpoint utf8_decode (l : list Z) : option string :=
  match l with
  | [] => Some EmptyString
  | b :: rest =>
      if (b <? 128)%Z then String (ascii_of_Z b) <$> utf8_decode rest
      else if ((b =? 194) || (b =? 195))%Z then
        match rest with
        | b2 :: rest' =>
            if ((128 <=? b2) && (b2 <? 192))%Z
            then String (ascii_of_Z ((b - 192) * 64 + (b2 - 128))) <$> utf8_decode rest'
            else None
        | [] => None
        end
      else None
  end.

(** The bytes of a text in which [%XX] stands for a byte; an escape that is
    not two hexadecimal digits is an error. *)
Fixpoint unescape (s : string) : option (list Z) :=
  match s with
  | EmptyString => Some []
  | String c rest =>
      if Ascii.eqb c "%" then
        match rest with
        | String h (String l rest') =>
            match hex_value h, hex_value l, unescape rest' with
            | Some a, Some b, Some bs => Some ((16 * a + b)%Z :: bs)
            | _, _, _ => None
            end
        | _ => None
        end
      else
        match unescape rest with
        | Some bs =>
            Some ((map Z_of_byte (toUtf8Bytes (String c EmptyString)) ++ bs)%list)
        | None => None
        end
  end.

(** [decodeURIComponent] *)
Definition decodeURIComponent (s : string) : Res string :=
  match unescape s with
  | Some bs =>
      match utf8_decode bs with
      | Some t => Ok t
      | None => Throw (URIError "URI malformed, or a code unit above 255")
      end
  | None => Throw (URIError "URI malformed")
  end.

(** The bytes of a name or a value of a query string: [+] is a space,
    [%XX] a byte, and a percent sign that starts no escape stands for
    itself. *)
Fixpoint form_bytes (s : string) : list Z :=
  match s with
  | EmptyString => []
  | String c rest =>
      if Ascii.eqb c "+" then 32%Z :: form_bytes rest
      else
        match (if Ascii.eqb c "%" then
                 match rest with
                 | String h (String l rest') =>
                     match hex_value h, hex_value l with
                     | Some a, Some b => Some ((16 * a + b)%Z, form_bytes rest')
                     | _, _ => None
                     end
                 | _ => None
                 end
               else None) with
        | Some (b, bs) => b :: bs
        | None => (map Z_of_byte (toUtf8Bytes (String c EmptyString)) ++ form_bytes rest)%list
        end
  end.

(** The decoding of a name or a value: its bytes read as UTF-8 (as they
    are, one code unit a byte, where they are not UTF-8 of code points
    below 256). *)
Definition form_decode (s : string) : string :=
  let bs := form_bytes s in
  default (of_codes bs) (utf8_decode bs).

(** A pair [name=value] split at its first [=]. *)
Fixpoint split_pair (s : string) : string * string :=
  match s with
  | EmptyString => (EmptyString, EmptyString)
  | String c rest =>
      if Ascii.eqb c "=" then (EmptyString, rest)
      else let '(n, v) := split_pair rest in (String c n, v)
  end.

Definition entries (search : string) : list (string * string) :=
  let query := match search with
               | String "?" rest => rest
               | _ => search
               end in
  map (fun piece => let '(n, v) := split_pair piece in (form_decode n, form_decode v))
    (filter (fun piece => negb (String.eqb piece EmptyString)) (split "&" query)).

(** [new URLSearchParams(search).get(name)]: the first value of the name. *)
Definition URLSearchParams_get (search name : string) : option string :=
  snd <$> find (fun e => String.eqb (fst e) name) (entries search).

(** The encoding of a name or a value: letters, digits and [*-._] stand for
    themselves, a space is [+], any other byte is an escape. *)
Definition form_encode (s : string) : string :=
  String.concat EmptyString
    (map (fun b =>
            let c := ascii_of_Z b in
            if is_alnum c || (b =? 42)%Z || (b =? 45)%Z || (b =? 46)%Z || (b =? 95)%Z
            then String c EmptyString
            else if (b =? 32)%Z then "+"
            else String "%" (String (upper_char (hex_digit (b / 16)))
                               (String (upper_char (hex_digit (b mod 16))) EmptyString)))
       (map Z_of_byte (toUtf8Bytes s))).

(** [new URLSearchParams(entries).toString()] *)
Definition URLSearchParams_toString (l : list (string * string)) : string :=
  join "&" (map (fun e => form_encode (fst e) ++ "=" ++ form_encode (snd e)) l).

(** *** [new URL(input, base)]

    The parser of the URL standard for the schemes [http] and [https], on
    texts that need no percent-encoding, with hosts that are names, or
    addresses written in full; any other scheme is not parsed. *)

Definition is_slash (c : ascii) : bool := Ascii.eqb c "/" || Ascii.eqb c "092".

(** The text before the first character that passes a test, and the text
    from that character on. *)
Fixpoint break_at (f : ascii -> bool) (s : string) : string * string :=
  match s with
  | EmptyString => (EmptyString, EmptyString)
  | String c rest =>
      if f c then (EmptyString, s)
      else let '(a, b) := break_at f rest in (String c a, b)
  end.

Fixpoint drop_slashes (s : string) : string :=
  match s with
  | String c rest => if is_slash c then drop_slashes rest else s
  | EmptyString => EmptyString
  end.

Definition is_letter (c : ascii) : bool :=
  let n := Z_of_ascii c in
  (((65 <=? n) && (n <=? 90)) || ((97 <=? n) && (n <=? 122)))%Z.

Definition is_scheme_char (c : ascii) : bool :=
  is_letter c || is_digit c || Ascii.eqb c "+" || Ascii.eqb c "-" || Ascii.eqb c ".".

(** Leading and trailing spaces and control characters are stripped, and
    tabs and line ends are removed. *)
Definition is_blank (c : ascii) : bool := (Z_of_ascii c <=? 32)%Z.

Fixpoint drop_blank (s : string) : string :=
  match s with
  | String c rest => if is_blank c then drop_blank rest else s
  | EmptyString => EmptyString
  end.

Definition reversed (s : string) : string :=
  string_of_list_ascii (rev (list_ascii_of_string s)).

Definition clean (s : string) : string :=
  let trimmed := reversed (drop_blank (reversed (drop_blank s))) in
  string_of_list_ascii
    (filter (fun c => negb (Ascii.eqb c "009" || Ascii.eqb c "010" || Ascii.eqb c "013"))
       (list_ascii_of_string trimmed)).

(** The scheme of a text, in lower case, and what follows its colon. *)
Definition scheme_of (s : string) : option (string * string) :=
  match s with
  | String c _ =>
      if is_letter c then
        match break_at (fun c => negb (is_scheme_char c)) s with
        | (name, String ":" rest) => Some (toLowerCase name, rest)
        | _ => None
        end
      else None
  | EmptyString => None
  end.

Definition default_port (scheme : string) : string :=
  if String.eqb scheme "http" then "80"
  else if String.eqb scheme "https" then "443"
  else EmptyString.

(** An address in parts: the path by its segments, the query and the
    fragment where there are any. *)
Record Parts : Type := {
  scheme : string;
  username : string;
  password : string;
  host : string;
  port : string;
  segments : list string;
  query : option string;
  fragment : option string;
}.

(** The port of an authority: digits, not above 65535, without leading
    zeros; the default port of the scheme is no port. *)
Definition parse_port (scheme text : string) : option string :=
  if negb (forallb is_digit (list_ascii_of_string text)) then None
  else if String.eqb text EmptyString then Some EmptyString
  else
    let n := number_of_digits text in
    if (65535 <? n)%Z then None
    else if String.eqb (decimal n) (default_port scheme) then Some EmptyString
    else Some (decimal n).

(** A character that a host cannot have (a percent sign stands for an
    encoding that is not parsed here). *)
Definition forbidden_in_host (c : ascii) : bool :=
  is_blank c || (127 <=? Z_of_ascii c)%Z
  || existsb (Ascii.eqb c)
       (list_ascii_of_string ("#%/:<>?@[]^|" ++ String "092" EmptyString)).

(** The host and the port of an authority without credentials. *)
Definition parse_host (scheme text : string) : option (string * string) :=
  let '(name, after) :=
    match text with
    | String "[" _ =>
        match break_at (fun c => Ascii.eqb c "]") text with
        | (inside, String "]" rest) => (toLowerCase inside ++ "]", rest)
        | (inside, _) => (EmptyString, EmptyString)
        end
    | _ =>
        let '(name, rest) := break_at (fun c => Ascii.eqb c ":") text in
        if existsb forbidden_in_host (list_ascii_of_string name)
        then (EmptyString, EmptyString)
        else (toLowerCase name, rest)
    end in
  if String.eqb name EmptyString then None
  else
    match after with
    | EmptyString => Some (name, EmptyString)
    | String ":" digits =>
        match parse_port scheme digits with
        | Some p => Some (name, p)
        | None => None
        end
    | _ => None
    end.

(** An authority: credentials up to the last [@], then host and port. *)
Definition parse_authority (scheme text : string)
  : option (string * string * string * string) :=
  let pieces := split "@" text in
  let hostport := List.last pieces EmptyString in
  let credentials := join "%40" (removelast pieces) in
  let '(user, rest) := break_at (fun c => Ascii.eqb c ":") credentials in
  let pass := match rest with
              | String _ p => p
              | EmptyString => EmptyString
              end in
  match parse_host scheme hostport with
  | Some (h, p) => Some (user, pass, h, p)
  | None => None
  end.

Definition is_single_dot (segment : string) : bool :=
  let s := toLowerCase segment in
  String.eqb s "." || String.eqb s "%2e".

Definition is_double_dot (segment : string) : bool :=
  let s := toLowerCase segment in
  String.eqb s ".." || String.eqb s ".%2e" || String.eqb s "%2e." || String.eqb s "%2e%2e".

(** The segments of a path are walked from a stack of the segments before
    them: a double dot drops the last one, a single dot adds nothing, and
    either of them at the end leaves an empty segment. *)
Fixpoint walk (todo : list string) (stack : list string) : list string :=
  match todo with
  | [] => rev stack
  | segment :: rest =>
      let at_end := match rest with [] => true | _ => false end in
      if is_double_dot segment
      then walk rest (if at_end then EmptyString :: tl stack else tl stack)
      else if is_single_dot segment
      then walk rest (if at_end then EmptyString :: stack else stack)
      else walk rest (segment :: stack)
  end.

(** A path with its backslashes turned into slashes. *)
Definition slashed (s : string) : string :=
  string_of_list_ascii
    (map (fun c => if is_slash c then "/"%char else c) (list_ascii_of_string s)).

(** The path, the query and the fragment at the end of a text. *)
Definition tail_of (text : string) : string * option string * option string :=
  let '(path, rest) :=
    break_at (fun c => Ascii.eqb c "?" || Ascii.eqb c "#") text in
  match rest with
  | String "?" after =>
      let '(q, rest') := break_at (fun c => Ascii.eqb c "#") after in
      (path, Some q, match rest' with
                     | String _ f => Some f
                     | EmptyString => None
                     end)
  | String _ f => (path, None, Some f)
  | EmptyString => (path, None, None)
  end.

(** The segments of a path that starts with a slash, or is empty. *)
Definition absolute_segments (path : string) : list string :=
  match slashed path with
  | String _ rest => walk (split "/" rest) []
  | EmptyString => [EmptyString]
  end.

(** What follows the slashes before an authority: the authority, then the
    path, the query and the fragment. *)
Definition from_authority (scheme text : string) : option Parts :=
  let '(authority, rest) :=
    break_at (fun c => is_slash c || Ascii.eqb c "?" || Ascii.eqb c "#")
      (drop_slashes text) in
  let '(path, q, f) := tail_of rest in
  match parse_authority scheme authority with
  | Some (user, pass, h, p) =>
      Some {| scheme := scheme; username := user; password := pass; host := h; port := p;
              segments := absolute_segments path; query := q; fragment := f |}
  | None => None
  end.

(** A text without scheme, or with the scheme of the base, against the
    base: two slashes start an authority, one slash a path from the root,
    and anything else is relative to the path of the base. *)
Definition against (base : Parts) (text : string) : option Parts :=
  match text with
  | String a rest =>
      if is_slash a then
        match rest with
        | String b _ =>
            if is_slash b then from_authority (scheme base) text
            else
              let '(path, q, f) := tail_of text in
              Some {| scheme := scheme base; username := username base;
                      password := password base; host := host base; port := port base;
                      segments := absolute_segments path; query := q; fragment := f |}
        | EmptyString =>
            Some {| scheme := scheme base; username := username base;
                    password := password base; host := host base; port := port base;
                    segments := [EmptyString]; query := None; fragment := None |}
        end
      else
        let '(path, q, f) := tail_of text in
        Some {| scheme := scheme base; username := username base;
                password := password base; host := host base; port := port base;
                segments := if String.eqb path EmptyString then segments base
                            else walk (split "/" (slashed path))
                                   (tl (rev (segments base)));
                query := if String.eqb path EmptyString
                         then match q with
                              | Some _ => q
                              | None => query base
                              end
                         else q;
                fragment := f |}
  | EmptyString => Some {| scheme := scheme base; username := username base;
                          password := password base; host := host base; port := port base;
                          segments := segments base; query := query base;
                          fragment := None |}
  end.

Definition is_http (scheme : string) : bool :=
  String.eqb scheme "http" || String.eqb scheme "https".

(** An address with its scheme. *)
Definition absolute (text : string) : option Parts :=
  match scheme_of (clean text) with
  | Some (s, rest) => if is_http s then from_authority s rest else None
  | None => None
  end.

Definition parts_of (input : string) (base : option string) : option Parts :=
  let text := clean input in
  match base with
  | None => absolute text
  | Some b =>
      match scheme_of text with
      | Some (s, rest) =>
          match absolute b with
          | Some parts =>
              if String.eqb s (scheme parts) && negb (String.prefix "//" rest)
              then against parts rest
              else absolute text
          | None => absolute text
          end
      | None =>
          match absolute b with
          | Some parts => against parts text
          | None => None
          end
      end
  end.

Definition pathname_of (parts : Parts) : string :=
  String.concat EmptyString (map (fun s => "/" ++ s) (segments parts)).

Definition search_of (parts : Parts) : string :=
  match query parts with
  | Some q => if String.eqb q EmptyString then EmptyString else "?" ++ q
  | None => EmptyString
  end.

Definition href_of (parts : Parts) : string :=
  scheme parts ++ "://"
  ++ (if String.eqb (username parts) EmptyString && String.eqb (password parts) EmptyString
      then EmptyString
      else username parts
           ++ (if String.eqb (password parts) EmptyString then EmptyString
               else ":" ++ password parts)
           ++ "@")
  ++ host parts
  ++ (if String.eqb (port parts) EmptyString then EmptyString else ":" ++ port parts)
  ++ pathname_of parts
  ++ match query parts with
     | Some q => "?" ++ q
     | None => EmptyString
     end
  ++ match fragment parts with
     | Some f => "#" ++ f
     | None => EmptyString
     end.

Definition URL_parse (input : string) (base : option string) : option Url :=
  match parts_of input base with
  | Some parts =>
      Some {| url_href := href_of parts;
              url_protocol := scheme parts ++ ":";
              url_username := username parts;
              url_password := password parts;
              url_hostname := host parts;
              url_port := port parts;
              url_pathname := pathname_of parts;
              url_search := search_of parts |}
  | None => None
  end.

End Url.

(** ** JSON Web Tokens *)

(** [jose.decodeJwt]: three segments, the second one base64url text of a
    JSON object. *)
Definition decodeJwt (jwt : string) : Res JsValue :=
  let parts := split "." jwt in
  if (length parts =? 5)%nat
  then Throw (JWTInvalid "Only JWTs using Compact JWS serialization can be decoded")
  else if negb (length parts =? 3)%nat then Throw (JWTInvalid "Invalid JWT")
  else
    let payload := nth 1 parts EmptyString in
    if String.eqb payload EmptyString
    then Throw (JWTInvalid "JWTs must contain a payload")
    else
      match Base64.decode_url payload with
      | Throw _ => Throw (JWTInvalid "Failed to base64url decode the payload")
      | Ok decoded =>
          match Url.utf8_decode (codes decoded) with
          | None => Throw (JWTInvalid "Failed to parse the decoded payload as JSON")
          | Some text =>
              match Json.parse text with
              | Ok (JObj props) => Ok (JObj props)
              | Ok _ => Throw (JWTInvalid "Invalid JWT Claims Set")
              | Throw _ => Throw (JWTInvalid "Failed to parse the decoded payload as JSON")
              end
          end
      end.

(** Modelled from the spec: [parseJWT], which [AppleProvider] imports from
    [utils] and [utils] does not define.  The spec has the providers decode
    the payload of the token without verifying its signature, and a token of
    other than three segments fail; the reading of the payload is that of
    [parseOTPJWT]. *)
Definition parseJWT (jwt : string) : Res JsValue :=
  let parts := split "." jwt in
  if negb (length parts =? 3)%nat then Throw (Error "Invalid token length")
  else
    Json.parse (Base64.Buffer_toString_ascii
                  (Base64.Buffer_from_base64 (nth 1 parts EmptyString))).

(** ** Dates *)

Definition two (n : Z) : string := pad_left 2 "0" (decimal n).

(** [new Date(ms).toISOString()]: the civil date of the day count, in the
    proleptic Gregorian calendar, and the time of day. *)
Definition toISOString (ms : Z) : string :=
  let days := (ms / 86400000)%Z in
  let rest := (ms mod 86400000)%Z in
  let z := (days + 719468)%Z in
  let era := (z / 146097)%Z in
  let doe := (z - era * 146097)%Z in
  let yoe := ((doe - doe / 1460 + doe / 36524 - doe / 146096) / 365)%Z in
  let doy := (doe - (365 * yoe + yoe / 4 - yoe / 100))%Z in
  let mp := ((5 * doy + 2) / 153)%Z in
  let d := (doy - (153 * mp + 2) / 5 + 1)%Z in
  let m := (if mp <? 10 then mp + 3 else mp - 9)%Z in
  let y := (yoe + era * 400 + (if m <=? 2 then 1 else 0))%Z in
  let year :=
    if ((0 <=? y) && (y <=? 9999))%Z then pad_left 4 "0" (decimal y)
    else (if (y <? 0)%Z then "-" else "+") ++ pad_left 6 "0" (decimal (Z.abs y)) in
  year ++ "-" ++ two m ++ "-" ++ two d ++ "T"
    ++ two (rest / 3600000) ++ ":" ++ two (rest / 60000 mod 60) ++ ":"
    ++ two (rest / 1000 mod 60) ++ "." ++ pad_left 3 "0" (decimal (rest mod 1000)) ++ "Z".

(** ** Constants of [@lit-protocol/constants] *)

(** Some entries of the table of chains. *)
Definition LIT_CHAINS (chain : string) : option LITChain :=
  snd <$> find (fun e => String.eqb (fst e) chain)
            [("ethereum", {| chainId := 1 |}); ("polygon", {| chainId := 137 |});
             ("optimism", {| chainId := 10 |}); ("arbitrum", {| chainId := 42161 |});
             ("mumbai", {| chainId := 80001 |}); ("goerli", {| chainId := 5 |})].

(** The numbers of the members of the enumeration. *)
Definition AuthMethodType_toString (t : AuthMethodType) : string :=
  match t with
  | EthWallet => "1"
  | WebAuthn => "3"
  | Discord => "4"
  | GoogleJwt => "6"
  | OTP => "7"
  | AppleJwt => "8"
  | OtherType n => decimal n
  end.

(** ** Collaborators

    The world outside the client: a clock, the texts the random source will
    give, and the answers the wallet, the network, the relay and the
    authenticator will give. *)
Record Outside : Type := {
  clock : Z;
  random : list string;
  wallet : Res (option AuthSig);
  discord : Res Response;
  latest_block : Res Block;
  assertion : Res JsValue;
  attestation : Res JsValue;
  registration_options : Res JsValue;
  mint : Res JsValue;
}.

Definition next_random (n : nat) (e : Outside) : string * Outside :=
  (String.substring 0 n (hd (of_codes (repeat 65%Z n)) (random e)),
   {| clock := clock e; random := tl (random e); wallet := wallet e;
      discord := discord e; latest_block := latest_block e;
      assertion := assertion e; attestation := attestation e;
      registration_options := registration_options e; mint := mint e |}).

Definition newline : string := String "010" EmptyString.

(** The text of a sign-in message as [SiweMessage.prepareMessage] lays it
    out, with a nonce of the random source and the clock as issue time. *)
Definition prepareMessage (m : SiweMessage) (e : Outside) : Res string * Outside :=
  let '(nonce, e') := next_random 17 e in
  (Ok (siwe_domain m ++ " wants you to sign in with your Ethereum account:" ++ newline
         ++ siwe_address m ++ newline ++ newline ++ newline
         ++ "URI: " ++ siwe_uri m ++ newline
         ++ "Version: " ++ siwe_version m ++ newline
         ++ "Chain ID: " ++ decimal (siwe_chainId m) ++ newline
         ++ "Nonce: " ++ nonce ++ newline
         ++ "Issued At: " ++ toISOString (clock e) ++ newline
         ++ "Expiration Time: " ++ siwe_expirationTime m), e').

(** The length of an expiration in milliseconds. *)
Definition unit_ms (unit_ : string) : Z :=
  if String.eqb unit_ "seconds" then 1000
  else if String.eqb unit_ "minutes" then 60000
  else if String.eqb unit_ "hours" then 3600000
  else 86400000.

(** The reference platform, its fields in the order of the class. *)
Definition platform : Platform :=
  Build_Platform Outside
    Json.parse Json.stringify
    keccak256 toUtf8Bytes getAddress arrayify hexlify
    Base64.btoa Base64.atob Url.decodeURIComponent
    Url.URLSearchParams_get Url.URLSearchParams_toString Url.URL_parse
    Base64.Buffer_from_base64 Base64.Buffer_toString_ascii
    decodeJwt Base64.base64url Base64.base64url_encode
    toISOString
    LIT_CHAINS AuthMethodType_toString
    parseJWT
    (fun _ => Throw (Error "attestation object not understood"))
    clock
    next_random
    (fun _ _ e => (wallet e, e))
    (fun len unit_ e => (Ok (toISOString (clock e + len * unit_ms unit_)), e))
    prepareMessage
    (fun _ _ e => (discord e, e))
    (fun _ e => (latest_block e, e))
    (fun _ e => (assertion e, e))
    (fun _ e => (attestation e, e))
    (fun _ e => (registration_options e, e))
    (fun _ _ e => (mint e, e)).

End Reference.

(** * Scenarios

    Concrete instances, options and worlds on the reference platform. *)

Module Scenario.

Definition P : Platform := Reference.platform.

(** A wallet signature the collaborator has in its cache. *)
Definition cached_sig : AuthSig :=
  {| sig := "0x5d0cb3935e771b1b7de6d3a4c3a2afc1b2e8e0d4b0a0f7f1f2a9a1c3e5d7f9b1";
     derivedVia := "web3.eth.personal.sign";
     signedMessage := "app.example wants you to sign in with your Ethereum account:";
     address := "0xfb6916095ca1df60bb79ce92ce3ea74c37c5d359" |}.

(** An assertion of the authenticator. *)
Definition assertion_response : JsValue :=
  JObj [("id", JStr "dGVzdC1jcmVkZW50aWFs");
        ("rawId", JStr "dGVzdC1jcmVkZW50aWFs");
        ("response", JObj [("authenticatorData", JStr "SZYN5YgO");
                           ("clientDataJSON", JStr "eyJ0eXBlIjoid2ViYXV0aG4uZ2V0In0");
                           ("signature", JStr "MEUCIQ")]);
        ("type", JStr "public-key")].

Definition outside : Reference.Outside :=
  {| Reference.clock := 1690000000123;
     Reference.random := ["V1StGXR8_Z5jdHi6B"; "6ZrB7wQKx3nPq0aTyLm4d"];
     Reference.wallet := Ok (Some cached_sig);
     Reference.discord :=
       Ok {| ok := true; json := Ok (JObj [("id", JStr "80351110224678912")]) |};
     Reference.latest_block :=
       Ok {| hash := "0x88e96d4537bea4d9c05d12549907b32561d3bf31f45aae734cdc119f13406cb6" |};
     Reference.assertion := Ok assertion_response;
     Reference.attestation := Throw (Rejection "NotAllowedError");
     Reference.registration_options := Ok (JObj [("challenge", JStr "Y2hhbGxlbmdl")]);
     Reference.mint := Ok (JObj [("requestId", JStr "0x1f")]) |}.

(** An outside in which the wallet refuses to sign. *)
Definition outside_refusing : Reference.Outside :=
  {| Reference.clock := 1690000000123;
     Reference.random := [];
     Reference.wallet := Throw (Rejection "User rejected the request");
     Reference.discord := Throw (Rejection "Failed to fetch");
     Reference.latest_block := Throw (Rejection "could not detect network");
     Reference.assertion := Throw (Rejection "NotAllowedError");
     Reference.attestation := Throw (Rejection "NotAllowedError");
     Reference.registration_options := Throw (Rejection "Failed to fetch");
     Reference.mint := Throw (Rejection "Failed to fetch") |}.

(** An Apple ID token whose payload has the claims [sub] and [aud]. *)
Definition apple_jwt : string :=
  "eyJhbGciOiJub25lIn0.eyJzdWIiOiIwMDEyMzQuYWJjZGVmIiwiYXVkIjoiY29tLmV4YW1wbGUuYXBwIn0.c2ln".


(** An OTP token with [orgId] [OrgABC] and [extraData]
    [user-42|extra-context]. *)
Definition otp_jwt : string :=
  "eyJhbGciOiJub25lIn0.eyJvcmdJZCI6Ik9yZ0FCQyIsImV4dHJhRGF0YSI6InVzZXItNDJ8ZXh0cmEtY29udGV4dCJ9.c2ln".

(** The page of an application at [https://app.example], with a token in
    its session storage. *)
Definition page (href search : string) (stored : string) : Window :=
  {| href := href; origin := "https://app.example"; hostname := "app.example";
     pathname := "/cb"; search := search; title := "App";
     sessionStorage := {[ Utils.STATE_PARAM_KEY := stored ]} |}.

Definition world_at (win : Window) (e : Reference.Outside) : @World P :=
  @Build_World P win [] e.

(** A callback whose [state] decodes to [xyz789] while [abc123] is stored;
    the other parameters are those of a good callback. *)
Definition forged_query : string :=
  "?provider=apple&id_token=" ++ apple_jwt ++ "&state=eHl6Nzg5".

Definition forged_callback : @World P :=
  world_at (page ("https://app.example/cb" ++ forged_query) forged_query "abc123") outside.

(** The callback of the login that stored [abc123]. *)
Definition good_query : string :=
  "?provider=apple&id_token=" ++ apple_jwt ++ "&state=YWJjMTIz".

Definition good_callback : @World P :=
  world_at (page ("https://app.example/cb" ++ good_query) good_query "abc123") outside.

(** The same callback at another site. *)
Definition evil_callback : @World P :=
  world_at (page ("https://evil.example/cb" ++ good_query) good_query "abc123") outside.

Definition apple : AppleProvider.Fields :=
  AppleProvider.constructor (Some "https://app.example/cb") (window good_callback).

Definition wallet_page : @World P :=
  world_at (page "https://app.example/" EmptyString "abc123") outside.

Definition wallet_page_refusing : @World P :=
  world_at (page "https://app.example/" EmptyString "abc123") outside_refusing.

Definition eth_wallet : EthWalletProvider.Fields :=
  EthWalletProvider.constructor
    {| EthWalletProvider.options_domain := Some "app.example";
       EthWalletProvider.options_origin := Some "https://app.example" |}
    (window wallet_page).

(** A signing function that returns a fixed signature. *)
Definition sign_stub : @SignMessage P :=
  fun _ e => (Ok "0x1b2c3d4e5f", e).

(** An address in lower case, and its EIP-55 form. *)
Definition lower_address : string := "0x5aaeb6053f3e94c9b9a09f33669435e7ef1beaed".
Definition checksummed_address : string := "0x5aAeb6053F3E94C9b9A09f33669435E7Ef1BeAed".

Definition sign_options (cache : JsValue)
  : option (@EthWalletProvider.EthWalletAuthenticateOptions P) :=
  Some {| EthWalletProvider.options_address := Some lower_address;
          EthWalletProvider.options_signMessage := Some sign_stub;
          EthWalletProvider.options_chain := None;
          EthWalletProvider.options_expiration := Some "2023-07-23T04:26:40.123Z";
          EthWalletProvider.options_cache := cache;
          EthWalletProvider.options_expirationUnit := None;
          EthWalletProvider.options_expirationLength := None |}.

(** The value a run returned, or [d] when it threw. *)
Definition result_of {S A : Type} (x : Res A * S) (d : A) : A :=
  match fst x with
  | Ok a => a
  | Throw _ => d
  end.

Definition no_method : AuthMethod :=
  {| authMethodType := OtherType 0; accessToken := EmptyString |}.

(** Three calls of [EthWalletProvider.authenticate]: with address and
    signing function; the same with caching on; without options, on a wallet
    that refuses. *)
Definition signed_run :=
  EthWalletProvider.authenticate (sign_options JUndefined) (eth_wallet, wallet_page).

Definition cached_run :=
  EthWalletProvider.authenticate (sign_options (JBool true)) (eth_wallet, wallet_page).

Definition refused_run :=
  EthWalletProvider.authenticate None (eth_wallet, wallet_page_refusing).

(** ** More tokens, callbacks and outsides *)

(** A Google ID token whose [aud] is an array of two audiences. *)
Definition google_jwt_two_audiences : string :=
  "eyJhbGciOiJub25lIn0.eyJzdWIiOiIxMTAxNjk0ODQ0NzQzODYyNzYzMzQiLCJhdWQiOlsid2ViLmV4YW1wbGUiLCJpb3MuZXhhbXBsZSJdfQ.c2ln".

(** The OTP token with another header and another signature. *)
Definition otp_jwt_resigned : string :=
  "eyJhbGciOiJIUzI1NiJ9.eyJvcmdJZCI6Ik9yZ0FCQyIsImV4dHJhRGF0YSI6InVzZXItNDJ8ZXh0cmEtY29udGV4dCJ9.Zm9yZ2Vk".

(** The text of the sign-in message of [signed_run]. *)
Definition signed_text : string :=
  join Reference.newline
    ["app.example wants you to sign in with your Ethereum account:";
     "0x5aAeb6053F3E94C9b9A09f33669435E7Ef1BeAed";
     EmptyString;
     EmptyString;
     "URI: https://app.example";
     "Version: 1";
     "Chain ID: 1";
     "Nonce: V1StGXR8_Z5jdHi6B";
     "Issued At: 2023-07-22T04:26:40.123Z";
     "Expiration Time: 2023-07-23T04:26:40.123Z"].

(** The signature the signing branch packaged in [signed_run]. *)
Definition signed_sig : AuthSig :=
  default cached_sig (EthWalletProvider.this_authSig (fst (snd signed_run))).

(** An outside whose wallet answers [undefined]. *)
Definition outside_undefined : Reference.Outside :=
  {| Reference.clock := 1690000000123;
     Reference.random := [];
     Reference.wallet := Ok None;
     Reference.discord := Throw (Rejection "Failed to fetch");
     Reference.latest_block := Throw (Rejection "could not detect network");
     Reference.assertion := Throw (Rejection "NotAllowedError");
     Reference.attestation := Throw (Rejection "NotAllowedError");
     Reference.registration_options := Throw (Rejection "Failed to fetch");
     Reference.mint := Throw (Rejection "Failed to fetch") |}.

Definition wallet_page_undefined : @World P :=
  world_at (page "https://app.example/" EmptyString "abc123") outside_undefined.

(** Address and signing function, and nothing else. *)
Definition sign_options_plain
  : option (@EthWalletProvider.EthWalletAuthenticateOptions P) :=
  Some {| EthWalletProvider.options_address := Some lower_address;
          EthWalletProvider.options_signMessage := Some sign_stub;
          EthWalletProvider.options_chain := None;
          EthWalletProvider.options_expiration := None;
          EthWalletProvider.options_cache := JUndefined;
          EthWalletProvider.options_expirationUnit := None;
          EthWalletProvider.options_expirationLength := None |}.

Definition plain_run :=
  EthWalletProvider.authenticate sign_options_plain (eth_wallet, wallet_page).

(** The instance after [signed_run], on the page where the wallet refuses. *)
Definition signed_then_refusing : EthWalletProvider.Fields * @World P :=
  (fst (snd signed_run), wallet_page_refusing).

(** Callbacks at the redirect URI: one that reports an error of the login
    server, one of another provider, and one without ID token. *)
Definition denied_query : string := "?error=access_denied&state=YWJjMTIz".

Definition denied_callback : @World P :=
  world_at (page ("https://app.example/cb" ++ denied_query) denied_query "abc123") outside.

Definition google_query : string :=
  "?provider=google&id_token=" ++ apple_jwt ++ "&state=YWJjMTIz".

Definition google_callback : @World P :=
  world_at (page ("https://app.example/cb" ++ google_query) google_query "abc123") outside.

Definition tokenless_query : string := "?provider=apple&state=YWJjMTIz".

Definition tokenless_callback : @World P :=
  world_at (page ("https://app.example/cb" ++ tokenless_query) tokenless_query "abc123")
    outside.


(** A new instance of [WebAuthnProvider], and its [authenticate] on the
    page of the application. *)
Definition webauthn : WebAuthnProvider.Fields :=
  WebAuthnProvider.constructor "https://rpc.example".

Definition webauthn_run := WebAuthnProvider.authenticate (P := P) (webauthn, wallet_page).

(** An assertion with a user handle, and an outside whose authenticator
    gives it. *)
Definition assertion_with_handle : JsValue :=
  JObj [("id", JStr "dGVzdC1jcmVkZW50aWFs");
        ("rawId", JStr "dGVzdC1jcmVkZW50aWFs");
        ("response", JObj [("authenticatorData", JStr "SZYN5YgO");
                           ("clientDataJSON", JStr "eyJ0eXBlIjoid2ViYXV0aG4uZ2V0In0");
                           ("signature", JStr "MEUCIQ");
                           ("userHandle", JStr "user-handle-7")]);
        ("type", JStr "public-key")].

Definition outside_with_handle : Reference.Outside :=
  {| Reference.clock := 1690000000123;
     Reference.random := [];
     Reference.wallet := Ok (Some cached_sig);
     Reference.discord := Throw (Rejection "Failed to fetch");
     Reference.latest_block :=
       Ok {| hash := "0x88e96d4537bea4d9c05d12549907b32561d3bf31f45aae734cdc119f13406cb6" |};
     Reference.assertion := Ok assertion_with_handle;
     Reference.attestation := Throw (Rejection "NotAllowedError");
     Reference.registration_options := Ok (JObj [("challenge", JStr "Y2hhbGxlbmdl")]);
     Reference.mint := Ok (JObj [("requestId", JStr "0x1f")]) |}.

Definition handle_page : @World P :=
  world_at (page "https://app.example/" EmptyString "abc123") outside_with_handle.

Definition handle_run := WebAuthnProvider.authenticate (P := P) (webauthn, handle_page).

(** The options of a registration, the attestation the authenticator gives
    for them, and an outside in which the registration ceremony succeeds. *)
Definition registration_request : JsValue := JObj [("challenge", JStr "Y2hhbGxlbmdl")].

Definition attestation_response : JsValue :=
  JObj [("id", JStr "bmV3LWNyZWRlbnRpYWw");
        ("rawId", JStr "bmV3LWNyZWRlbnRpYWw");
        ("response", JObj [("attestationObject", JStr "o2NmbXRkbm9uZQ==");
                           ("clientDataJSON", JStr "eyJ0eXBlIjoid2ViYXV0aG4uY3JlYXRlIn0")]);
        ("type", JStr "public-key")].

Definition outside_registering : Reference.Outside :=
  {| Reference.clock := 1690000000123;
     Reference.random := [];
     Reference.wallet := Ok (Some cached_sig);
     Reference.discord := Throw (Rejection "Failed to fetch");
     Reference.latest_block :=
       Ok {| hash := "0x88e96d4537bea4d9c05d12549907b32561d3bf31f45aae734cdc119f13406cb6" |};
     Reference.assertion := Ok assertion_response;
     Reference.attestation := Ok attestation_response;
     Reference.registration_options := Ok registration_request;
     Reference.mint := Ok (JObj [("requestId", JStr "0x1f")]) |}.

Definition registration_page : @World P :=
  world_at (page "https://app.example/" EmptyString "abc123") outside_registering.

(** The bytes of the attestation object. *)
Definition attestation_bytes : bytes :=
  Reference.Base64.Buffer_from_base64 "o2NmbXRkbm9uZQ==".

(** The reference platform with a decoder of attestations that takes the
    whole buffer for the public key. *)
Definition whole_buffer (b : bytes) : Res bytes :=
  match b with
  | [] => Throw (Error "no attestation data")
  | _ => Ok b
  end.

Definition P_decoding : Platform :=
  Build_Platform Reference.Outside
    (@JSON_parse P) (@JSON_stringify P)
    (@keccak256 P) (@toUtf8Bytes P) (@getAddress P) (@arrayify P) (@hexlify P)
    (@btoa P) (@atob P) (@decodeURIComponent P)
    (@URLSearchParams_get P) (@URLSearchParams_toString P) (@URL_parse P)
    (@Buffer_from_base64 P) (@Buffer_toString_ascii P)
    (@decodeJwt P) (@base64url P) (@base64url_encode P)
    (@toISOString P)
    (@LIT_CHAINS P) (@AuthMethodType_toString P)
    (@parseJWT P)
    whole_buffer
    (@Date_now P)
    (@nanoid P)
    (@checkAndSignAuthMessage P)
    (@convertToISOString P)
    (@prepareMessage P)
    (@fetch P)
    (@getBlock P)
    (@startAuthentication P)
    (@startRegistration P)
    (@generateRegistrationOptions P)
    (@mintPKP P).

(** An instance that has authenticated with the assertion of the scenario,
    on the page where the registration ceremony succeeds. *)
Definition authenticated_webauthn : WebAuthnProvider.Fields :=
  WebAuthnProvider.set_attestationResponse assertion_response webauthn.

Definition registration_page_decoding : @World P_decoding :=
  @Build_World P_decoding (page "https://app.example/" EmptyString "abc123") []
    outside_registering.

Definition registration_run :=
  WebAuthnProvider.verifyAndMintPKPThroughRelayer (P := P_decoding) registration_request
    (authenticated_webauthn, registration_page_decoding).

(** The registration on an instance that has not authenticated. *)
Definition early_registration_run :=
  WebAuthnProvider.verifyAndMintPKPThroughRelayer (P := P) registration_request
    (webauthn, registration_page).

(** An access token of Discord. *)
Definition discord_token : string := "6qrZcUqja7812RVdnEKjpzOL4CvHBFG".

(** Caching on, with an expiration of 12 hours, and with one of length 0. *)
Definition cached_options (length : Z)
  : option (@EthWalletProvider.EthWalletAuthenticateOptions P) :=
  Some {| EthWalletProvider.options_address := None;
          EthWalletProvider.options_signMessage := None;
          EthWalletProvider.options_chain := Some "polygon";
          EthWalletProvider.options_expiration := None;
          EthWalletProvider.options_cache := JBool true;
          EthWalletProvider.options_expirationUnit := Some "hours";
          EthWalletProvider.options_expirationLength := Some length |}.

(** A signing function and an address of four digits. *)
Definition short_address_options
  : option (@EthWalletProvider.EthWalletAuthenticateOptions P) :=
  Some {| EthWalletProvider.options_address := Some "0x1234";
          EthWalletProvider.options_signMessage := Some sign_stub;
          EthWalletProvider.options_chain := None;
          EthWalletProvider.options_expiration := None;
          EthWalletProvider.options_cache := JUndefined;
          EthWalletProvider.options_expirationUnit := None;
          EthWalletProvider.options_expirationLength := None |}.

(** Callbacks whose [state] is a broken escape, and a text that is not
    base64. *)
Definition escaped_query : string :=
  "?provider=apple&id_token=" ++ apple_jwt ++ "&state=%25ZZ".

Definition escaped_callback : @World P :=
  world_at (page ("https://app.example/cb" ++ escaped_query) escaped_query "abc123") outside.

Definition short_query : string :=
  "?provider=apple&id_token=" ++ apple_jwt ++ "&state=a".

Definition short_callback : @World P :=
  world_at (page ("https://app.example/cb" ++ short_query) short_query "abc123") outside.

(** The callback of a login that was started on the page of the wallet
    scenario: its [state] is the encoding of the first token of the random
    source. *)
Definition returning_query : string :=
  "?provider=apple&id_token=" ++ apple_jwt ++ "&state=VjFTdEdYUjhfWjVqZEhp".

(** The page of the wallet scenario at the redirect URI. *)
Definition login_page : @World P :=
  world_at (page "https://app.example/cb" EmptyString "abc123") outside.


(** The good callback, and the one without ID token, served under a path
    of two slashes and the name of another site; and an instance whose
    redirect URI is the origin of the application. *)
Definition slashes_page (search : string) : Window :=
  {| href := "https://app.example//evil.example/cb" ++ search;
     origin := "https://app.example"; hostname := "app.example";
     pathname := "//evil.example/cb"; search := search; title := "App";
     sessionStorage := {[ Utils.STATE_PARAM_KEY := "abc123" ]} |}.

Definition slashes_callback : @World P := world_at (slashes_page good_query) outside.

Definition slashes_tokenless_callback : @World P :=
  world_at (slashes_page tokenless_query) outside.

Definition apple_at_origin : AppleProvider.Fields :=
  AppleProvider.constructor (Some "https://app.example") (window slashes_callback).

(** The window of the callbacks at [https://app.example/cb] after the
    browser has replaced the address by the path. *)
Definition rewritten_page : Window := page "https://app.example/cb" EmptyString "abc123".

End Scenario.

(** * Vocabulary of the properties *)

Section Vocabulary.
Context `{P : Platform}.

(** ** Derivation rules *)

(** The auth method of a type and a token. *)
Definition token_of (t : AuthMethodType) (token : string) : AuthMethod :=
  {| authMethodType := t; accessToken := token |}.

(** The payload text [parseOTPJWT] gives to [JSON.parse]. *)
Definition otp_payload (segment : string) : string :=
  Buffer_toString_ascii (Buffer_from_base64 segment).

(** The WebAuthn identifier of a credential. *)
Definition webauthn_id (rawId : string) : string :=
  keccak256 (toUtf8Bytes (rawId ++ ":lit")).

(** A collision of the hash: two different texts with the same digest. *)
Definition collision (text text' : string) : Prop :=
  text <> text' /\ keccak256 (toUtf8Bytes text) = keccak256 (toUtf8Bytes text').

(** ** The OAuth callback *)

(** The callback parameters of the current address. *)
Definition callback (w : World) : LoginUrlParams :=
  Utils.parseLoginParams (search (window w)).

(** The token in session storage. *)
Definition stored_state (w : World) : option string :=
  sessionStorage (window w) !! Utils.STATE_PARAM_KEY.

(** The [state] parameter is there and decodes to the stored token. *)
Definition state_agrees (w : World) : Prop :=
  exists st u d,
    state (callback w) = Some st /\ st <> EmptyString
    /\ decodeURIComponent st = Ok u /\ atob u = Ok d
    /\ stored_state w = Some d.

(** The [state] parameter is absent or empty, or it decodes to a text that
    is not the stored token (in particular when no token is stored). *)
Definition state_differs (w : World) : Prop :=
  truthy_str (state (callback w)) = false
  \/ exists st u d,
       state (callback w) = Some st
       /\ decodeURIComponent st = Ok u /\ atob u = Ok d
       /\ stored_state w <> Some d.

(** The [state] parameter is there and cannot be decoded:
    [decodeURIComponent] fails on it, or [atob] fails on what
    [decodeURIComponent] returns; [e] is the exception of the one that
    fails. *)
Definition state_undecodable (w : World) (e : Exn) : Prop :=
  exists st,
    state (callback w) = Some st /\ st <> EmptyString
    /\ (decodeURIComponent st = Throw e
        \/ exists u, decodeURIComponent st = Ok u /\ atob u = Throw e).

(** The world with another query string and another session storage. *)
Definition with_callback (query : string) (store : gmap string string) (w : World) : World :=
  {| window := {| href := href (window w); origin := origin (window w);
                  hostname := hostname (window w); pathname := pathname (window w);
                  search := query; title := title (window w);
                  sessionStorage := store |};
     calls := calls w; ext := ext w |}.

(** ** The paths of [EthWalletProvider.authenticate] *)

(** [address && signMessage]: both are supplied, the address not empty. *)
Definition both_supplied
    (options : option EthWalletProvider.EthWalletAuthenticateOptions) : bool :=
  truthy_str (options ≫= EthWalletProvider.options_address)
  && bool_decide (is_Some (options ≫= EthWalletProvider.options_signMessage)).

(** The end of [authenticate]: an auth signature is stored in the instance
    and serialized into the auth method; [undefined] is an error. *)
Definition finish (p : EthWalletProvider.Fields) (r : Res (option AuthSig)) (w : World)
  : Res AuthMethod * (EthWalletProvider.Fields * World) :=
  match r with
  | Ok (Some a) =>
      (Ok {| authMethodType := EthWallet;
             accessToken := JSON_stringify (AuthSig_value a) |},
       (EthWalletProvider.set_authSig a p, w))
  | Ok None => (Throw (Error "Auth signature is undefined"), (p, w))
  | Throw e => (Throw e, (p, w))
  end.

(** The world after a logged call that left [e] outside. *)
Definition logged (c : Call) (e : Ext) (w : World) : World :=
  {| window := window w; calls := (calls w ++ [c])%list; ext := e |}.

(** The canonical sign-in message: for the domain and the origin of the
    instance and a checksummed address, in version 1; on the chain the
    options name, [ethereum] when they name none, with the id 1 where the
    table of chains has no id for it; expiring at the time the options
    give, and 24 hours after [now] when they give none. *)
Definition sign_in_message (p : EthWalletProvider.Fields)
    (options : option EthWalletProvider.EthWalletAuthenticateOptions)
    (checksummed : string) (now : Z) : SiweMessage :=
  {| siwe_domain := EthWalletProvider.this_domain p;
     siwe_uri := EthWalletProvider.this_origin p;
     siwe_address := checksummed;
     siwe_version := "1";
     siwe_chainId :=
       match LIT_CHAINS (match options ≫= EthWalletProvider.options_chain with
                         | Some name => if String.eqb name EmptyString then "ethereum" else name
                         | None => "ethereum"
                         end) with
       | Some c => if (chainId c =? 0)%Z then 1%Z else chainId c
       | None => 1%Z
       end;
     siwe_expirationTime :=
       match options ≫= EthWalletProvider.options_expiration with
       | Some time =>
           if String.eqb time EmptyString then toISOString (now + 86400000)%Z else time
       | None => toISOString (now + 86400000)%Z
       end |}.

(** ** The life of an instance *)

(** A method keeps the fields of its instance; a method keeps them when it
    fails. *)
Definition keeps {Self A : Type} (m : M (Self * World) A) : Prop :=
  forall s r s', m s = (r, s') -> fst s' = fst s.

Definition fails_clean {Self A : Type} (m : M (Self * World) A) : Prop :=
  forall s r s', m s = (r, s') -> is_Ok r = false -> fst s' = fst s.

(** What can happen to an instance on which no [authenticate] has
    succeeded: a call of [authenticate] that fails, a call of any other
    method, and anything outside the class, which can change the world and
    the public fields but cannot write a private field. *)
Inductive EthWallet_step :
  relation (EthWalletProvider.Fields * World) :=
| EthWallet_authenticate_fails o s e s' :
    EthWalletProvider.authenticate o s = (Throw e, s') -> EthWallet_step s s'
| EthWallet_getAuthMethodId s r s' :
    EthWalletProvider.getAuthMethodId s = (r, s') -> EthWallet_step s s'
| EthWallet_outside s p' w' :
    EthWalletProvider.this_authSig p' = EthWalletProvider.this_authSig (fst s) ->
    EthWallet_step s (p', w').

(** The same for [WebAuthnProvider], with all its methods. *)
Inductive WebAuthn_step :
  relation (WebAuthnProvider.Fields * World) :=
| WebAuthn_authenticate_fails s e s' :
    WebAuthnProvider.authenticate s = (Throw e, s') -> WebAuthn_step s s'
| WebAuthn_getAuthMethodId s r s' :
    WebAuthnProvider.getAuthMethodId s = (r, s') -> WebAuthn_step s s'
| WebAuthn_register username s r s' :
    WebAuthnProvider.register username s = (r, s') -> WebAuthn_step s s'
| WebAuthn_verifyAndMint options s r s' :
    WebAuthnProvider.verifyAndMintPKPThroughRelayer options s = (r, s') ->
    WebAuthn_step s s'
| WebAuthn_mintPKPThroughRelayer s r s' :
    WebAuthnProvider.mintPKPThroughRelayer s = (r, s') -> WebAuthn_step s s'
| WebAuthn_verify s r s' :
    WebAuthnProvider.verify s = (r, s') -> WebAuthn_step s s'
| WebAuthn_getRelayerRequest s r s' :
    WebAuthnProvider.getRelayerRequest s = (r, s') -> WebAuthn_step s s'
| WebAuthn_outside s p' w' :
    WebAuthnProvider.this_attestationResponse p'
    = WebAuthnProvider.this_attestationResponse (fst s) ->
    WebAuthn_step s (p', w').

(** The same for [AppleProvider]. *)
Inductive Apple_step :
  relation (AppleProvider.Fields * World) :=
| Apple_authenticate_fails s e s' :
    AppleProvider.authenticate s = (Throw e, s') -> Apple_step s s'
| Apple_getAuthMethodId s r s' :
    AppleProvider.getAuthMethodId s = (r, s') -> Apple_step s s'
| Apple_signIn s r s' :
    AppleProvider.signIn s = (r, s') -> Apple_step s s'
| Apple_outside s p' w' :
    AppleProvider.this_idToken p' = AppleProvider.this_idToken (fst s) ->
    Apple_step s (p', w').

(** The error of [getAuthMethodId] on an instance without credential. *)
Definition not_authenticated (what : string) : Exn :=
  Error (what ++ " is not defined. Call authenticate first.").

(** ** Texts *)

(** Every character of a text passes a test. *)
Definition all_chars (f : ascii -> bool) (s : string) : bool :=
  forallb f (list_ascii_of_string s).

(** A parameter object all of whose values are defined. *)
Definition defined_params (entries : list (string * string)) : list (string * option string) :=
  map (fun kv => (fst kv, Some (snd kv))) entries.

(** ** The address after the callback *)

(** The window with which [authenticate] leaves the callback, when the
    browser lets the address be replaced by the path. *)
Definition cleared_window (w : World) : Res Window :=
  replaceState (pathname (window w)) (window w).

(** The world after [authenticate] has asked for that replacement, and the
    window is [rewritten]. *)
Definition cleared (rewritten : Window) (w : World) : World :=
  {| window := rewritten;
     calls := (calls w ++ [CallHistoryReplaceState (pathname (window w))])%list;
     ext := ext w |}.

(** The world after the browser has refused the replacement: the request
    was made, the window is as it was. *)
Definition refused (w : World) : World := cleared (window w) w.

(** ** The WebAuthn ceremonies *)

(** The answer of the authenticator in a run of
    [WebAuthnProvider.authenticate]: the latest block is fetched, and the
    authenticator is started on the bytes of its hash. *)
Definition assertion_of (p : WebAuthnProvider.Fields) (w : World) : Res JsValue :=
  match getBlock (WebAuthnProvider.rpcUrl p) (ext w) with
  | (Ok block, e1) =>
      blockHashBytes <~ arrayify (hash block) ;;
      fst (startAuthentication
             {| challenge := base64url blockHashBytes;
                timeout := 60000;
                userVerification := "required";
                rpId := Utils.getRPIdFromOrigin (origin (window w)) |} e1)
  | (Throw e, _) => Throw e
  end.

(** [answer.response?.userHandle] *)
Definition user_handle_of (answer : JsValue) : Res JsValue :=
  response <~ get answer "response" ;;
  get_opt response "userHandle".

(** The request for a mint, as the relay receives it. *)
Definition mint_body (authMethodId publicKey : string) : string :=
  JSON_stringify
    (WebAuthnProvider.RelayerRequest_value
       {| req_authMethodType := WebAuthn;
          req_authMethodId := authMethodId;
          req_authMethodPubKey := Some publicKey |}).

(** The error of the relay that gives no request id. *)
Definition missing_request_id : Exn :=
  Error "Missing mint response or request ID from relay server".

End Vocabulary.

(** * Properties *)

Section Properties.
Context `{P : Platform}.

(** ** The dispatcher of [utils] *)

(** The five members the [switch] names are sent to their rules. *)
Lemma getAuthMethodId_rules (token : string) :
  Utils.getAuthMethodId (token_of GoogleJwt token)
  = lift (Utils.getGoogleAuthMethodId (token_of GoogleJwt token))
  /\ Utils.getAuthMethodId (token_of Discord token)
     = Utils.getDiscordAuthMethodId (token_of Discord token)
  /\ Utils.getAuthMethodId (token_of EthWallet token)
     = lift (Utils.getEthWalletAuthMethodId (token_of EthWallet token))
  /\ Utils.getAuthMethodId (token_of WebAuthn token)
     = lift (Utils.getWebAuthnAuthMethodId (token_of WebAuthn token))
  /\ Utils.getAuthMethodId (token_of OTP token)
     = lift (Utils.getOTPMethodId (token_of OTP token)).
Proof. repeat split. Qed.

(** A number outside the enumeration reaches the [default] branch. *)
Lemma getAuthMethodId_unrecognized (n : Z) (token : string) (w : World) :
  Utils.getAuthMethodId (token_of (OtherType n) token) w
  = (Throw (Error (Utils.invalid_type_message (OtherType n))), w).
Proof. reflexivity. Qed.

(** C1: the dispatcher has no rule for [AppleJwt].  On an auth method of
    that type, whatever its token, it takes the [default] branch and throws
    the error of an unsupported type, leaving the world as it was; so the
    dispatcher is not total over the six supported types. *)
Theorem C1_dispatcher_rejects_AppleJwt (token : string) (w : World) :
  Utils.getAuthMethodId (token_of AppleJwt token) w
  = (Throw (Error (Utils.invalid_type_message AppleJwt)), w).
Proof. reflexivity. Qed.

(** ** [AppleProvider.signIn] *)

(** C3: [AppleProvider.signIn] asks [prepareLoginUrl] for the login URL of
    the provider [apple], and [getLoginRoute] has a route for [google] and
    [discord] only.  Every call throws before a state token is generated:
    nothing is stored, nothing is logged, the browser does not navigate. *)
Theorem C3_apple_signIn_has_no_login_route (p : AppleProvider.Fields) (w : World) :
  AppleProvider.signIn (p, w)
  = (Throw (Error ("No login route available for the given provider "
                     ++ quoted "apple" ++ ".")), (p, w)).
Proof. reflexivity. Qed.

(** The same call for a provider that has a route generates the token,
    stores it under the key of the state parameter, and returns the URL of
    the gateway with the redirect URI and the encoded token. *)
Lemma prepareLoginUrl_google (redirectUri : string) (w : World) :
  let token := fst (nanoid 15 (ext w)) in
  let '(r, w') := Utils.prepareLoginUrl "google" redirectUri w in
  r = Ok ("https://login.litgateway.com/auth/google?"
            ++ URLSearchParams_toString [("app_redirect", redirectUri)]
            ++ "&state=" ++ btoa token)
  /\ sessionStorage (window w') !! Utils.STATE_PARAM_KEY = Some token
  /\ calls w' = (calls w ++ [CallNanoid 15])%list.
Proof.
  unfold Utils.prepareLoginUrl, Utils.setStateParam, call, bind, lift, window_set, modify, ret.
  cbn. destruct (nanoid 15 (ext w)) as [token e] eqn:E. cbn.
  repeat split. by rewrite lookup_insert_eq.
Qed.

(** ** [AppleProvider.authenticate] *)

(** Unfolding of the sequencing of effects. *)
Ltac run_effects :=
  unfold history_replaceState, location_assign, this, set_this, window_get,
    window_set, inWorld, call, run_ext, bind, ret, throw, lift, gets, modify in *;
  cbn [fst snd] in *.

Lemma state_matches_spec (w : World) (r : Res bool) (w' : World) :
  AppleProvider.state_matches (state (callback w)) w = (r, w') ->
  w' = w
  /\ (r = Ok true -> state_agrees w)
  /\ (state_differs w -> r = Ok false)
  /\ (forall e, state_undecodable w e -> r = Throw e).
Proof.
  unfold AppleProvider.state_matches, state_agrees, state_differs, state_undecodable,
    stored_state, Utils.getStateParam, Utils.decode.
  destruct (state (callback w)) as [st|] eqn:Est; cbn [truthy_str default].
  - destruct (String.eqb st EmptyString) eqn:Eempty; cbn [negb].
    + run_effects. intros ?; simplify_eq. split; [done|]. split; [done|].
      split; [done|]. intros e (st' & Hst & Hne & _). simplify_eq.
      by apply String.eqb_eq in Eempty.
    + run_effects. cbn.
      destruct (decodeURIComponent st) as [u|e] eqn:Eu; cbn.
      * destruct (atob u) as [d|e] eqn:Ed; cbn.
        -- intros ?; simplify_eq. split; [done|]. split; [|split].
           ++ intros [= Hd]. apply bool_decide_eq_true in Hd.
              exists st, u, d. repeat split; try done.
              intros ->. by rewrite String.eqb_refl in Eempty.
           ++ intros [Hf | (st' & u' & d' & Hst & Hu & Hd & Hne)]; [done|].
              simplify_eq. rewrite Hu in Eu. simplify_eq. rewrite Hd in Ed. simplify_eq.
              rewrite bool_decide_eq_false_2; [done|]. intros Heq. by apply Hne.
           ++ intros e (st' & Hst & _ & [Hu | (u' & Hu & Hd)]); simplify_eq.
              ** rewrite Hu in Eu. simplify_eq.
              ** rewrite Hu in Eu. simplify_eq. rewrite Hd in Ed. simplify_eq.
        -- intros ?; simplify_eq. split; [done|]. split; [done|]. split.
           ++ intros [Hf | (st' & u' & d' & Hst & Hu & Hd & Hne)]; [done|].
              simplify_eq. rewrite Hu in Eu. simplify_eq. rewrite Hd in Ed. simplify_eq.
           ++ intros e' (st' & Hst & _ & [Hu | (u' & Hu & Hd)]); simplify_eq.
              ** rewrite Hu in Eu. simplify_eq.
              ** rewrite Hu in Eu. simplify_eq. rewrite Hd in Ed. by simplify_eq.
      * intros ?; simplify_eq. split; [done|]. split; [done|]. split.
        -- intros [Hf | (st' & u' & d' & Hst & Hu & Hd & Hne)]; [done|].
           simplify_eq. rewrite Hu in Eu. simplify_eq.
        -- intros e' (st' & Hst & _ & [Hu | (u' & Hu & Hd)]); simplify_eq.
           ** rewrite Hu in Eu. by simplify_eq.
           ** rewrite Hu in Eu. simplify_eq.
  - cbn [negb]. run_effects. intros ?; simplify_eq. split; [done|]. split; [done|].
    split; [done|]. intros e (st' & Hst & _). simplify_eq.
Qed.

(** Every callback is in one of three cases. *)
Lemma state_cases (w : World) :
  state_agrees w \/ state_differs w \/ exists e, state_undecodable w e.
Proof.
  unfold state_agrees, state_differs, state_undecodable.
  destruct (state (callback w)) as [st|] eqn:Est; [|right; left; by left].
  destruct (String.eqb st EmptyString) eqn:Eempty.
  { right. left. left. cbn. by rewrite Eempty. }
  apply String.eqb_neq in Eempty.
  destruct (decodeURIComponent st) as [u|e] eqn:Eu.
  - destruct (atob u) as [d|e] eqn:Ed.
    + destruct (decide (stored_state w = Some d)) as [Heq|Hne].
      * left. by exists st, u, d.
      * right. left. right. by exists st, u, d.
    + right. right. exists e, st. repeat split; try done. right. by exists u.
  - right. right. exists e, st. repeat split; try done. by left.
Qed.

(** C5: when the current address does not start with the redirect URI,
    [authenticate] throws the redirect-mismatch error and touches nothing:
    the instance and the world are as before.  The outcome is the same for
    every query string and every content of the session storage, so no
    callback parameter, error, provider or state has been looked at. *)
Theorem C5_redirect_mismatch_comes_first (p : AppleProvider.Fields) (w : World) :
  startsWith (href (window w)) (AppleProvider.redirectUri p) = false ->
  forall (query : string) (store : gmap string string),
    AppleProvider.authenticate (p, with_callback query store w)
    = (Throw (AppleProvider.redirect_mismatch (href (window w)) (AppleProvider.redirectUri p)),
       (p, with_callback query store w)).
Proof.
  intros H query store. unfold AppleProvider.authenticate, with_callback.
  run_effects. cbn. by rewrite H.
Qed.

(** C4: in a callback that passes the checks before it (address, error
    parameter, provider), [authenticate] fails whenever the [state]
    parameter does not decode to the stored token, whatever the ID token,
    and leaves the instance and the world as they were.  The error is the
    invalid-state error where the parameter is absent or empty, or decodes
    to anything but the stored token (in particular when none is stored);
    where the parameter is there and cannot be decoded, the error is the
    exception of the decoder, of [decodeURIComponent] or of [atob], and not
    the invalid-state error.  Every callback is in one of these cases or has
    a state that decodes to the stored token; and [authenticate] returns an
    auth method only in the last case. *)
Theorem C4_state_mismatch_fails_closed (p : AppleProvider.Fields) (w : World) :
  (startsWith (href (window w)) (AppleProvider.redirectUri p) = true ->
   truthy_str (error (callback w)) = false ->
   provider (callback w) = Some "apple" ->
   (state_differs w ->
    AppleProvider.authenticate (p, w)
    = (Throw (Error ("Invalid state parameter "
                       ++ quoted (str_or_null (state (callback w)))
                       ++ " passed in redirect callback URL")),
       (p, w)))
   /\ (forall e, state_undecodable w e ->
         AppleProvider.authenticate (p, w) = (Throw e, (p, w))))
  /\ (state_agrees w \/ state_differs w \/ exists e, state_undecodable w e)
  /\ (forall am s', AppleProvider.authenticate (p, w) = (Ok am, s') -> state_agrees w).
Proof.
  split; [|split].
  - intros Hhref Herr Hprov.
    destruct (AppleProvider.state_matches (state (callback w)) w) as [r w'] eqn:E.
    destruct (state_matches_spec _ _ _ E) as (-> & _ & Hfalse & Hthrow).
    split.
    + intros Hdiff. rewrite (Hfalse Hdiff) in E.
      unfold AppleProvider.authenticate. run_effects.
      unfold callback, Utils.parseLoginParams in *. cbn in *.
      rewrite Hhref. cbn. rewrite Herr, Hprov. cbn.
      rewrite bool_decide_eq_true_2 by done. cbn. rewrite E. reflexivity.
    + intros e Hbad. rewrite (Hthrow e Hbad) in E.
      unfold AppleProvider.authenticate. run_effects.
      unfold callback, Utils.parseLoginParams in *. cbn in *.
      rewrite Hhref. cbn. rewrite Herr, Hprov. cbn.
      rewrite bool_decide_eq_true_2 by done. cbn. rewrite E. reflexivity.
  - apply state_cases.
  - intros am s'.
    destruct (AppleProvider.state_matches (state (callback w)) w) as [r w'] eqn:E.
    destruct (state_matches_spec _ _ _ E) as (-> & Htrue & _).
    unfold AppleProvider.authenticate. run_effects.
    unfold callback, Utils.parseLoginParams in E. cbn in *.
    destruct (startsWith _ _); cbn; [|done].
    destruct (truthy_str _); cbn; [done|].
    destruct (negb _ || _); cbn; [done|].
    rewrite E. destruct r as [[|]|e]; cbn; try done.
    destruct (replaceState _ _); cbn; [|done].
    destruct (negb _); cbn; [done|].
    intros _. by apply Htrue.
Qed.

(** ** [EthWalletProvider.authenticate] *)

(** What the signing branch does: the world changes by one logged call at
    most, the call of the signing function on the message prepared with the
    checksummed address; the signature it returns is packaged with the
    address as it was passed. *)
Lemma sign_with_inv (p : EthWalletProvider.Fields)
    (o : option EthWalletProvider.EthWalletAuthenticateOptions)
    (chain addr : string) (sign : SignMessage) (w w' : World) (r : Res AuthSig) :
  EthWalletProvider.sign_with p o chain addr sign w = (r, w') ->
  window w' = window w
  /\ ((calls w' = calls w /\ exists e, r = Throw e)
      \/ exists checksummed fields e1 toSign res,
           getAddress addr = Ok checksummed
           /\ siwe_address fields = checksummed
           /\ siwe_domain fields = EthWalletProvider.this_domain p
           /\ siwe_uri fields = EthWalletProvider.this_origin p
           /\ prepareMessage fields (ext w) = (Ok toSign, e1)
           /\ sign toSign e1 = (res, ext w')
           /\ calls w' = (calls w ++ [CallSignMessage toSign])%list
           /\ r = match res with
                  | Ok signature =>
                      Ok {| sig := signature;
                            derivedVia := "web3.eth.personal.sign";
                            signedMessage := toSign;
                            address := addr |}
                  | Throw e => Throw e
                  end).
Proof.
  unfold EthWalletProvider.sign_with. run_effects.
  set (expiration := if truthy_str (o ≫= EthWalletProvider.options_expiration) then _ else _).
  assert (Hexp : exists x, expiration w = (Ok x, w)).
  { subst expiration. destruct (truthy_str _); cbn; eauto. }
  destruct Hexp as [x Hexp]. rewrite Hexp. cbn.
  destruct (getAddress addr) as [checksummed|e] eqn:Eaddr; cbn.
  2:{ intros ?; simplify_eq. split; [done|]. left. eauto. }
  match goal with |- context [prepareMessage ?f (ext w)] => set (fields := f) end.
  destruct (prepareMessage fields (ext w)) as [[toSign|e] e1] eqn:Eprep; cbn.
  2:{ intros ?; simplify_eq. split; [done|]. left. eauto. }
  destruct (sign toSign e1) as [res e2] eqn:Esign; cbn.
  intros Hr. split; [by destruct res; simplify_eq|]. right.
  exists checksummed, fields, e1, toSign, res.
  destruct res; simplify_eq; cbn; by repeat split.
Qed.

(** Caching off, address and signing function supplied: the signing
    branch. *)
Lemma authenticate_signing (p : EthWalletProvider.Fields) (w : World)
    (o : option EthWalletProvider.EthWalletAuthenticateOptions)
    (addr : string) (sign : SignMessage) :
  truthy (EthWalletProvider.cache_of o) = false ->
  o ≫= EthWalletProvider.options_address = Some addr ->
  addr <> EmptyString ->
  o ≫= EthWalletProvider.options_signMessage = Some sign ->
  EthWalletProvider.authenticate o (p, w)
  = let '(r, w') := EthWalletProvider.sign_with p o (EthWalletProvider.chain_of o) addr sign w in
    finish p (a <~ r ;; Ok (Some a)) w'.
Proof.
  intros Hcache Haddr Hne Hsign.
  unfold EthWalletProvider.authenticate. run_effects.
  rewrite Hcache, Haddr, Hsign. cbn.
  assert (String.eqb addr EmptyString = false) as ->.
  { by apply String.eqb_neq. }
  cbn. by destruct (EthWalletProvider.sign_with _ _ _ _ _ _) as [[a|e] w'].
Qed.

(** Caching off, address or signing function missing: the collaborator is
    asked, without expiration. *)
Lemma authenticate_delegating (p : EthWalletProvider.Fields) (w : World)
    (o : option EthWalletProvider.EthWalletAuthenticateOptions) :
  truthy (EthWalletProvider.cache_of o) = false ->
  both_supplied o = false ->
  EthWalletProvider.authenticate o (p, w)
  = let '(r, e) := checkAndSignAuthMessage (EthWalletProvider.chain_of o) None (ext w) in
    finish p r (logged (CallCheckAndSignAuthMessage (EthWalletProvider.chain_of o) None) e w).
Proof.
  intros Hcache Hboth.
  unfold EthWalletProvider.authenticate. run_effects. rewrite Hcache.
  unfold both_supplied in Hboth.
  assert ((if truthy_str (o ≫= EthWalletProvider.options_address)
           then o ≫= EthWalletProvider.options_signMessage else None) = None) as ->.
  { destruct (truthy_str _); [|done].
    destruct (o ≫= EthWalletProvider.options_signMessage); [|done].
    cbn in Hboth. done. }
  cbn. unfold logged, finish.
  by destruct (checkAndSignAuthMessage _ _ _) as [[[a|]|e] e'].
Qed.

Lemma cache_expiration_inv
    (o : option EthWalletProvider.EthWalletAuthenticateOptions)
    (w w' : World) (r : Res (option string)) :
  EthWalletProvider.cache_expiration o w = (r, w') ->
  window w' = window w /\ calls w' = calls w.
Proof.
  unfold EthWalletProvider.cache_expiration. run_effects.
  destruct (o ≫= EthWalletProvider.options_expirationUnit) as [u|];
    [|by intros ?; simplify_eq].
  destruct (o ≫= EthWalletProvider.options_expirationLength) as [len|];
    [|by intros ?; simplify_eq].
  destruct (negb _ && negb _); [|by intros ?; simplify_eq].
  destruct (convertToISOString len u (ext w)) as [[x|e] e']; cbn;
    by intros ?; simplify_eq.
Qed.

(** Caching on: the collaborator is asked, whatever else is supplied, with
    the expiration the options give. *)
Lemma authenticate_cached (p : EthWalletProvider.Fields) (w : World)
    (o : option EthWalletProvider.EthWalletAuthenticateOptions) :
  truthy (EthWalletProvider.cache_of o) = true ->
  EthWalletProvider.authenticate o (p, w)
  = match EthWalletProvider.cache_expiration o w with
    | (Ok expiration, w1) =>
        let '(r, e) :=
          checkAndSignAuthMessage (EthWalletProvider.chain_of o) expiration (ext w1) in
        finish p r
          (logged (CallCheckAndSignAuthMessage (EthWalletProvider.chain_of o) expiration) e w1)
    | (Throw e, w1) => (Throw e, (p, w1))
    end.
Proof.
  intros Hcache.
  unfold EthWalletProvider.authenticate. run_effects. rewrite Hcache. cbn.
  destruct (EthWalletProvider.cache_expiration o w) as [[expiration|e] w1]; cbn; [|done].
  unfold logged, finish.
  by destruct (checkAndSignAuthMessage _ _ _) as [[[a|]|e] e'].
Qed.

Lemma finish_inv (p : EthWalletProvider.Fields) (r0 : Res (option AuthSig)) (w : World)
    (r : Res AuthMethod) (s' : EthWalletProvider.Fields * World) :
  finish p r0 w = (r, s') ->
  snd s' = w
  /\ (forall am, r = Ok am ->
        exists a, r0 = Ok (Some a)
                  /\ EthWalletProvider.this_authSig (fst s') = Some a
                  /\ am = {| authMethodType := EthWallet;
                            accessToken := JSON_stringify (AuthSig_value a) |})
  /\ (is_Ok r = false -> fst s' = p).
Proof.
  unfold finish. destruct r0 as [[a|]|e]; intros ?; simplify_eq; cbn;
    (split; [done|]); (split; [|done]); intros am ?; simplify_eq. eauto.
Qed.

(** The signing branch, step by step. *)
Lemma sign_with_run (p : EthWalletProvider.Fields)
    (o : option EthWalletProvider.EthWalletAuthenticateOptions)
    (addr : string) (sign : SignMessage) (w : World) :
  EthWalletProvider.sign_with p o (EthWalletProvider.chain_of o) addr sign w
  = match getAddress addr with
    | Throw e => (Throw e, w)
    | Ok checksummed =>
        match prepareMessage (sign_in_message p o checksummed (Date_now (ext w))) (ext w) with
        | (Throw e, e1) =>
            (Throw e, {| window := window w; calls := calls w; ext := e1 |})
        | (Ok toSign, e1) =>
            let '(res, e2) := sign toSign e1 in
            (signature <~ res ;;
             Ok {| sig := signature; derivedVia := "web3.eth.personal.sign";
                   signedMessage := toSign; address := addr |},
             logged (CallSignMessage toSign) e2 w)
        end
    end.
Proof.
  unfold EthWalletProvider.sign_with, EthWalletProvider.chain_of, sign_in_message, logged.
  run_effects.
  change (1000 * 60 * 60 * 24)%Z with 86400000%Z.
  destruct (o ≫= EthWalletProvider.options_chain) as [name|]; cbn;
    [destruct (String.eqb name EmptyString); cbn|];
    (destruct (o ≫= EthWalletProvider.options_expiration) as [time|]; cbn;
       [destruct (String.eqb time EmptyString); cbn|]);
    (destruct (getAddress addr) as [checksummed|e]; cbn; [|by destruct w]);
    match goal with |- context [prepareMessage ?f (ext w)] => set (fields := f) end;
    (destruct (prepareMessage fields (ext w)) as [[toSign|e] e1]; cbn; [|done]);
    by destruct (sign toSign e1) as [[signature|e] e2].
Qed.

(** C6 (amended): which path [authenticate] takes is decided by
    [options.cache] first.  With caching on (a truthy [cache], or [null],
    which is turned into [true]) the collaborator is consulted whatever else
    is supplied, and the signing function is never called.  With caching
    off, the collaborator is consulted exactly when the address or the
    signing function is missing.  When both are supplied, the address is
    checksummed and the canonical sign-in message is prepared from it; where
    either step fails, its error leaves [authenticate] and nothing is
    signed; otherwise the one call that leaves the client is the call of the
    supplied function on the text of that message, and its outcome is the
    outcome of [authenticate]: its signature is packaged with that text and
    the address as it was passed, stored in the instance and serialized
    into the auth method, and its error is thrown on. *)
Theorem C6_delegation_follows_cache_then_inputs
    (p : EthWalletProvider.Fields) (w : World)
    (o : option EthWalletProvider.EthWalletAuthenticateOptions)
    (r : Res AuthMethod) (s' : EthWalletProvider.Fields * World) :
  EthWalletProvider.authenticate o (p, w) = (r, s') ->
  exists new : list Call,
    calls (snd s') = (calls w ++ new)%list
    /\ if truthy (EthWalletProvider.cache_of o) then
         (new = [] /\ is_Ok r = false)
         \/ exists expiration,
              new = [CallCheckAndSignAuthMessage (EthWalletProvider.chain_of o) expiration]
       else if both_supplied o then
         exists addr sign,
           o ≫= EthWalletProvider.options_address = Some addr
           /\ o ≫= EthWalletProvider.options_signMessage = Some sign
           /\ match getAddress addr with
              | Throw e => new = [] /\ r = Throw e /\ fst s' = p
              | Ok checksummed =>
                  match prepareMessage
                          (sign_in_message p o checksummed (Date_now (ext w))) (ext w) with
                  | (Throw e, e1) => new = [] /\ r = Throw e /\ fst s' = p
                  | (Ok toSign, e1) =>
                      new = [CallSignMessage toSign]
                      /\ match sign toSign e1 with
                         | (Ok signature, e2) =>
                             let a := {| sig := signature;
                                         derivedVia := "web3.eth.personal.sign";
                                         signedMessage := toSign;
                                         address := addr |} in
                             r = Ok {| authMethodType := EthWallet;
                                       accessToken := JSON_stringify (AuthSig_value a) |}
                             /\ EthWalletProvider.this_authSig (fst s') = Some a
                             /\ ext (snd s') = e2
                         | (Throw e, e2) =>
                             r = Throw e /\ fst s' = p /\ ext (snd s') = e2
                         end
                  end
              end
       else new = [CallCheckAndSignAuthMessage (EthWalletProvider.chain_of o) None].
Proof.
  intros Hrun.
  destruct (truthy (EthWalletProvider.cache_of o)) eqn:Hcache.
  - rewrite (authenticate_cached _ _ _ Hcache) in Hrun.
    destruct (EthWalletProvider.cache_expiration o w) as [[expiration|e] w1] eqn:Eexp.
    + apply cache_expiration_inv in Eexp as [_ Hcalls].
      destruct (checkAndSignAuthMessage _ _ _) as [r0 e'].
      apply finish_inv in Hrun as (-> & _ & _).
      exists [CallCheckAndSignAuthMessage (EthWalletProvider.chain_of o) expiration].
      cbn. rewrite Hcalls. split; [done|]. right. eauto.
    + apply cache_expiration_inv in Eexp as [_ Hcalls]. simplify_eq.
      exists []. cbn. rewrite Hcalls, app_nil_r. split; [done|]. by left.
  - destruct (both_supplied o) eqn:Hboth.
    + unfold both_supplied in Hboth. apply andb_true_iff in Hboth as [Haddr Hsign].
      apply bool_decide_eq_true in Hsign as [sign Hsign].
      destruct (o ≫= EthWalletProvider.options_address) as [addr|] eqn:Eaddr; [|done].
      assert (addr <> EmptyString) as Hne.
      { intros ->. done. }
      rewrite (authenticate_signing _ _ _ _ _ Hcache Eaddr Hne Hsign) in Hrun.
      rewrite sign_with_run in Hrun.
      destruct (getAddress addr) as [checksummed|e] eqn:Eget.
      2:{ cbn in Hrun. simplify_eq. exists []. cbn. rewrite app_nil_r.
          split; [done|]. exists addr, sign. by rewrite Eget. }
      destruct (prepareMessage _ _) as [[toSign|e] e1] eqn:Eprep.
      2:{ cbn in Hrun. simplify_eq. exists []. cbn. rewrite app_nil_r.
          split; [done|]. exists addr, sign. by rewrite Eget, Eprep. }
      destruct (sign toSign e1) as [[signature|e] e2] eqn:Esign; cbn in Hrun; simplify_eq;
        exists [CallSignMessage toSign]; (split; [done|]); exists addr, sign;
        by rewrite Eget, Eprep, Esign.
    + rewrite (authenticate_delegating _ _ _ Hcache Hboth) in Hrun.
      destruct (checkAndSignAuthMessage _ _ _) as [r0 e'].
      apply finish_inv in Hrun as (-> & _ & _).
      by exists [CallCheckAndSignAuthMessage (EthWalletProvider.chain_of o) None].
Qed.

(** A stored auth signature is what [getAuthMethodId] reads. *)
Lemma EthWallet_getAuthMethodId_stored (s : EthWalletProvider.Fields * World) (a : AuthSig) :
  EthWalletProvider.this_authSig (fst s) = Some a ->
  EthWalletProvider.getAuthMethodId s = (Ok (address a), s).
Proof.
  destruct s as [p w]. cbn. intros H.
  unfold EthWalletProvider.getAuthMethodId. run_effects. by rewrite H.
Qed.

(** C2 (amended): in the signing branch (caching off, address and signing
    function supplied), a successful [authenticate] checksums the address
    for the sign-in message only.  The message is prepared with the EIP-55
    form that [getAddress] gives; the [address] field of the packaged
    signature, and so the identifier [getAuthMethodId] returns afterwards,
    is the address as the caller passed it. *)
Theorem C2_authSig_address_is_the_input_address
    (p : EthWalletProvider.Fields) (w : World)
    (o : option EthWalletProvider.EthWalletAuthenticateOptions)
    (addr : string) (sign : SignMessage)
    (am : AuthMethod) (s' : EthWalletProvider.Fields * World) :
  truthy (EthWalletProvider.cache_of o) = false ->
  o ≫= EthWalletProvider.options_address = Some addr ->
  addr <> EmptyString ->
  o ≫= EthWalletProvider.options_signMessage = Some sign ->
  EthWalletProvider.authenticate o (p, w) = (Ok am, s') ->
  (exists a checksummed fields e e',
     EthWalletProvider.this_authSig (fst s') = Some a
     /\ am = {| authMethodType := EthWallet;
               accessToken := JSON_stringify (AuthSig_value a) |}
     /\ address a = addr
     /\ getAddress addr = Ok checksummed
     /\ siwe_address fields = checksummed
     /\ prepareMessage fields e = (Ok (signedMessage a), e'))
  /\ EthWalletProvider.getAuthMethodId s' = (Ok addr, s').
Proof.
  intros Hcache Haddr Hne Hsign Hrun.
  rewrite (authenticate_signing _ _ _ _ _ Hcache Haddr Hne Hsign) in Hrun.
  destruct (EthWalletProvider.sign_with _ _ _ _ _ _) as [r1 w1] eqn:Es.
  apply sign_with_inv in Es as [_ [[Hcalls [e ->]] | Hsigned]]; [done|].
  destruct Hsigned as
    (checksummed & fields & e1 & toSign & res & Hck & Hf & _ & _ & Hprep & Hs & Hcalls & ->).
  apply finish_inv in Hrun as (Hw & Hok & _).
  destruct (Hok _ eq_refl) as (a & Ha & Hset & Ham).
  destruct res as [signature|]; cbn in Ha; simplify_eq.
  split.
  - eexists _, _, fields, _, _. repeat split; eauto.
  - by rewrite (EthWallet_getAuthMethodId_stored _ _ Hset).
Qed.

(** ** The derivation rules *)

Lemma get_missing (props : list (string * JsValue)) (k : string) :
  own k props = None -> get (JObj props) k = Ok JUndefined.
Proof. intros H. cbn. by rewrite H. Qed.

Lemma parseOTPJWT_three (token header payload signature : string) :
  split "." token = [header; payload; signature] ->
  Utils.parseOTPJWT token = JSON_parse (otp_payload payload).
Proof. intros H. unfold Utils.parseOTPJWT. by rewrite H. Qed.



Lemma append_nil_l (s : string) : EmptyString ++ s = s.
Proof. reflexivity. Qed.

Lemma append_cons (c : ascii) (a s : string) : String c a ++ s = String c (a ++ s).
Proof. reflexivity. Qed.





Lemma length_append (a b : string) :
  String.length (a ++ b) = (String.length a + String.length b)%nat.
Proof. induction a as [|c a IH]; [done|]. rewrite append_cons. cbn. by rewrite IH. Qed.

Lemma append_inj_l (a b suffix : string) : a ++ suffix = b ++ suffix -> a = b.
Proof.
  revert b. induction a as [|c a IH]; intros [|d b];
    rewrite ?append_nil_l, ?append_cons; intros H.
  - done.
  - assert (Hl : String.length suffix = String.length (String d (b ++ suffix))) by congruence.
    cbn in Hl. rewrite length_append in Hl. lia.
  - assert (Hl : String.length (String c (a ++ suffix)) = String.length suffix) by congruence.
    cbn in Hl. rewrite length_append in Hl. lia.
  - injection H as -> H. by rewrite (IH _ H).
Qed.

(** C9: the WebAuthn identifier is a function of the credential [rawId]
    alone, the hash of the UTF-8 bytes of the [rawId] followed by [:lit].
    The method of the provider and the rule of the dispatcher both compute
    it, from the stored assertion and from the parsed token; two assertions
    with the same [rawId] get the same identifier; and two different
    [rawId] give different texts to hash, so they get different identifiers
    unless the hash collides on those two texts. *)
Theorem C9_webauthn_identifier_is_a_function_of_rawId (rawId : string) :
  (forall (p : WebAuthnProvider.Fields) (w : World),
     truthy (WebAuthnProvider.this_attestationResponse p) = true ->
     get (WebAuthnProvider.this_attestationResponse p) "rawId" = Ok (JStr rawId) ->
     WebAuthnProvider.getAuthMethodId (p, w) = (Ok (webauthn_id rawId), (p, w)))
  /\ (forall token data,
        JSON_parse token = Ok data ->
        get data "rawId" = Ok (JStr rawId) ->
        Utils.getWebAuthnAuthMethodId (token_of WebAuthn token)
        = Ok (JStr (webauthn_id rawId)))
  /\ (forall token token' data data',
        JSON_parse token = Ok data -> JSON_parse token' = Ok data' ->
        get data "rawId" = get data' "rawId" ->
        Utils.getWebAuthnAuthMethodId (token_of WebAuthn token)
        = Utils.getWebAuthnAuthMethodId (token_of WebAuthn token'))
  /\ (forall rawId',
        rawId <> rawId' ->
        webauthn_id rawId <> webauthn_id rawId'
        \/ collision (rawId ++ ":lit") (rawId' ++ ":lit")).
Proof.
  repeat split.
  - intros p w Ht Hraw. unfold WebAuthnProvider.getAuthMethodId. run_effects.
    rewrite Ht. cbn. by rewrite Hraw.
  - intros token data Hp Hraw. unfold Utils.getWebAuthnAuthMethodId. cbn.
    rewrite Hp. cbn. by rewrite Hraw.
  - intros token token' data data' Hp Hp' Heq. unfold Utils.getWebAuthnAuthMethodId. cbn.
    rewrite Hp, Hp'. cbn. by rewrite Heq.
  - intros rawId' Hne.
    destruct (decide (webauthn_id rawId = webauthn_id rawId')) as [Heq|Hid];
      [right|by left].
    split; [|exact Heq]. intros Htext. by apply Hne, (append_inj_l _ _ ":lit").
Qed.

(** ** The private credential field *)

Section Keeps.
Context {Self : Type}.

Lemma keeps_ret {A : Type} (a : A) : keeps (Self := Self) (ret a).
Proof. intros s r s' H. by injection H as <- <-. Qed.

Lemma keeps_throw {A : Type} (e : Exn) : keeps (Self := Self) (A := A) (throw e).
Proof. intros s r s' H. by injection H as <- <-. Qed.

Lemma keeps_lift {A : Type} (x : Res A) : keeps (Self := Self) (lift x).
Proof. intros s r s' H. by injection H as <- <-. Qed.

Lemma keeps_this : keeps (Self := Self) this.
Proof. intros s r s' H. by injection H as <- <-. Qed.

Lemma keeps_inWorld {A : Type} (m : M World A) : keeps (Self := Self) (inWorld m).
Proof.
  intros s r s'. unfold inWorld. destruct (m (snd s)) as [r0 w]. intros H.
  by injection H as <- <-.
Qed.

Lemma keeps_bind {A B : Type} (m : M (Self * World) A) (k : A -> M (Self * World) B) :
  keeps m -> (forall a, keeps (k a)) -> keeps (bind m k).
Proof.
  intros Hm Hk s r s'. unfold bind. destruct (m s) as [[a|e] s1] eqn:E.
  - intros H. rewrite (Hk a _ _ _ H). exact (Hm _ _ _ E).
  - intros H. injection H as <- <-. exact (Hm _ _ _ E).
Qed.

Lemma fails_clean_keeps {A : Type} (m : M (Self * World) A) : keeps m -> fails_clean m.
Proof. intros H s r s' E _. exact (H _ _ _ E). Qed.

Lemma fails_clean_bind {A B : Type} (m : M (Self * World) A) (k : A -> M (Self * World) B) :
  keeps m -> (forall a, fails_clean (k a)) -> fails_clean (bind m k).
Proof.
  intros Hm Hk s r s'. unfold bind. destruct (m s) as [[a|e] s1] eqn:E.
  - intros H Hr. rewrite (Hk a _ _ _ H Hr). exact (Hm _ _ _ E).
  - intros H _. injection H as <- <-. exact (Hm _ _ _ E).
Qed.

(** Writing a field and returning: this does not fail. *)
Lemma fails_clean_set_this {A : Type} (f : Self -> Self) (a : A) :
  fails_clean (bind (set_this f) (fun _ => ret a)).
Proof. intros s r s' H Hr. injection H as <- <-. done. Qed.

End Keeps.

(** Goals on [keeps] and [fails_clean] follow the structure of the method. *)
Ltac keep_fields :=
  repeat first
    [ apply keeps_ret | apply keeps_throw | apply keeps_lift | apply keeps_this
    | apply keeps_inWorld
    | apply fails_clean_set_this
    | apply keeps_bind; [|intros ?]
    | apply fails_clean_bind; [|intros ?]
    | match goal with
      | |- keeps (if ?b then _ else _) => destruct b
      | |- fails_clean (if ?b then _ else _) => destruct b
      | |- keeps (match ?x with _ => _ end) => destruct x
      | |- fails_clean (match ?x with _ => _ end) => destruct x
      end
    | apply fails_clean_keeps ].

Lemma EthWallet_getAuthMethodId_keeps : keeps EthWalletProvider.getAuthMethodId.
Proof. unfold EthWalletProvider.getAuthMethodId. keep_fields. Qed.

Lemma EthWallet_authenticate_fails_clean
    (o : option EthWalletProvider.EthWalletAuthenticateOptions) :
  fails_clean (EthWalletProvider.authenticate o).
Proof. unfold EthWalletProvider.authenticate. keep_fields. Qed.

Lemma Apple_signIn_keeps : keeps AppleProvider.signIn.
Proof. unfold AppleProvider.signIn. keep_fields. Qed.

Lemma Apple_getAuthMethodId_keeps : keeps AppleProvider.getAuthMethodId.
Proof. unfold AppleProvider.getAuthMethodId. keep_fields. Qed.

Lemma Apple_authenticate_fails_clean : fails_clean AppleProvider.authenticate.
Proof. unfold AppleProvider.authenticate. keep_fields. Qed.

Lemma WebAuthn_getAuthMethodId_keeps : keeps WebAuthnProvider.getAuthMethodId.
Proof. unfold WebAuthnProvider.getAuthMethodId. keep_fields. Qed.

Lemma WebAuthn_register_keeps (username : option string) :
  keeps (WebAuthnProvider.register username).
Proof. unfold WebAuthnProvider.register. keep_fields. Qed.

Lemma WebAuthn_verifyAndMint_keeps (options : JsValue) :
  keeps (WebAuthnProvider.verifyAndMintPKPThroughRelayer options).
Proof.
  unfold WebAuthnProvider.verifyAndMintPKPThroughRelayer.
  keep_fields; apply WebAuthn_getAuthMethodId_keeps.
Qed.

Lemma WebAuthn_mintPKPThroughRelayer_keeps : keeps WebAuthnProvider.mintPKPThroughRelayer.
Proof. unfold WebAuthnProvider.mintPKPThroughRelayer. keep_fields. Qed.

Lemma WebAuthn_verify_keeps : keeps WebAuthnProvider.verify.
Proof. unfold WebAuthnProvider.verify. keep_fields. Qed.

Lemma WebAuthn_getRelayerRequest_keeps : keeps WebAuthnProvider.getRelayerRequest.
Proof.
  unfold WebAuthnProvider.getRelayerRequest.
  keep_fields; apply WebAuthn_getAuthMethodId_keeps.
Qed.

Lemma WebAuthn_authenticate_fails_clean : fails_clean WebAuthnProvider.authenticate.
Proof. unfold WebAuthnProvider.authenticate. keep_fields. Qed.

Lemma EthWallet_step_field s s' :
  EthWallet_step s s' ->
  EthWalletProvider.this_authSig (fst s') = EthWalletProvider.this_authSig (fst s).
Proof.
  destruct 1 as [o s e s' H | s r s' H | s p' w' H].
  - by rewrite (EthWallet_authenticate_fails_clean o _ _ _ H eq_refl).
  - by rewrite (EthWallet_getAuthMethodId_keeps _ _ _ H).
  - done.
Qed.

Lemma WebAuthn_step_field s s' :
  WebAuthn_step s s' ->
  WebAuthnProvider.this_attestationResponse (fst s')
  = WebAuthnProvider.this_attestationResponse (fst s).
Proof.
  destruct 1 as [s e s' H | s r s' H | u s r s' H | o s r s' H | s r s' H
                | s r s' H | s r s' H | s p' w' H].
  - by rewrite (WebAuthn_authenticate_fails_clean _ _ _ H eq_refl).
  - by rewrite (WebAuthn_getAuthMethodId_keeps _ _ _ H).
  - by rewrite (WebAuthn_register_keeps _ _ _ _ H).
  - by rewrite (WebAuthn_verifyAndMint_keeps _ _ _ _ H).
  - by rewrite (WebAuthn_mintPKPThroughRelayer_keeps _ _ _ H).
  - by rewrite (WebAuthn_verify_keeps _ _ _ H).
  - by rewrite (WebAuthn_getRelayerRequest_keeps _ _ _ H).
  - done.
Qed.

Lemma Apple_step_field s s' :
  Apple_step s s' ->
  AppleProvider.this_idToken (fst s') = AppleProvider.this_idToken (fst s).
Proof.
  destruct 1 as [s e s' H | s r s' H | s r s' H | s p' w' H].
  - by rewrite (Apple_authenticate_fails_clean _ _ _ H eq_refl).
  - by rewrite (Apple_getAuthMethodId_keeps _ _ _ H).
  - by rewrite (Apple_signIn_keeps _ _ _ H).
  - done.
Qed.

(** Along any number of such steps the private field stays as it was. *)
Lemma EthWallet_steps_field s s' :
  rtc EthWallet_step s s' ->
  EthWalletProvider.this_authSig (fst s') = EthWalletProvider.this_authSig (fst s).
Proof.
  induction 1 as [|s s1 s' Hstep _ IH]; [done|].
  by rewrite IH, (EthWallet_step_field _ _ Hstep).
Qed.

Lemma WebAuthn_steps_field s s' :
  rtc WebAuthn_step s s' ->
  WebAuthnProvider.this_attestationResponse (fst s')
  = WebAuthnProvider.this_attestationResponse (fst s).
Proof.
  induction 1 as [|s s1 s' Hstep _ IH]; [done|].
  by rewrite IH, (WebAuthn_step_field _ _ Hstep).
Qed.

Lemma Apple_steps_field s s' :
  rtc Apple_step s s' ->
  AppleProvider.this_idToken (fst s') = AppleProvider.this_idToken (fst s).
Proof.
  induction 1 as [|s s1 s' Hstep _ IH]; [done|].
  by rewrite IH, (Apple_step_field _ _ Hstep).
Qed.

(** C10: on an instance of any of the three providers that was constructed
    and then went through calls of its methods among which no
    [authenticate] succeeded (calls of [authenticate] that failed
    included), [getAuthMethodId] throws the error that asks to authenticate
    first, and changes nothing.  The private field it tests is written by
    [authenticate] alone, as its last step before returning. *)
Theorem C10_getAuthMethodId_needs_a_successful_authenticate :
  (forall options w0 w s,
     rtc EthWallet_step (EthWalletProvider.constructor options w0, w) s ->
     EthWalletProvider.getAuthMethodId s
     = (Throw (not_authenticated "Auth signature"), s))
  /\ (forall url w s,
        rtc WebAuthn_step (WebAuthnProvider.constructor url, w) s ->
        WebAuthnProvider.getAuthMethodId s
        = (Throw (not_authenticated "Authentication data"), s))
  /\ (forall options w0 w s,
        rtc Apple_step (AppleProvider.constructor options w0, w) s ->
        AppleProvider.getAuthMethodId s
        = (Throw (not_authenticated "Id token"), s)).
Proof.
  repeat split.
  - intros options w0 w [p' w'] Hsteps.
    apply EthWallet_steps_field in Hsteps. cbn in Hsteps.
    unfold EthWalletProvider.getAuthMethodId. run_effects. by rewrite Hsteps.
  - intros url w [p' w'] Hsteps.
    apply WebAuthn_steps_field in Hsteps. cbn in Hsteps.
    unfold WebAuthnProvider.getAuthMethodId. run_effects. by rewrite Hsteps.
  - intros options w0 w [p' w'] Hsteps.
    apply Apple_steps_field in Hsteps. cbn in Hsteps.
    unfold AppleProvider.getAuthMethodId. run_effects. by rewrite Hsteps.
Qed.

(** A successful [authenticate] leaves a credential in the field: the auth
    signature, or the ID token of the callback. *)
Lemma EthWallet_authenticate_sets (o : option EthWalletProvider.EthWalletAuthenticateOptions)
    (s s' : EthWalletProvider.Fields * World) (am : AuthMethod) :
  EthWalletProvider.authenticate o s = (Ok am, s') ->
  exists a, EthWalletProvider.this_authSig (fst s') = Some a
            /\ EthWalletProvider.getAuthMethodId s' = (Ok (address a), s').
Proof.
  destruct s as [p w]. intros Hrun.
  assert (exists r0 w1, finish p r0 w1 = (Ok am, s')) as (r0 & w1 & Hfin).
  { destruct (truthy (EthWalletProvider.cache_of o)) eqn:Hcache.
    - rewrite (authenticate_cached _ _ _ Hcache) in Hrun.
      destruct (EthWalletProvider.cache_expiration o w) as [[expiration|e] w1]; [|done].
      destruct (checkAndSignAuthMessage _ _ _) as [r0 e']. eauto.
    - destruct (both_supplied o) eqn:Hboth.
      + unfold both_supplied in Hboth. apply andb_true_iff in Hboth as [Haddr Hsign].
        apply bool_decide_eq_true in Hsign as [sign Hsign].
        destruct (o ≫= EthWalletProvider.options_address) as [addr|] eqn:Eaddr; [|done].
        assert (addr <> EmptyString) as Hne by (by intros ->).
        rewrite (authenticate_signing _ _ _ _ _ Hcache Eaddr Hne Hsign) in Hrun.
        destruct (EthWalletProvider.sign_with _ _ _ _ _ _) as [r1 w1]. eauto.
      + rewrite (authenticate_delegating _ _ _ Hcache Hboth) in Hrun.
        destruct (checkAndSignAuthMessage _ _ _) as [r0 e']. eauto. }
  apply finish_inv in Hfin as (_ & Hok & _).
  destruct (Hok _ eq_refl) as (a & _ & Hset & _).
  exists a. split; [done|]. by apply EthWallet_getAuthMethodId_stored.
Qed.

Lemma Apple_authenticate_sets (s s' : AppleProvider.Fields * World) (am : AuthMethod) :
  AppleProvider.authenticate s = (Ok am, s') ->
  AppleProvider.this_idToken (fst s') = Some (accessToken am)
  /\ accessToken am <> EmptyString /\ authMethodType am = AppleJwt.
Proof.
  destruct s as [p w]. unfold AppleProvider.authenticate. run_effects. cbn.
  destruct (startsWith _ _); cbn; [|done].
  destruct (truthy_str _); cbn; [done|].
  destruct (negb _ || _); cbn; [done|].
  destruct (AppleProvider.state_matches _ _) as [[[|]|e] w1]; cbn; try done.
  destruct (replaceState _ _) as [rewritten|e]; cbn; [|done].
  destruct (URLSearchParams_get (search (window w)) "id_token") as [token|] eqn:E;
    cbn; [|done].
  destruct (String.eqb token EmptyString) eqn:Et; cbn; [done|].
  intros ?; simplify_eq. cbn. repeat split.
  intros ->. done.
Qed.

(** ** [utils]: the state parameter and the login URL *)

(** X1: the state parameter in session storage: [setStateParam] stores the
    token it returns under the key of the state parameter, in the place of
    an earlier one, and writes no other key; [getStateParam] reads it back;
    after [removeStateParam] there is none. *)
Theorem state_param_round_trip (w : World) :
  let token := fst (nanoid 15 (ext w)) in
  let w1 := snd (Utils.setStateParam w) in
  fst (Utils.setStateParam w) = Ok token
  /\ Utils.getStateParam w1 = (Ok (Some token), w1)
  /\ fst (Utils.getStateParam (snd (Utils.removeStateParam w1))) = Ok None
  /\ (forall k, k <> Utils.STATE_PARAM_KEY ->
        sessionStorage (window w1) !! k = sessionStorage (window w) !! k)
  /\ calls w1 = (calls w ++ [CallNanoid 15])%list.
Proof.
  unfold Utils.setStateParam, Utils.getStateParam, Utils.removeStateParam.
  run_effects. destruct (nanoid 15 (ext w)) as [token e]. cbn.
  split; [done|]. split; [by rewrite lookup_insert_eq|].
  split; [by rewrite lookup_delete_eq|].
  split; [|done]. intros k Hk. by rewrite lookup_insert_ne.
Qed.

(** The providers [isSocialLoginSupported] accepts are those
    [getLoginRoute] has a route for. *)
Lemma supported_has_route (provider : string) :
  Utils.isSocialLoginSupported provider = true ->
  provider = "google" \/ provider = "discord".
Proof.
  unfold Utils.isSocialLoginSupported. cbn. rewrite orb_false_r.
  intros H. apply orb_true_iff in H as [H|H]; apply String.eqb_eq in H; auto.
Qed.

(** X2: the two tables of providers agree: a provider is supported exactly
    when it has a login route.  For any other provider [prepareLoginUrl]
    throws the error of the missing route before a state token is
    generated: the world is as before. *)
Theorem login_route_only_for_supported (provider redirectUri : string) (w : World) :
  Utils.isSocialLoginSupported provider = is_Ok (Utils.getLoginRoute provider)
  /\ (Utils.isSocialLoginSupported provider = false ->
      Utils.prepareLoginUrl provider redirectUri w
      = (Throw (Error ("No login route available for the given provider "
                         ++ quoted provider ++ ".")), w)).
Proof.
  unfold Utils.isSocialLoginSupported, Utils.prepareLoginUrl, Utils.getLoginRoute.
  cbn [existsb].
  destruct (String.eqb provider "google") eqn:Eg;
    [|destruct (String.eqb provider "discord") eqn:Ed]; cbn; split; done.
Qed.

(** X3: for a supported provider [prepareLoginUrl] returns the address of the
    gateway route of that provider, with the redirect URI as [app_redirect]
    and the encoded state token as [state]; the token it encodes is the one
    it has stored, generated by one call of the random source.  The browser
    is not navigated. *)
Theorem prepareLoginUrl_stores_what_it_encodes (provider redirectUri : string) (w : World) :
  Utils.isSocialLoginSupported provider = true ->
  let token := fst (nanoid 15 (ext w)) in
  let run := Utils.prepareLoginUrl provider redirectUri w in
  fst run = Ok ("https://login.litgateway.com/auth/" ++ provider ++ "?"
                  ++ URLSearchParams_toString [("app_redirect", redirectUri)]
                  ++ "&state=" ++ Utils.encode token)
  /\ stored_state (snd run) = Some token
  /\ calls (snd run) = (calls w ++ [CallNanoid 15])%list
  /\ href (window (snd run)) = href (window w).
Proof.
  intros H. apply supported_has_route in H.
  unfold stored_state, Utils.prepareLoginUrl, Utils.setStateParam. run_effects.
  destruct H as [-> | ->]; cbn; destruct (nanoid 15 (ext w)) as [token e]; cbn;
    (split; [done|]); (split; [by rewrite lookup_insert_eq|]); done.
Qed.

(** X4: [createQueryParams] leaves out the parameters whose value is
    [undefined], wherever they stand, and passes the others on, in their
    order, to [URLSearchParams]. *)
Theorem createQueryParams_omits_undefined
    (before after : list (string * option string)) (k : string)
    (entries : list (string * string)) :
  Utils.createQueryParams (before ++ (k, None) :: after)%list
  = Utils.createQueryParams (before ++ after)%list
  /\ Utils.createQueryParams (defined_params entries) = URLSearchParams_toString entries.
Proof.
  unfold Utils.createQueryParams, defined_params. split.
  - by rewrite !omap_app.
  - f_equal. induction entries as [|[k' v] entries IH]; [done|]. cbn. by rewrite IH.
Qed.

(** ** [getRPIdFromOrigin] *)

Lemma append_assoc (a b c : string) : (a ++ b) ++ c = a ++ (b ++ c).
Proof. induction a as [|x a IH]; [done|]. by rewrite !append_cons, IH. Qed.

Lemma chars_append (a b : string) :
  list_ascii_of_string (a ++ b)
  = (list_ascii_of_string a ++ list_ascii_of_string b)%list.
Proof. induction a as [|x a IH]; [done|]. rewrite append_cons. cbn. by rewrite IH. Qed.

Lemma text_append (l1 l2 : list ascii) :
  string_of_list_ascii (l1 ++ l2)%list
  = string_of_list_ascii l1 ++ string_of_list_ascii l2.
Proof. induction l1 as [|x l1 IH]; [done|]. cbn. by rewrite IH, append_cons. Qed.

Lemma string_rev_append (a b : string) :
  Utils.string_rev (a ++ b) = Utils.string_rev b ++ Utils.string_rev a.
Proof. unfold Utils.string_rev. by rewrite chars_append, rev_app_distr, text_append. Qed.

Lemma string_rev_involutive (s : string) : Utils.string_rev (Utils.string_rev s) = s.
Proof.
  unfold Utils.string_rev.
  by rewrite list_ascii_of_string_of_list_ascii, rev_involutive, string_of_list_ascii_of_string.
Qed.

Lemma all_chars_rev (f : ascii -> bool) (s : string) :
  all_chars f s = true -> all_chars f (Utils.string_rev s) = true.
Proof.
  unfold all_chars, Utils.string_rev. rewrite list_ascii_of_string_of_list_ascii.
  rewrite !forallb_forall. intros H x Hx. apply H. by apply in_rev.
Qed.

Lemma all_chars_append (f : ascii -> bool) (a b : string) :
  all_chars f (a ++ b) = all_chars f a && all_chars f b.
Proof. unfold all_chars. by rewrite chars_append, forallb_app. Qed.

(** [drop_while] removes a run of characters that pass the test, up to the
    first one that fails it. *)
Lemma drop_while_run (f : ascii -> bool) (run : string) (c : ascii) (rest : string) :
  all_chars f run = true -> f c = false ->
  Utils.drop_while f (run ++ String c rest) = String c rest.
Proof.
  intros Hrun Hc. induction run as [|x run IH].
  - rewrite append_nil_l. cbn. by rewrite Hc.
  - cbn in Hrun. apply andb_true_iff in Hrun as [Hx Hrun].
    rewrite append_cons. cbn. rewrite Hx. by apply IH.
Qed.

(** What [drop_while] leaves is the end of the text. *)
Lemma drop_while_end (f : ascii -> bool) (s : string) :
  exists run, s = run ++ Utils.drop_while f s.
Proof.
  induction s as [|x s [run IH]]; [by exists EmptyString|]. cbn.
  destruct (f x).
  - exists (String x run). by rewrite append_cons, <- IH.
  - by exists EmptyString.
Qed.

Lemma substring_all (s : string) : String.substring 0 (String.length s) s = s.
Proof. induction s as [|x s IH]; [done|]. cbn. by rewrite IH. Qed.

Lemma longer_differs (a b : string) : a <> EmptyString -> String.eqb b (a ++ b) = false.
Proof.
  intros Ha. apply String.eqb_neq. intros H.
  assert (Hl : String.length b = String.length (a ++ b)) by congruence.
  rewrite length_append in Hl. destruct a; [done|]. cbn in Hl. lia.
Qed.

(** A scheme and its two slashes are removed. *)
Lemma remove_protocol_scheme (scheme rest : string) :
  scheme <> EmptyString -> all_chars Utils.is_word scheme = true ->
  Utils.remove_protocol (scheme ++ "://" ++ rest) = rest.
Proof.
  intros Hne Hword. unfold Utils.remove_protocol.
  change ("://" ++ rest) with (String ":" (String "/" (String "/" rest))).
  rewrite (drop_while_run Utils.is_word scheme ":" _ Hword eq_refl).
  rewrite (longer_differs scheme _ Hne).
  cbn. rewrite Nat.sub_0_r, substring_all. by destruct rest.
Qed.

(** A colon and the digits after it, at the end, are removed. *)
Lemma remove_port_digits (host port : string) :
  port <> EmptyString -> all_chars Utils.is_digit port = true ->
  Utils.remove_port (host ++ ":" ++ port) = host.
Proof.
  intros Hne Hdigits. unfold Utils.remove_port.
  rewrite !string_rev_append. change (Utils.string_rev ":") with ":".
  rewrite append_assoc. change (":" ++ Utils.string_rev host)
    with (String ":" (Utils.string_rev host)).
  rewrite (drop_while_run Utils.is_digit _ ":" (Utils.string_rev host)
             (all_chars_rev _ _ Hdigits) eq_refl).
  rewrite longer_differs.
  - cbn. rewrite Nat.sub_0_r, substring_all.
    fold (Utils.string_rev (Utils.string_rev host)). rewrite string_rev_involutive.
    by destruct (Utils.string_rev host).
  - intros H. apply Hne. by rewrite <- (string_rev_involutive port), H.
Qed.

(** A text without colon has no port to remove. *)
Lemma remove_port_no_colon (host : string) :
  all_chars (fun c => negb (Ascii.eqb c ":")) host = true ->
  Utils.remove_port host = host.
Proof.
  intros Hhost. unfold Utils.remove_port.
  destruct (drop_while_end Utils.is_digit (Utils.string_rev host)) as [run Hrun].
  apply all_chars_rev in Hhost. rewrite Hrun, all_chars_append in Hhost.
  apply andb_true_iff in Hhost as [_ Hrest].
  destruct (Utils.drop_while Utils.is_digit (Utils.string_rev host)) as [|c rest];
    [by rewrite andb_false_r|].
  cbn in Hrest. apply andb_true_iff in Hrest as [Hc _].
  apply negb_true_iff, Ascii.eqb_neq in Hc.
  assert (String.prefix ":" (String c rest) = false) as ->.
  { change (String.prefix ":" (String c rest))
      with (if ascii_dec ":" c then String.prefix EmptyString rest else false).
    destruct (ascii_dec ":" c) as [E|_]; [by symmetry in E|done]. }
  by rewrite andb_false_r.
Qed.

(** X5: the relying-party id of an origin is its host: the scheme with its two
    slashes is removed, and so is a port; an origin without port loses
    nothing more. *)
Theorem getRPIdFromOrigin_is_the_host (scheme host port : string) :
  scheme <> EmptyString -> all_chars Utils.is_word scheme = true ->
  (port <> EmptyString -> all_chars Utils.is_digit port = true ->
   Utils.getRPIdFromOrigin (scheme ++ "://" ++ host ++ ":" ++ port) = host)
  /\ (all_chars (fun c => negb (Ascii.eqb c ":")) host = true ->
      Utils.getRPIdFromOrigin (scheme ++ "://" ++ host) = host).
Proof.
  intros Hne Hword. unfold Utils.getRPIdFromOrigin. split.
  - intros Hport Hdigits.
    by rewrite (remove_protocol_scheme _ _ Hne Hword), (remove_port_digits _ _ Hport Hdigits).
  - intros Hhost.
    by rewrite (remove_protocol_scheme _ _ Hne Hword), (remove_port_no_colon _ Hhost).
Qed.

(** ** The derivation rules, on tokens that carry their claims *)

(** An array of strings prints as its elements joined by commas. *)
Lemma ToString_strings (items : list string) :
  ToString (JArr (map JStr items)) = Ok (join "," items).
Proof.
  cbn.
  match goal with
  | |- Res_bind (?F _) _ = _ => assert (H : forall l, F (map JStr l) = Ok l)
  end.
  { induction l as [|x l IH]; [done|]. cbn. by rewrite IH. }
  by rewrite H.
Qed.

(** X6: the dispatcher does not touch the browser: the window, with its address
    and its session storage, is as before; for every type but [Discord] the
    whole world is, and nothing leaves the client; for [Discord] one request
    for the profile is made, with the access token. *)
Theorem dispatcher_leaves_the_browser_alone (am : AuthMethod) (w : World) :
  let w' := snd (Utils.getAuthMethodId am w) in
  window w' = window w
  /\ (authMethodType am <> Discord -> w' = w)
  /\ (authMethodType am = Discord ->
      calls w' = (calls w ++ [CallFetchDiscordUser (accessToken am)])%list).
Proof.
  destruct am as [t token]. unfold Utils.getAuthMethodId. cbn [authMethodType accessToken].
  destruct t; cbn; try (split; [done|]; split; [done|]; intros; done).
  unfold Utils.getDiscordAuthMethodId, Utils.getDiscordUserInfo. run_effects. cbn.
  destruct (fetch _ _ _) as [[resp|e] e']; cbn; [|done].
  destruct (ok resp); cbn; [|done].
  destruct (json resp) as [user|e]; cbn; done.
Qed.

(** X7: the Google rule on a token whose payload has the claim [sub] as a
    string: with a string [aud] the identifier is the hash of the two joined
    by a colon; with an array of strings for [aud] the audiences are printed
    joined by commas.  The world is not touched. *)
Theorem google_identifier_hashes_sub_and_aud
    (token : string) (payload : JsValue) (sub : string) :
  decodeJwt token = Ok payload ->
  get payload "sub" = Ok (JStr sub) ->
  (forall aud w, get payload "aud" = Ok (JStr aud) ->
     Utils.getAuthMethodId (token_of GoogleJwt token) w
     = (Ok (JStr (keccak256 (toUtf8Bytes (sub ++ ":" ++ aud)))), w))
  /\ (forall auds w, get payload "aud" = Ok (JArr (map JStr auds)) ->
        Utils.getAuthMethodId (token_of GoogleJwt token) w
        = (Ok (JStr (keccak256 (toUtf8Bytes (sub ++ ":" ++ join "," auds)))), w)).
Proof.
  intros Hdecode Hsub.
  unfold Utils.getAuthMethodId, Utils.getGoogleAuthMethodId, Utils.getGoogleUserInfo, lift.
  cbn [token_of authMethodType accessToken]. rewrite Hdecode. cbn [Res_bind].
  rewrite Hsub. cbn [Res_bind ToString]. split.
  - intros aud w Haud. by rewrite Haud.
  - intros auds w Haud. rewrite Haud. cbn [Res_bind]. by rewrite ToString_strings.
Qed.

(** X8: the Discord rule: the profile is requested once, with the access token
    as bearer; when the request is answered with a profile whose [id] is a
    string, the identifier is the hash of the id, a colon, and the
    application id of the client; when the request is rejected, the
    rejection is passed on. *)
Theorem discord_identifier_hashes_the_profile_id (token : string) (w : World) :
  (forall resp e' user id,
     fetch "https://discord.com/api/users/@me" ("Bearer " ++ token) (ext w) = (Ok resp, e') ->
     ok resp = true -> json resp = Ok user -> get user "id" = Ok (JStr id) ->
     Utils.getAuthMethodId (token_of Discord token) w
     = (Ok (JStr (keccak256 (toUtf8Bytes (id ++ ":1052874239658692668")))),
        logged (CallFetchDiscordUser token) e' w))
  /\ (forall e e',
        fetch "https://discord.com/api/users/@me" ("Bearer " ++ token) (ext w) = (Throw e, e') ->
        Utils.getAuthMethodId (token_of Discord token) w
        = (Throw e, logged (CallFetchDiscordUser token) e' w)).
Proof.
  unfold Utils.getAuthMethodId, Utils.getDiscordAuthMethodId, Utils.getDiscordUserInfo, logged.
  cbn [token_of authMethodType accessToken]. run_effects. split.
  - intros resp e' user id Hfetch Hok Hjson Hid.
    rewrite Hfetch. cbn. rewrite Hok. cbn. rewrite Hjson. cbn. by rewrite Hid.
  - intros e e' Hfetch. by rewrite Hfetch.
Qed.

(** X9: the OTP rule reads the second segment of the token and nothing else:
    two tokens of three segments with the same payload segment get the same
    identifier, or fail alike, whatever their headers and signatures. *)
Theorem otp_identifier_reads_the_payload_only
    (token token' header payload signature header' signature' : string) :
  split "." token = [header; payload; signature] ->
  split "." token' = [header'; payload; signature'] ->
  Utils.getOTPMethodId (token_of OTP token) = Utils.getOTPMethodId (token_of OTP token').
Proof.
  intros H H'. unfold Utils.getOTPMethodId. cbn [token_of accessToken].
  by rewrite (parseOTPJWT_three _ _ _ _ H), (parseOTPJWT_three _ _ _ _ H').
Qed.

(** ** [EthWalletProvider]: the outcomes of [authenticate] *)

(** Every path of [authenticate] ends in the same last step. *)
Lemma authenticate_ends_in_finish
    (o : option EthWalletProvider.EthWalletAuthenticateOptions)
    (p : EthWalletProvider.Fields) (w : World) :
  exists r0 w1, EthWalletProvider.authenticate o (p, w) = finish p r0 w1.
Proof.
  destruct (truthy (EthWalletProvider.cache_of o)) eqn:Hcache.
  - rewrite (authenticate_cached _ _ _ Hcache).
    destruct (EthWalletProvider.cache_expiration o w) as [[expiration|e] w1].
    + destruct (checkAndSignAuthMessage _ _ _) as [r0 e']. eauto.
    + by exists (Throw e), w1.
  - destruct (both_supplied o) eqn:Hboth.
    + unfold both_supplied in Hboth. apply andb_true_iff in Hboth as [Haddr Hsign].
      apply bool_decide_eq_true in Hsign as [sign Hsign].
      destruct (o ≫= EthWalletProvider.options_address) as [addr|] eqn:Eaddr; [|done].
      assert (addr <> EmptyString) as Hne by (by intros ->).
      rewrite (authenticate_signing _ _ _ _ _ Hcache Eaddr Hne Hsign).
      destruct (EthWalletProvider.sign_with _ _ _ _ _ _) as [r1 w1]. eauto.
    + rewrite (authenticate_delegating _ _ _ Hcache Hboth).
      destruct (checkAndSignAuthMessage _ _ _) as [r0 e']. eauto.
Qed.

(** What a successful [authenticate] returns is the serialization of the
    signature it has stored. *)
Lemma EthWallet_authenticate_ok
    (o : option EthWalletProvider.EthWalletAuthenticateOptions)
    (s s' : EthWalletProvider.Fields * World) (am : AuthMethod) :
  EthWalletProvider.authenticate o s = (Ok am, s') ->
  exists a, EthWalletProvider.this_authSig (fst s') = Some a
            /\ am = {| authMethodType := EthWallet;
                       accessToken := JSON_stringify (AuthSig_value a) |}.
Proof.
  destruct s as [p w]. intros Hrun.
  destruct (authenticate_ends_in_finish o p w) as (r0 & w1 & Hfin).
  rewrite Hfin in Hrun. apply finish_inv in Hrun as (_ & Hok & _).
  destruct (Hok _ eq_refl) as (a & _ & Hset & Ham). eauto.
Qed.

(** X10: the auth method of a successful [authenticate] carries the identifier
    of the instance: when [JSON.parse] reads back the serialized signature,
    the dispatcher derives from the auth method the address that
    [getAuthMethodId] of the provider returns, and neither changes
    anything. *)
Theorem EthWallet_token_carries_the_identifier
    (o : option EthWalletProvider.EthWalletAuthenticateOptions)
    (s s' : EthWalletProvider.Fields * World) (am : AuthMethod) (a : AuthSig) :
  EthWalletProvider.authenticate o s = (Ok am, s') ->
  EthWalletProvider.this_authSig (fst s') = Some a ->
  JSON_parse (JSON_stringify (AuthSig_value a)) = Ok (AuthSig_value a) ->
  EthWalletProvider.getAuthMethodId s' = (Ok (address a), s')
  /\ forall w, Utils.getAuthMethodId am w = (Ok (JStr (address a)), w).
Proof.
  intros Hrun Hstored Hjson.
  destruct (EthWallet_authenticate_ok _ _ _ _ Hrun) as (a' & Hset & ->).
  rewrite Hstored in Hset. simplify_eq. split.
  - by apply EthWallet_getAuthMethodId_stored.
  - intros w. unfold Utils.getAuthMethodId, Utils.getEthWalletAuthMethodId, lift.
    cbn [authMethodType accessToken]. by rewrite Hjson.
Qed.

(** X11: the path that asks the collaborator, caching off: it is asked for the
    chain of the options ([ethereum] when they name none) and without
    expiration.  A signature it returns is stored and serialized into the
    auth method; when it returns [undefined], [authenticate] throws the error
    of the undefined signature, and when it fails, its failure; in both
    cases the instance stays as it was. *)
Theorem EthWallet_delegation_outcomes
    (o : option EthWalletProvider.EthWalletAuthenticateOptions)
    (p : EthWalletProvider.Fields) (w : World) :
  truthy (EthWalletProvider.cache_of o) = false ->
  both_supplied o = false ->
  let chain := EthWalletProvider.chain_of o in
  let answer := checkAndSignAuthMessage chain None (ext w) in
  let w' := logged (CallCheckAndSignAuthMessage chain None) (snd answer) w in
  EthWalletProvider.authenticate o (p, w)
  = match fst answer with
    | Ok (Some a) =>
        (Ok {| authMethodType := EthWallet;
               accessToken := JSON_stringify (AuthSig_value a) |},
         (EthWalletProvider.set_authSig a p, w'))
    | Ok None => (Throw (Error "Auth signature is undefined"), (p, w'))
    | Throw e => (Throw e, (p, w'))
    end
  /\ (truthy_str (o ≫= EthWalletProvider.options_chain) = false -> chain = "ethereum").
Proof.
  intros Hcache Hboth. cbv zeta. split.
  - rewrite (authenticate_delegating _ _ _ Hcache Hboth).
    by destruct (checkAndSignAuthMessage _ _ _) as [[[a|]|e] e'].
  - unfold EthWalletProvider.chain_of. by intros ->.
Qed.

(** X12: with caching on, the collaborator is asked with an expiration exactly
    when the options give both a unit and a length: the expiration is the
    time [convertToISOString] makes of them.  A unit that is missing or
    empty, or a length that is missing or zero, gives a request without
    expiration. *)
Theorem EthWallet_cached_expiration
    (o : option EthWalletProvider.EthWalletAuthenticateOptions)
    (p : EthWalletProvider.Fields) (w : World) :
  truthy (EthWalletProvider.cache_of o) = true ->
  let run := EthWalletProvider.authenticate o (p, w) in
  let chain := EthWalletProvider.chain_of o in
  (forall unit_ len iso e1,
     o ≫= EthWalletProvider.options_expirationUnit = Some unit_ -> unit_ <> EmptyString ->
     o ≫= EthWalletProvider.options_expirationLength = Some len -> len <> 0%Z ->
     convertToISOString len unit_ (ext w) = (Ok iso, e1) ->
     calls (snd (snd run))
     = (calls w ++ [CallCheckAndSignAuthMessage chain (Some iso)])%list)
  /\ (truthy_str (o ≫= EthWalletProvider.options_expirationUnit) = false
      \/ default 0%Z (o ≫= EthWalletProvider.options_expirationLength) = 0%Z ->
      calls (snd (snd run)) = (calls w ++ [CallCheckAndSignAuthMessage chain None])%list).
Proof.
  intros Hcache. cbv zeta. rewrite (authenticate_cached _ _ _ Hcache).
  unfold EthWalletProvider.cache_expiration, finish, logged. run_effects. split.
  - intros unit_ len iso e1 Hunit Hune Hlen Hlne Hiso. rewrite Hunit, Hlen.
    apply String.eqb_neq in Hune as ->. apply Z.eqb_neq in Hlne as ->. cbn.
    rewrite Hiso. cbn.
    by destruct (checkAndSignAuthMessage _ _ _) as [[[a|]|e] e'].
  - intros Hnone.
    assert (match o ≫= EthWalletProvider.options_expirationUnit,
                  o ≫= EthWalletProvider.options_expirationLength with
            | Some unit_, Some len =>
                negb (String.eqb unit_ EmptyString) && negb (len =? 0)%Z = false
            | _, _ => True
            end) as Hfalse.
    { destruct (o ≫= EthWalletProvider.options_expirationUnit) as [unit_|]; [|done].
      destruct (o ≫= EthWalletProvider.options_expirationLength) as [len|]; [|done].
      cbn in Hnone. destruct Hnone as [Hu | ->].
      - apply negb_false_iff in Hu. by rewrite Hu.
      - by rewrite andb_false_r. }
    destruct (o ≫= EthWalletProvider.options_expirationUnit) as [unit_|];
      [destruct (o ≫= EthWalletProvider.options_expirationLength) as [len|]|];
      try rewrite Hfalse; cbn;
      by destruct (checkAndSignAuthMessage _ _ _) as [[[a|]|e] e'].
Qed.

(** The message of the signing branch. *)
Lemma sign_with_message (p : EthWalletProvider.Fields)
    (o : option EthWalletProvider.EthWalletAuthenticateOptions)
    (chain addr : string) (sign : SignMessage) (w w' : World) (a : AuthSig) :
  EthWalletProvider.sign_with p o chain addr sign w = (Ok a, w') ->
  exists checksummed e1,
    getAddress addr = Ok checksummed
    /\ derivedVia a = "web3.eth.personal.sign"
    /\ prepareMessage
         {| siwe_domain := EthWalletProvider.this_domain p;
            siwe_uri := EthWalletProvider.this_origin p;
            siwe_address := checksummed;
            siwe_version := "1";
            siwe_chainId := match LIT_CHAINS chain with
                            | Some c => if (chainId c =? 0)%Z then 1%Z else chainId c
                            | None => 1%Z
                            end;
            siwe_expirationTime :=
              if truthy_str (o ≫= EthWalletProvider.options_expiration)
              then default EmptyString (o ≫= EthWalletProvider.options_expiration)
              else toISOString (Date_now (ext w) + 1000 * 60 * 60 * 24)%Z |}
         (ext w)
       = (Ok (signedMessage a), e1).
Proof.
  unfold EthWalletProvider.sign_with. run_effects.
  destruct (truthy_str (o ≫= EthWalletProvider.options_expiration)); cbn;
    (destruct (getAddress addr) as [checksummed|e]; cbn; [|done]);
    match goal with |- context [prepareMessage ?f (ext w)] => set (fields := f) end;
    (destruct (prepareMessage fields (ext w)) as [[toSign|e] e1] eqn:Eprep; cbn; [|done]);
    (destruct (sign toSign e1) as [[signature|e] e2]; cbn; [|done]);
    intros ?; simplify_eq; exists checksummed, e1; by repeat split.
Qed.

(** X13: the sign-in message of the signing branch, on success: it is prepared
    for the domain and the origin of the instance, in version 1; its chain
    id is that of the chain in the table of chains, and 1 when the table
    does not have the chain or gives it no id; its expiration time is the
    one of the options, and without one the time 24 hours after the
    clock. *)
Theorem EthWallet_message_defaults
    (p : EthWalletProvider.Fields) (w : World)
    (o : option EthWalletProvider.EthWalletAuthenticateOptions)
    (addr : string) (sign : SignMessage)
    (am : AuthMethod) (s' : EthWalletProvider.Fields * World) :
  truthy (EthWalletProvider.cache_of o) = false ->
  o ≫= EthWalletProvider.options_address = Some addr ->
  addr <> EmptyString ->
  o ≫= EthWalletProvider.options_signMessage = Some sign ->
  EthWalletProvider.authenticate o (p, w) = (Ok am, s') ->
  exists a fields e',
    EthWalletProvider.this_authSig (fst s') = Some a
    /\ prepareMessage fields (ext w) = (Ok (signedMessage a), e')
    /\ derivedVia a = "web3.eth.personal.sign"
    /\ siwe_version fields = "1"
    /\ siwe_domain fields = EthWalletProvider.this_domain p
    /\ siwe_uri fields = EthWalletProvider.this_origin p
    /\ (LIT_CHAINS (EthWalletProvider.chain_of o) = None -> siwe_chainId fields = 1%Z)
    /\ (forall c, LIT_CHAINS (EthWalletProvider.chain_of o) = Some c ->
          siwe_chainId fields = if (chainId c =? 0)%Z then 1%Z else chainId c)
    /\ (truthy_str (o ≫= EthWalletProvider.options_expiration) = false ->
        siwe_expirationTime fields = toISOString (Date_now (ext w) + 86400000)%Z)
    /\ (forall x, o ≫= EthWalletProvider.options_expiration = Some x -> x <> EmptyString ->
          siwe_expirationTime fields = x).
Proof.
  intros Hcache Haddr Hne Hsign Hrun.
  rewrite (authenticate_signing _ _ _ _ _ Hcache Haddr Hne Hsign) in Hrun.
  destruct (EthWalletProvider.sign_with _ _ _ _ _ _) as [[a|e] w1] eqn:Es; [|done].
  apply sign_with_message in Es as (checksummed & e1 & _ & Hvia & Hprep).
  cbn in Hrun. simplify_eq. cbn.
  eexists a, _, e1. split; [done|]. split; [exact Hprep|]. cbn.
  split; [done|]. split; [done|]. split; [done|]. split; [done|].
  split; [by intros ->|]. split; [by intros c ->|]. split; [by intros ->|].
  intros x Hx Hxne. rewrite Hx. cbn.
  by assert (String.eqb x EmptyString = false) as -> by (by apply String.eqb_neq).
Qed.

(** X14: an address that [getAddress] rejects stops the signing branch before
    anything is signed: [authenticate] throws the error of [getAddress],
    the signing function is not called, and the instance and the world are
    as before. *)
Theorem EthWallet_invalid_address_is_not_signed
    (p : EthWalletProvider.Fields) (w : World)
    (o : option EthWalletProvider.EthWalletAuthenticateOptions)
    (addr : string) (sign : SignMessage) (e : Exn) :
  truthy (EthWalletProvider.cache_of o) = false ->
  o ≫= EthWalletProvider.options_address = Some addr ->
  addr <> EmptyString ->
  o ≫= EthWalletProvider.options_signMessage = Some sign ->
  getAddress addr = Throw e ->
  EthWalletProvider.authenticate o (p, w) = (Throw e, (p, w)).
Proof.
  intros Hcache Haddr Hne Hsign Hbad.
  rewrite (authenticate_signing _ _ _ _ _ Hcache Haddr Hne Hsign).
  unfold EthWalletProvider.sign_with. run_effects. rewrite Hbad.
  by destruct (truthy_str (o ≫= EthWalletProvider.options_expiration)).
Qed.

(** ** [AppleProvider.authenticate]: the callback that is accepted *)

Lemma state_matches_agrees (w : World) :
  state_agrees w -> AppleProvider.state_matches (state (callback w)) w = (Ok true, w).
Proof.
  intros (st & u & d & Hst & Hne & Hu & Hd & Hstored).
  unfold AppleProvider.state_matches, Utils.getStateParam, Utils.decode. rewrite Hst.
  cbn [truthy_str default].
  assert (String.eqb st EmptyString = false) as -> by (by apply String.eqb_neq).
  cbn [negb]. run_effects. cbn. rewrite Hu. cbn. rewrite Hd. cbn.
  unfold stored_state in Hstored. rewrite Hstored.
  by rewrite bool_decide_eq_true_2.
Qed.


(** Whether the browser replaces the address depends on the address of the
    page and on the new one, not on the query or the session storage of the
    window. *)
Lemma replaceState_reads_the_address (url : string) (w w' : Window) :
  href w' = href w ->
  (forall rewritten, replaceState url w = Ok rewritten ->
     exists rewritten', replaceState url w' = Ok rewritten')
  /\ (forall e, replaceState url w = Throw e -> replaceState url w' = Throw e).
Proof.
  intros Hhref. unfold replaceState. rewrite Hhref.
  destruct (URL_parse (href w) None); [|by split].
  destruct (URL_parse url _); [|by split].
  destruct (can_rewrite _ _); [|by split].
  split; [|done]. intros rewritten _. by eexists.
Qed.


(** What a successful [authenticate] has seen and done. *)
Lemma Apple_authenticate_ok (p : AppleProvider.Fields) (w : World)
    (am : AuthMethod) (s' : AppleProvider.Fields * World) :
  AppleProvider.authenticate (p, w) = (Ok am, s') ->
  startsWith (href (window w)) (AppleProvider.redirectUri p) = true
  /\ provider (callback w) = Some "apple"
  /\ idToken (callback w) = Some (accessToken am)
  /\ exists rewritten,
       cleared_window w = Ok rewritten
       /\ s' = (AppleProvider.set_idToken (accessToken am) p, cleared rewritten w).
Proof.
  unfold AppleProvider.authenticate, cleared_window, cleared. run_effects.
  unfold callback, Utils.parseLoginParams. cbn.
  destruct (startsWith _ _); cbn; [|done].
  destruct (truthy_str _); cbn; [done|].
  destruct (URLSearchParams_get (search (window w)) "provider") as [prov|] eqn:Eprov;
    cbn; [|done].
  destruct (negb _ || _) eqn:Echeck; cbn; [done|].
  apply orb_false_iff in Echeck as [_ Echeck].
  apply negb_false_iff, bool_decide_eq_true in Echeck.
  destruct (AppleProvider.state_matches _ _) as [[[|]|e] w1] eqn:Em; cbn; try done.
  assert (w1 = w) as ->.
  { pose proof (state_matches_spec w (Ok true) w1) as Hspec.
    unfold callback, Utils.parseLoginParams in Hspec. cbn in Hspec.
    by destruct (Hspec Em) as [-> _]. }
  destruct (replaceState _ _) as [rewritten|e] eqn:Eclear; cbn; [|done].
  destruct (URLSearchParams_get (search (window w)) "id_token") as [token|] eqn:E;
    cbn; [|done].
  destruct (String.eqb token EmptyString) eqn:Et; cbn; [done|].
  intros ?; simplify_eq. repeat split; try done. by exists rewritten.
Qed.

(** X16: the checks after the address: an [error] parameter is thrown as it is,
    whatever the provider, the state and the ID token; without it, a
    provider that is absent or is not [apple] gives the provider-mismatch
    error, whatever the state and the ID token.  Neither changes the
    instance or the world. *)
Theorem Apple_error_parameter_then_provider (p : AppleProvider.Fields) (w : World) :
  startsWith (href (window w)) (AppleProvider.redirectUri p) = true ->
  (forall message, error (callback w) = Some message -> message <> EmptyString ->
     AppleProvider.authenticate (p, w) = (Throw (Error message), (p, w)))
  /\ (truthy_str (error (callback w)) = false ->
      provider (callback w) <> Some "apple" ->
      AppleProvider.authenticate (p, w)
      = (Throw (AppleProvider.provider_mismatch (provider (callback w))), (p, w))).
Proof.
  intros Hhref. unfold AppleProvider.authenticate. run_effects.
  unfold callback, Utils.parseLoginParams. cbn. rewrite Hhref. cbn. split.
  - intros message Herr Hne. rewrite Herr. cbn.
    by assert (String.eqb message EmptyString = false) as -> by (by apply String.eqb_neq).
  - intros Herr Hprov. rewrite Herr. cbn.
    rewrite (bool_decide_eq_false_2 _ Hprov). by rewrite orb_true_r.
Qed.

(** X17: a [state] parameter that is there and cannot be decoded does not give
    the invalid-state error: [authenticate] throws the error of the decoder,
    of [decodeURIComponent] or of [atob], and changes nothing. *)
Theorem Apple_undecodable_state_throws_the_decoder_error
    (p : AppleProvider.Fields) (w : World) (st : string) :
  startsWith (href (window w)) (AppleProvider.redirectUri p) = true ->
  truthy_str (error (callback w)) = false ->
  provider (callback w) = Some "apple" ->
  state (callback w) = Some st -> st <> EmptyString ->
  (forall e, decodeURIComponent st = Throw e ->
     AppleProvider.authenticate (p, w) = (Throw e, (p, w)))
  /\ (forall u e, decodeURIComponent st = Ok u -> Utils.decode u = Throw e ->
        AppleProvider.authenticate (p, w) = (Throw e, (p, w))).
Proof.
  intros Hhref Herr Hprov Hstate Hne.
  unfold AppleProvider.authenticate, AppleProvider.state_matches, Utils.getStateParam.
  run_effects. unfold callback, Utils.parseLoginParams in *. cbn in *.
  rewrite Hhref. cbn. rewrite Herr, Hprov. cbn.
  rewrite bool_decide_eq_true_2 by done. cbn. rewrite Hstate. cbn.
  apply String.eqb_neq in Hne as ->. cbn. split.
  - intros e He. by rewrite He.
  - intros u e Hu He. rewrite Hu. cbn. by rewrite He.
Qed.

(** X18: a callback that passes every check and has no ID token:
    [authenticate] asks the browser to replace the address by the path
    before it looks at the ID token.  Where the browser does so, the error
    is the one of the missing token, and the window is the rewritten one,
    so the address has lost the callback parameters; where the browser
    refuses, its exception comes first and the window is as it was.  The
    instance gets no credential either way. *)
Theorem Apple_missing_token_after_cleanup (p : AppleProvider.Fields) (w : World) :
  startsWith (href (window w)) (AppleProvider.redirectUri p) = true ->
  truthy_str (error (callback w)) = false ->
  provider (callback w) = Some "apple" ->
  state_agrees w ->
  truthy_str (idToken (callback w)) = false ->
  (forall rewritten, cleared_window w = Ok rewritten ->
     AppleProvider.authenticate (p, w)
     = (Throw (Error ("Missing ID token in redirect callback URL for Apple OAuth" ++ dq)),
        (p, cleared rewritten w)))
  /\ (forall e, cleared_window w = Throw e ->
        AppleProvider.authenticate (p, w) = (Throw e, (p, refused w))).
Proof.
  intros Hhref Herr Hprov Hstate Htoken.
  apply state_matches_agrees in Hstate.
  unfold cleared_window, refused.
  split; [intros rewritten Hclear | intros e Hclear];
    unfold AppleProvider.authenticate, cleared; run_effects;
    unfold callback, Utils.parseLoginParams in *; cbn in *;
    rewrite Hhref; cbn; rewrite Herr, Hprov; cbn;
    rewrite bool_decide_eq_true_2 by done; cbn; rewrite Hstate; cbn;
    rewrite Hclear; cbn; [by rewrite Htoken | done].
Qed.


(** X20: the state of a login comes back: where [decode] undoes [encode] on
    the token, a callback at the redirect URI that brings the encoded token of
    [setStateParam] as [state], with the provider [apple] and an ID token,
    passes every check of [authenticate]: the outcome is the auth method
    with the ID token where the browser replaces the address of the page by
    its path, and the exception of the browser where it refuses.  After
    another [setStateParam] has replaced the token by a different one, the
    same callback is refused with the invalid-state error. *)
Theorem state_of_a_login_is_accepted_until_the_next_login
    (p : AppleProvider.Fields) (w : World) (query st id_token : string) :
  let token := fst (nanoid 15 (ext w)) in
  let w1 := snd (Utils.setStateParam w) in
  let w2 := snd (Utils.setStateParam w1) in
  let back := fun w' : World => with_callback query (sessionStorage (window w')) w' in
  Utils.decode (Utils.encode token) = Ok token ->
  startsWith (href (window w)) (AppleProvider.redirectUri p) = true ->
  URLSearchParams_get query "error" = None ->
  URLSearchParams_get query "provider" = Some "apple" ->
  URLSearchParams_get query "state" = Some st -> st <> EmptyString ->
  decodeURIComponent st = Ok (Utils.encode token) ->
  URLSearchParams_get query "id_token" = Some id_token -> id_token <> EmptyString ->
  (forall rewritten, cleared_window w = Ok rewritten ->
     fst (AppleProvider.authenticate (p, back w1))
     = Ok {| authMethodType := AppleJwt; accessToken := id_token |})
  /\ (forall e, cleared_window w = Throw e ->
        fst (AppleProvider.authenticate (p, back w1)) = Throw e)
  /\ (fst (nanoid 15 (ext w1)) <> token ->
      fst (AppleProvider.authenticate (p, back w2))
      = Throw (Error ("Invalid state parameter " ++ quoted st
                        ++ " passed in redirect callback URL"))).
Proof.
  intros token w1 w2 back Hb64 Hhref Herr Hprov Hstate Hne Hdec Hid Hidne.
  subst token w1 w2 back. unfold Utils.setStateParam, with_callback, cleared_window in *.
  run_effects.
  destruct (nanoid 15 (ext w)) as [token e1]. cbn in *.
  destruct (nanoid 15 e1) as [token2 e2]. cbn in *.
  apply String.eqb_neq in Hne. apply String.eqb_neq in Hidne.
  unfold AppleProvider.authenticate, AppleProvider.state_matches, Utils.getStateParam,
    Utils.parseLoginParams.
  run_effects. cbn. rewrite Hhref. cbn. rewrite Herr, Hprov. cbn.
  rewrite bool_decide_eq_true_2 by done. cbn. rewrite Hstate. cbn. rewrite Hne. cbn.
  rewrite Hdec. cbn. rewrite Hb64. cbn. split; [|split].
  - intros rewritten Hclear.
    rewrite lookup_insert_eq. rewrite bool_decide_eq_true_2 by done. cbn.
    match goal with |- context [replaceState ?url ?w'] =>
      destruct (proj1 (replaceState_reads_the_address url (window w) w' eq_refl)
                  rewritten Hclear) as [rewritten' ->] end.
    cbn. rewrite Hid. cbn. by rewrite Hidne.
  - intros e Hclear.
    rewrite lookup_insert_eq. rewrite bool_decide_eq_true_2 by done. cbn.
    match goal with |- context [replaceState ?url ?w'] =>
      rewrite (proj2 (replaceState_reads_the_address url (window w) w' eq_refl) e Hclear)
    end.
    done.
  - intros Hother. rewrite lookup_insert_eq.
    rewrite bool_decide_eq_false_2; [done|]. intros [= Heq]. by apply Hother.
Qed.

(** ** [isSignInRedirect] *)

(** X21: [isSignInRedirect] reads the address and changes nothing.  It answers
    [false] on an address that does not start with the redirect URI,
    whatever the query; and it answers [true] on every page on which
    [AppleProvider.authenticate] succeeds, for the redirect URI of the
    instance. *)
Theorem isSignInRedirect_holds_where_authenticate_succeeds
    (p : AppleProvider.Fields) (w : World) (redirectUri : string) :
  snd (Utils.isSignInRedirect redirectUri w) = w
  /\ (startsWith (href (window w)) redirectUri = false ->
      fst (Utils.isSignInRedirect redirectUri w) = Ok false)
  /\ (forall am s', AppleProvider.authenticate (p, w) = (Ok am, s') ->
        Utils.isSignInRedirect (AppleProvider.redirectUri p) w = (Ok true, w)).
Proof.
  split; [|split].
  - unfold Utils.isSignInRedirect. run_effects.
    destruct (startsWith _ _); cbn; [|done]. by destruct (_ || _).
  - intros H. unfold Utils.isSignInRedirect. run_effects. by rewrite H.
  - intros am s' Hrun. apply Apple_authenticate_ok in Hrun as (Hhref & Hprov & _).
    unfold callback, Utils.parseLoginParams in Hprov. cbn in Hprov.
    unfold Utils.isSignInRedirect, Utils.parseLoginParams. run_effects.
    rewrite Hhref. cbn. by rewrite Hprov.
Qed.

(** ** [AppleProvider.getAuthMethodId] *)

(** X22: on a token that [parseJWT] reads as [decodeJwt] does, the identifier
    of the Apple provider is the one the Google rule of the dispatcher
    derives from the same token, and the two fail alike.  The method leaves
    the instance and the world as they are. *)
Theorem apple_identifier_is_the_google_rule
    (p : AppleProvider.Fields) (w : World) (token : string) :
  AppleProvider.this_idToken p = Some token -> token <> EmptyString ->
  parseJWT token = decodeJwt token ->
  (id <~ fst (AppleProvider.getAuthMethodId (p, w)) ;; Ok (JStr id))
  = Utils.getGoogleAuthMethodId (token_of GoogleJwt token)
  /\ snd (AppleProvider.getAuthMethodId (p, w)) = (p, w).
Proof.
  intros Htoken Hne Hparse.
  unfold AppleProvider.getAuthMethodId, Utils.getGoogleAuthMethodId,
    Utils.getGoogleUserInfo.
  run_effects. rewrite Htoken. cbn.
  assert (String.eqb token EmptyString = false) as -> by (by apply String.eqb_neq).
  cbn. rewrite Hparse. split; [|done].
  destruct (decodeJwt token) as [payload|e]; [|done]. cbn [fst Res_bind].
  destruct payload; cbn [get Res_bind]; try done;
    destruct (ToString _); cbn [Res_bind]; try done;
    destruct (ToString _); cbn [Res_bind]; done.
Qed.

(** ** Reading and writing properties *)

Lemma own_put_same (k : string) (x : JsValue) (props : list (string * JsValue)) :
  own k (put k x props) = Some x.
Proof.
  induction props as [|[k' v] props IH]; cbn.
  - by rewrite String.eqb_refl.
  - destruct (String.eqb k k') eqn:E; cbn; rewrite E; [done|exact IH].
Qed.

Lemma own_put_other (k k' : string) (x : JsValue) (props : list (string * JsValue)) :
  k' <> k -> own k' (put k x props) = own k' props.
Proof.
  intros Hne. induction props as [|[k0 v] props IH]; cbn.
  - by apply String.eqb_neq in Hne as ->.
  - destruct (String.eqb k k0) eqn:E; cbn.
    + apply String.eqb_eq in E as <-. by apply String.eqb_neq in Hne as ->.
    + by rewrite IH.
Qed.

(** An assignment to a property changes no other property. *)
Lemma set_other (v v' : JsValue) (k k' : string) (x : JsValue) :
  set v k x = Ok v' -> k' <> k -> get v' k' = get v k'.
Proof.
  destruct v; cbn; intros H Hne; simplify_eq; [done|].
  cbn. by rewrite own_put_other.
Qed.

(** ** [WebAuthnProvider.authenticate] *)

(** X23: the ceremony of [authenticate]: the latest block is fetched from the
    RPC endpoint of the instance; the authenticator is started with the
    bytes of the block hash, base64url-encoded, as challenge, a timeout of
    60000 ms, user verification required, and the relying-party id of the
    origin of the page.  When the block cannot be fetched, or its hash is
    not a hexadecimal text, the authenticator is not started.  The window is
    not touched. *)
Theorem WebAuthn_challenge_is_the_latest_block_hash
    (p : WebAuthnProvider.Fields) (w : World) :
  let run := WebAuthnProvider.authenticate (p, w) in
  let fetched := CallGetBlock (WebAuthnProvider.rpcUrl p) in
  window (snd (snd run)) = window w
  /\ match getBlock (WebAuthnProvider.rpcUrl p) (ext w) with
     | (Ok block, _) =>
         match arrayify (hash block) with
         | Ok blockHashBytes =>
             calls (snd (snd run))
             = (calls w ++ [fetched;
                            CallStartAuthentication
                              {| challenge := base64url blockHashBytes;
                                 timeout := 60000;
                                 userVerification := "required";
                                 rpId := Utils.getRPIdFromOrigin (origin (window w)) |}])%list
         | Throw e =>
             fst run = Throw e /\ calls (snd (snd run)) = (calls w ++ [fetched])%list
         end
     | (Throw e, _) =>
         fst run = Throw e /\ calls (snd (snd run)) = (calls w ++ [fetched])%list
     end.
Proof.
  cbv zeta. unfold WebAuthnProvider.authenticate. run_effects.
  destruct (getBlock _ _) as [[block|e] e1]; cbn; [|done].
  destruct (arrayify (hash block)) as [blockHashBytes|e]; cbn; [|done].
  destruct (startAuthentication _ _) as [[answer|e] e2]; cbn;
    [|by rewrite <- app_assoc].
  destruct (WebAuthnProvider.json_copy answer) as [copy|e]; cbn;
    [|by rewrite <- app_assoc].
  destruct (get answer "response") as [response|e]; cbn; [|by rewrite <- app_assoc].
  destruct (get_opt response "userHandle") as [handle|e]; cbn;
    [|by rewrite <- app_assoc].
  destruct (truthy handle); cbn; [|by rewrite <- app_assoc].
  destruct (_ <~ get copy "response" ;; _); cbn; by rewrite <- app_assoc.
Qed.

(** What a successful [authenticate] has stored and returned. *)
Lemma WebAuthn_authenticate_ok (p : WebAuthnProvider.Fields) (w : World)
    (am : AuthMethod) (s' : WebAuthnProvider.Fields * World) :
  WebAuthnProvider.authenticate (p, w) = (Ok am, s') ->
  exists answer copy handle stored,
    assertion_of p w = Ok answer
    /\ WebAuthnProvider.json_copy answer = Ok copy
    /\ user_handle_of answer = Ok handle
    /\ WebAuthnProvider.this_attestationResponse (fst s') = stored
    /\ am = {| authMethodType := WebAuthn; accessToken := JSON_stringify stored |}
    /\ (if truthy handle
        then (target <~ get copy "response" ;;
              encoded <~ base64url_encode handle ;;
              target' <~ set target "userHandle" (JStr encoded) ;;
              set copy "response" target') = Ok stored
        else stored = copy).
Proof.
  unfold WebAuthnProvider.authenticate, assertion_of, user_handle_of. run_effects.
  destruct (getBlock _ _) as [[block|e] e1]; cbn; [|done].
  destruct (arrayify (hash block)) as [blockHashBytes|e]; cbn; [|done].
  destruct (startAuthentication _ _) as [[answer|e] e2]; cbn; [|done].
  destruct (WebAuthnProvider.json_copy answer) as [copy|e] eqn:Ecopy; cbn; [|done].
  destruct (get answer "response") as [response|e] eqn:Eresponse; cbn; [|done].
  destruct (get_opt response "userHandle") as [handle|e] eqn:Ehandle; cbn; [|done].
  destruct (truthy handle) eqn:Hh; cbn.
  - destruct (_ <~ get copy "response" ;; _) as [stored|e] eqn:Es; cbn; [|done].
    intros ?; simplify_eq. exists answer, copy, handle, stored.
    rewrite Hh. split; [done|]. split; [done|]. split; [by rewrite Eresponse|].
    by repeat split.
  - intros ?; simplify_eq. exists answer, copy, handle, copy.
    rewrite Hh. split; [done|]. split; [done|]. split; [by rewrite Eresponse|].
    by repeat split.
Qed.

(** X24: the auth method of a successful [authenticate] carries the identifier
    of the instance: its access token is the serialization of the stored
    response, and when [JSON.parse] reads that text back, the dispatcher
    derives from the auth method what [getAuthMethodId] of the provider
    returns, and fails where it fails. *)
Theorem WebAuthn_token_carries_the_identifier (p : WebAuthnProvider.Fields) (w : World)
    (am : AuthMethod) (s' : WebAuthnProvider.Fields * World) :
  WebAuthnProvider.authenticate (p, w) = (Ok am, s') ->
  let stored := WebAuthnProvider.this_attestationResponse (fst s') in
  truthy stored = true ->
  JSON_parse (JSON_stringify stored) = Ok stored ->
  am = {| authMethodType := WebAuthn; accessToken := JSON_stringify stored |}
  /\ forall w0,
       Utils.getAuthMethodId am w0
       = (id <~ fst (WebAuthnProvider.getAuthMethodId s') ;; Ok (JStr id), w0).
Proof.
  intros Hrun stored Htruthy Hjson.
  apply WebAuthn_authenticate_ok in Hrun
    as (answer & copy & handle & stored' & _ & _ & _ & Hstored & -> & _).
  subst stored stored'. split; [done|]. intros w0.
  unfold Utils.getAuthMethodId, Utils.getWebAuthnAuthMethodId,
    WebAuthnProvider.getAuthMethodId.
  cbn [authMethodType accessToken]. run_effects. rewrite Hjson, Htruthy. cbn.
  destruct (get _ "rawId") as [rawId|e]; cbn; [|done].
  by destruct (ToString rawId).
Qed.

(** X25: the user handle is re-encoded, and nothing else: the stored response
    has the [rawId] of the JSON copy of the answer of the authenticator;
    without a user handle it is that copy; with one, the [userHandle] of
    its [response] is the base64url encoding of the handle of the answer. *)
Theorem WebAuthn_user_handle_is_reencoded (p : WebAuthnProvider.Fields) (w : World)
    (am : AuthMethod) (s' : WebAuthnProvider.Fields * World) :
  WebAuthnProvider.authenticate (p, w) = (Ok am, s') ->
  let stored := WebAuthnProvider.this_attestationResponse (fst s') in
  exists answer copy handle,
    assertion_of p w = Ok answer
    /\ WebAuthnProvider.json_copy answer = Ok copy
    /\ user_handle_of answer = Ok handle
    /\ get stored "rawId" = get copy "rawId"
    /\ (truthy handle = false -> stored = copy)
    /\ (truthy handle = true ->
        exists encoded,
          base64url_encode handle = Ok encoded
          /\ forall props rprops,
               copy = JObj props -> get copy "response" = Ok (JObj rprops) ->
               (r <~ get stored "response" ;; get r "userHandle") = Ok (JStr encoded)).
Proof.
  intros Hrun stored.
  apply WebAuthn_authenticate_ok in Hrun
    as (answer & copy & handle & stored' & Hanswer & Hcopy & Hhandle & Hstored & _ & Hcase).
  subst stored stored'. exists answer, copy, handle.
  split; [done|]. split; [done|]. split; [done|].
  destruct (truthy handle).
  - destruct (get copy "response") as [target|e] eqn:Et; [|done]. cbn in Hcase.
    destruct (base64url_encode handle) as [encoded|e] eqn:Ee; [|done]. cbn in Hcase.
    destruct (set target "userHandle" (JStr encoded)) as [target'|e] eqn:Es; [|done].
    cbn in Hcase. split; [|split; [done|]].
    + by apply (set_other _ _ _ _ _ Hcase).
    + intros _. exists encoded. split; [done|]. intros props rprops -> Hr.
      injection Hr as ->. cbn in Es, Hcase. injection Es as <-. injection Hcase as <-.
      cbn. rewrite own_put_same. cbn. by rewrite own_put_same.
  - by rewrite Hcase.
Qed.

(** ** [WebAuthnProvider]: registration and the relay *)

(** X26: on an instance that has not authenticated, the registration cannot
    mint: [verifyAndMintPKPThroughRelayer] starts the registration ceremony
    and then fails, with the error that asks to authenticate first when the
    ceremony succeeded; the relay is not asked to mint. *)
Theorem registration_needs_an_earlier_authenticate
    (options : JsValue) (p : WebAuthnProvider.Fields) (w : World) :
  truthy (WebAuthnProvider.this_attestationResponse p) = false ->
  let run := WebAuthnProvider.verifyAndMintPKPThroughRelayer options (p, w) in
  is_Ok (fst run) = false
  /\ calls (snd (snd run)) = (calls w ++ [CallStartRegistration options])%list
  /\ fst (snd run) = p
  /\ (is_Ok (fst (startRegistration options (ext w))) = true ->
      fst run = Throw (not_authenticated "Authentication data")).
Proof.
  intros Hfresh. cbv zeta.
  unfold WebAuthnProvider.verifyAndMintPKPThroughRelayer, WebAuthnProvider.getAuthMethodId.
  run_effects.
  destruct (startRegistration options (ext w)) as [[attResp|e] e1]; cbn; [|done].
  by rewrite Hfresh.
Qed.

(** X27: the mint of a registration, on an instance that has authenticated with
    a credential [rawId]: after the registration ceremony the relay is asked
    once, for the type [WebAuthn], with the identifier of the credential of
    the earlier [authenticate] and the public key decoded from the
    attestation of the registration, in hexadecimal.  The request id of the
    relay is returned; an answer without one is the error of the missing
    request id. *)
Theorem mint_request_of_a_registration
    (options : JsValue) (p : WebAuthnProvider.Fields) (w : World)
    (rawId attestationObject : string) (attResp response : JsValue)
    (key : bytes) (e1 e2 : Ext) (mintRes : JsValue) :
  truthy (WebAuthnProvider.this_attestationResponse p) = true ->
  get (WebAuthnProvider.this_attestationResponse p) "rawId" = Ok (JStr rawId) ->
  startRegistration options (ext w) = (Ok attResp, e1) ->
  get attResp "response" = Ok response ->
  get response "attestationObject" = Ok (JStr attestationObject) ->
  credentialPublicKey (Buffer_from_base64 attestationObject) = Ok key ->
  let body := mint_body (webauthn_id rawId) (hexlify key) in
  mintPKP WebAuthn body e1 = (Ok mintRes, e2) ->
  let run := WebAuthnProvider.verifyAndMintPKPThroughRelayer options (p, w) in
  calls (snd (snd run))
  = (calls w ++ [CallStartRegistration options; CallMintPKP WebAuthn body])%list
  /\ (forall requestId, truthy mintRes = true ->
        get mintRes "requestId" = Ok requestId -> truthy requestId = true ->
        fst run = Ok requestId)
  /\ (truthy mintRes = false -> fst run = Throw missing_request_id)
  /\ (forall requestId, get mintRes "requestId" = Ok requestId ->
        truthy requestId = false -> fst run = Throw missing_request_id).
Proof.
  intros Hstored HrawId Hreg Hresponse Hobject Hkey body Hmint. cbv zeta.
  unfold WebAuthnProvider.verifyAndMintPKPThroughRelayer, WebAuthnProvider.getAuthMethodId.
  run_effects. rewrite Hreg. cbn. rewrite Hstored. cbn. rewrite HrawId. cbn.
  rewrite Hresponse. cbn. rewrite Hobject. cbn. rewrite Hkey. cbn.
  subst body. unfold mint_body, webauthn_id in Hmint. rewrite Hmint. cbn.
  unfold missing_request_id, mint_body, webauthn_id.
  destruct (truthy mintRes) eqn:Hres; cbn.
  - split; [|split; [|split]].
    + destruct (get mintRes "requestId") as [requestId|e]; cbn;
        [destruct (truthy requestId)|]; cbn; by rewrite <- app_assoc.
    + intros requestId _ Hid Hreq. rewrite Hid. cbn. by rewrite Hreq.
    + done.
    + intros requestId Hid Hreq. rewrite Hid. cbn. by rewrite Hreq.
  - split; [by rewrite <- app_assoc|]. split; [done|]. split; [done|].
    done.
Qed.

(** X28: a registration whose attestation cannot be decoded is not minted: on an
    instance that has authenticated, when the public key cannot be read out
    of the attestation object, [verifyAndMintPKPThroughRelayer] throws the
    decoding error with the cause in its text, after the registration
    ceremony and without a request to the relay. *)
Theorem undecodable_attestation_is_not_minted
    (options : JsValue) (p : WebAuthnProvider.Fields) (w : World)
    (rawId attestationObject : string) (attResp response : JsValue) (e1 : Ext) (e : Exn) :
  truthy (WebAuthnProvider.this_attestationResponse p) = true ->
  get (WebAuthnProvider.this_attestationResponse p) "rawId" = Ok (JStr rawId) ->
  startRegistration options (ext w) = (Ok attResp, e1) ->
  get attResp "response" = Ok response ->
  get response "attestationObject" = Ok (JStr attestationObject) ->
  credentialPublicKey (Buffer_from_base64 attestationObject) = Throw e ->
  WebAuthnProvider.verifyAndMintPKPThroughRelayer options (p, w)
  = (Throw (Error ("Error while decoding credential create response for public key retrieval. attestation response not encoded as expected: "
                     ++ Exn_toString e)),
     (p, logged (CallStartRegistration options) e1 w)).
Proof.
  intros Hstored HrawId Hreg Hresponse Hobject Hkey.
  unfold WebAuthnProvider.verifyAndMintPKPThroughRelayer, WebAuthnProvider.getAuthMethodId,
    logged.
  run_effects. rewrite Hreg. cbn. rewrite Hstored. cbn. rewrite HrawId. cbn.
  rewrite Hresponse. cbn. rewrite Hobject. cbn. by rewrite Hkey.
Qed.

(** X29: [getRelayerRequest] succeeds exactly when [getAuthMethodId] does: its
    request names the type [WebAuthn] and the identifier [getAuthMethodId]
    returns, and no public key; a failure of [getAuthMethodId] is passed on,
    except on an instance that has not authenticated, where the error is the
    one of the missing access token.  Nothing is changed. *)
Theorem relayer_request_carries_the_identifier
    (p : WebAuthnProvider.Fields) (w : World) :
  WebAuthnProvider.getRelayerRequest (p, w)
  = (match fst (WebAuthnProvider.getAuthMethodId (p, w)) with
     | Ok id => Ok {| req_authMethodType := WebAuthn;
                      req_authMethodId := id;
                      req_authMethodPubKey := None |}
     | Throw e =>
         if truthy (WebAuthnProvider.this_attestationResponse p) then Throw e
         else Throw (not_authenticated "Access token")
     end, (p, w)).
Proof.
  unfold WebAuthnProvider.getRelayerRequest, WebAuthnProvider.getAuthMethodId.
  run_effects.
  destruct (truthy (WebAuthnProvider.this_attestationResponse p)) eqn:Hstored; cbn; [|done].
  rewrite Hstored. cbn.
  by destruct (_ <~ get (WebAuthnProvider.this_attestationResponse p) "rawId" ;; _).
Qed.

(** ** A failed [authenticate] on an instance that has a credential *)

(** X30: an [authenticate] that fails leaves the credential of an earlier
    success in place: [getAuthMethodId] answers after it as it did before
    it, for the three providers. *)
Theorem failed_authenticate_keeps_the_credential :
  (forall o s e s',
     EthWalletProvider.authenticate o s = (Throw e, s') ->
     fst (EthWalletProvider.getAuthMethodId s') = fst (EthWalletProvider.getAuthMethodId s))
  /\ (forall s e s',
        WebAuthnProvider.authenticate s = (Throw e, s') ->
        fst (WebAuthnProvider.getAuthMethodId s') = fst (WebAuthnProvider.getAuthMethodId s))
  /\ (forall s e s',
        AppleProvider.authenticate s = (Throw e, s') ->
        fst (AppleProvider.getAuthMethodId s') = fst (AppleProvider.getAuthMethodId s)).
Proof.
  split; [|split].
  - intros o [p w] e [p' w'] Hrun.
    pose proof (EthWallet_authenticate_fails_clean o _ _ _ Hrun eq_refl) as Hp.
    cbn in Hp. subst p'. unfold EthWalletProvider.getAuthMethodId. run_effects.
    by destruct (EthWalletProvider.this_authSig p).
  - intros [p w] e [p' w'] Hrun.
    pose proof (WebAuthn_authenticate_fails_clean _ _ _ Hrun eq_refl) as Hp.
    cbn in Hp. subst p'. unfold WebAuthnProvider.getAuthMethodId. run_effects.
    by destruct (negb _).
  - intros [p w] e [p' w'] Hrun.
    pose proof (Apple_authenticate_fails_clean _ _ _ Hrun eq_refl) as Hp.
    cbn in Hp. subst p'. unfold AppleProvider.getAuthMethodId. run_effects.
    by destruct (negb _).
Qed.

End Properties.

(** * The reference platform against known values *)

Section ReferenceChecks.
Import Reference.

(** Each conjunct is settled by evaluation. *)
Ltac evaluate :=
  repeat match goal with |- _ /\ _ => split end; vm_compute; reflexivity.

Example keccak256_empty :
  keccak256 [] = "0xc5d2460186f7233c927e7db2dcc703c0e500b653ca82273b7bfad8045d85a470".
Proof. vm_compute. reflexivity. Qed.

Example keccak256_abc :
  keccak256 (toUtf8Bytes "abc")
  = "0x4e03657aea45a94fc7d47ba826c8d667c0d1e6e33a64a036ec44f58fa12d6c45".
Proof. vm_compute. reflexivity. Qed.

(** Messages of one byte less than a block, of a block, and of more than two
    blocks. *)
Example keccak256_blocks :
  keccak256 (repeat Byte.x71 135)
  = "0x185a63a44dfbc2991f831da304441efa5ffdd2aff746276a62995fb8375eb7e7"
  /\ keccak256 (repeat Byte.x71 136)
     = "0x9885ca08e6e92da0bf0dac614d1bc7cc0b9d1f8d7a3c2cf77f51e58f58f7c4d3"
  /\ keccak256 (repeat Byte.x71 300)
     = "0x84071a43e3c158fc94b379c2a929844a9eade7bc738e1a097cfe2a1cd65fb86f".
Proof. evaluate. Qed.

(** The test addresses of EIP-55, and an ICAP address. *)
Example getAddress_eip55 :
  getAddress "0x5aaeb6053f3e94c9b9a09f33669435e7ef1beaed"
  = Ok "0x5aAeb6053F3E94C9b9A09f33669435E7Ef1BeAed"
  /\ getAddress "0xfb6916095ca1df60bb79ce92ce3ea74c37c5d359"
     = Ok "0xfB6916095ca1df60bB79Ce92cE3Ea74c37c5d359"
  /\ getAddress "DBF03B407C01E7CD3CBEA99509D93F8DDDC8C6FB"
     = Ok "0xdbF03B407c01E7cD3CBea99509d93f8DDDC8C6FB"
  /\ getAddress "0xD1220A0cf47c7B9Be7A2E6BA89F429762e7b9adb"
     = Throw (Error "bad address checksum")
  /\ getAddress "XE65GB6LDNXYOFTX0NSV3FUWKOWIXAMJK36"
     = Ok "0x8ba1f109551bD432803012645Ac136ddd64DBA72".
Proof. evaluate. Qed.

Example btoa_xyz789 : Base64.btoa "xyz789" = "eHl6Nzg5".
Proof. reflexivity. Qed.

Example atob_abc123 : Base64.atob "YWJjMTIz" = Ok "abc123".
Proof. reflexivity. Qed.

Example atob_forgiving :
  Base64.atob "YQ==" = Ok "a" /\ Base64.atob "YWI" = Ok "ab"
  /\ is_Ok (Base64.atob "YWJjZ") = false /\ is_Ok (Base64.atob "YW-j") = false.
Proof. evaluate. Qed.

Example JSON_parse_values :
  Json.parse "[1, 2.50, -0, 1e3, 1e21, 1.5e-7, true, null]"
  = Ok (JArr [JNum "1"; JNum "2.5"; JNum "0"; JNum "1000"; JNum "1e+21";
              JNum "1.5e-7"; JBool true; JNull])
  /\ Json.parse "{}" = Ok (JObj [])
  /\ is_Ok (Json.parse "undefined") = false
  /\ is_Ok (Json.parse "[1,]") = false.
Proof. evaluate. Qed.

Example JSON_roundtrip_assertion :
  Json.parse (Json.stringify Scenario.assertion_response) = Ok Scenario.assertion_response.
Proof. vm_compute. reflexivity. Qed.

Example toISOString_epoch :
  toISOString 0 = "1970-01-01T00:00:00.000Z"
  /\ toISOString 1690000000123 = "2023-07-22T04:26:40.123Z"
  /\ toISOString 951782400000 = "2000-02-29T00:00:00.000Z".
Proof. evaluate. Qed.

(** Addresses read against the address of a page: a path from the root
    stays on the site, two slashes or a slash and a backslash start the
    name of a host, dot segments are resolved, the default port is no
    port, and a port above 65535 is no address. *)
Example URL_parse_examples :
  let base := Some "https://app.example/cb?provider=apple" in
  (url_href <$> Url.URL_parse "/cb" base) = Some "https://app.example/cb"
  /\ (url_search <$> Url.URL_parse "/cb" base) = Some EmptyString
  /\ (url_href <$> Url.URL_parse "//evil.example/cb" base) = Some "https://evil.example/cb"
  /\ (url_hostname <$> Url.URL_parse "//evil.example/cb" base) = Some "evil.example"
  /\ (url_href <$> Url.URL_parse (String "/" (String "092" "evil.example")) base)
     = Some "https://evil.example/"
  /\ (url_href <$> Url.URL_parse "/a/../b/./c/.." base) = Some "https://app.example/b/"
  /\ (url_href <$> Url.URL_parse "x/y?z#f" (Some "https://u:p@App.Example:443/a/b/c?q"))
     = Some "https://u:p@app.example/a/b/x/y?z#f"
  /\ (url_pathname <$> Url.URL_parse "https://app.example//evil.example/cb?provider=apple" None)
     = Some "//evil.example/cb"
  /\ (url_port <$> Url.URL_parse "http://app.example:8080" None) = Some "8080"
  /\ Url.URL_parse "https://app.example:99999" None = None
  /\ Url.URL_parse "/cb" None = None.
Proof. intros base. evaluate. Qed.

Example getRPIdFromOrigin_examples :
  Utils.getRPIdFromOrigin "https://app.example:8080" = "app.example"
  /\ Utils.getRPIdFromOrigin "http://localhost:3000" = "localhost"
  /\ Utils.getRPIdFromOrigin "app.example:80a" = "app.example:80a".
Proof. evaluate. Qed.

End ReferenceChecks.

(** * The properties on the scenarios *)

Section OnScenarios.
Import Scenario.

Ltac evaluate :=
  repeat match goal with |- _ /\ _ => split end; vm_compute; reflexivity.

(** With the numbers of the enumeration: an Apple ID token is refused by
    the dispatcher with the text of the [default] branch, while the method
    of the provider derives an identifier from the same token, and so does
    the dispatcher when the token is typed [GoogleJwt]. *)
Example dispatcher_on_apple_token :
  fst (Utils.getAuthMethodId (P := P) (token_of AppleJwt apple_jwt) wallet_page)
  = Throw (Error ("Invalid auth method type " ++ quoted "8" ++ " passed"))
  /\ fst (Utils.getAuthMethodId (P := P) (token_of GoogleJwt apple_jwt) wallet_page)
     = Ok (JStr "0xbe10600250cdbb67d0721126c98008c12cba92bbe9ef28b84e436c2fabd1c028")
  /\ fst (AppleProvider.getAuthMethodId (P := P)
            (AppleProvider.set_idToken apple_jwt apple, wallet_page))
     = Ok "0xbe10600250cdbb67d0721126c98008c12cba92bbe9ef28b84e436c2fabd1c028".
Proof. evaluate. Qed.

(** A run is its result and the state it leaves. *)
Lemma run_result {S A : Type} (x : Res A * S) (r : Res A) : fst x = r -> x = (r, snd x).
Proof. intros <-. by destruct x. Qed.

(** C2, counterexample: an address passed in lower case.  [authenticate]
    succeeds, and the identifier [getAuthMethodId] then returns is the
    address in lower case, which is not its EIP-55 form. *)
Lemma C2_counterexample_lowercase_address :
  is_Ok (fst signed_run) = true
  /\ fst (EthWalletProvider.getAuthMethodId (P := P) (snd signed_run)) = Ok lower_address
  /\ getAddress (Platform := P) lower_address = Ok checksummed_address
  /\ lower_address <> checksummed_address.
Proof.
  split; [vm_compute; reflexivity|].
  split; [vm_compute; reflexivity|].
  split; [vm_compute; reflexivity|].
  discriminate.
Qed.

(** C2, witness: the same call; the message that was signed carries the
    checksummed address, the packaged signature the address as passed. *)
Lemma C2_witness_lowercase_address :
  truthy (EthWalletProvider.cache_of (sign_options JUndefined)) = false
  /\ (exists a checksummed fields e e',
        EthWalletProvider.this_authSig (fst (snd signed_run)) = Some a
        /\ result_of signed_run no_method
           = {| authMethodType := EthWallet;
                accessToken := JSON_stringify (Platform := P) (AuthSig_value a) |}
        /\ address a = lower_address
        /\ getAddress (Platform := P) lower_address = Ok checksummed
        /\ siwe_address fields = checksummed
        /\ prepareMessage (Platform := P) fields e = (Ok (signedMessage a), e'))
  /\ EthWalletProvider.getAuthMethodId (P := P) (snd signed_run)
     = (Ok lower_address, snd signed_run).
Proof.
  split; [vm_compute; reflexivity|].
  apply (C2_authSig_address_is_the_input_address (P := P)
           eth_wallet wallet_page (sign_options JUndefined) lower_address sign_stub).
  - vm_compute. reflexivity.
  - reflexivity.
  - discriminate.
  - reflexivity.
  - apply run_result. vm_compute. reflexivity.
Defined.

(** C4, counterexample: the token [abc123] is stored and the callback
    brings the [state] [a], which is no base64 text, with the provider and an
    ID token as in a good callback.  The state does not decode to the stored
    token, and [authenticate] fails, but not with the invalid-state error:
    the exception of [atob] leaves it. *)
Lemma C4_counterexample_undecodable_state :
  startsWith (href (window short_callback)) (AppleProvider.redirectUri apple) = true
  /\ provider (callback (P := P) short_callback) = Some "apple"
  /\ state (callback (P := P) short_callback) = Some "a"
  /\ stored_state (P := P) short_callback = Some "abc123"
  /\ decodeURIComponent (Platform := P) "a" = Ok "a"
  /\ atob (Platform := P) "a"
     = Throw (InvalidCharacterError "The string to be decoded is not correctly encoded.")
  /\ fst (AppleProvider.authenticate (P := P) (apple, short_callback))
     = Throw (InvalidCharacterError "The string to be decoded is not correctly encoded.")
  /\ InvalidCharacterError "The string to be decoded is not correctly encoded."
     <> Error ("Invalid state parameter " ++ quoted "a" ++ " passed in redirect callback URL").
Proof.
  repeat match goal with |- _ /\ _ => split end; try (vm_compute; reflexivity).
  discriminate.
Qed.

(** C4, witness: the token [abc123] is stored.  A callback that brings a
    [state] that decodes to [xyz789], with the provider and an ID token as
    in a good callback, is refused with the invalid-state error; one whose
    [state] is a broken escape is refused with the error of
    [decodeURIComponent]. *)
Lemma C4_witness_forged_state :
  state_differs (P := P) forged_callback
  /\ AppleProvider.authenticate (P := P) (apple, forged_callback)
     = (Throw (Error ("Invalid state parameter " ++ quoted "eHl6Nzg5"
                        ++ " passed in redirect callback URL")),
        (apple, forged_callback))
  /\ state_undecodable (P := P) escaped_callback (URIError "URI malformed")
  /\ AppleProvider.authenticate (P := P) (apple, escaped_callback)
     = (Throw (URIError "URI malformed"), (apple, escaped_callback)).
Proof.
  assert (Hdiff : state_differs (P := P) forged_callback).
  { right. exists "eHl6Nzg5", "eHl6Nzg5", "xyz789".
    split; [vm_compute; reflexivity|].
    split; [vm_compute; reflexivity|].
    split; [vm_compute; reflexivity|].
    vm_compute. discriminate. }
  assert (Hbad : state_undecodable (P := P) escaped_callback (URIError "URI malformed")).
  { exists "%ZZ". split; [vm_compute; reflexivity|]. split; [discriminate|].
    left. vm_compute. reflexivity. }
  split; [exact Hdiff|]. split; [|split; [exact Hbad|]].
  - apply (proj1 (proj1 (C4_state_mismatch_fails_closed (P := P) apple forged_callback)
                    ltac:(vm_compute; reflexivity) ltac:(vm_compute; reflexivity)
                    ltac:(vm_compute; reflexivity)) Hdiff).
  - apply (proj2 (proj1 (C4_state_mismatch_fails_closed (P := P) apple escaped_callback)
                    ltac:(vm_compute; reflexivity) ltac:(vm_compute; reflexivity)
                    ltac:(vm_compute; reflexivity)) _ Hbad).
Defined.

(** The good callback goes through, and stores the token. *)
Example good_callback_authenticates :
  fst (AppleProvider.authenticate (P := P) (apple, good_callback))
  = Ok (token_of AppleJwt apple_jwt)
  /\ AppleProvider.this_idToken
       (fst (snd (AppleProvider.authenticate (P := P) (apple, good_callback))))
     = Some apple_jwt.
Proof. evaluate. Qed.

(** C5, witness: the redirect URI is [https://app.example/cb] and the
    current address is at [https://evil.example]; whatever the query and the
    session storage, [authenticate] throws the redirect-mismatch error. *)
Lemma C5_witness_evil_origin :
  startsWith (href (window evil_callback)) (AppleProvider.redirectUri apple) = false
  /\ AppleProvider.authenticate (P := P) (apple, with_callback forged_query ∅ evil_callback)
     = (Throw (AppleProvider.redirect_mismatch
                 (href (window evil_callback)) "https://app.example/cb"),
        (apple, with_callback forged_query ∅ evil_callback)).
Proof.
  split; [vm_compute; reflexivity|].
  apply (C5_redirect_mismatch_comes_first (P := P) apple evil_callback).
  vm_compute. reflexivity.
Defined.

(** C6, counterexample: address and signing function are supplied, and
    [cache] is [true].  The collaborator is consulted, the signing function
    is not called, and the signature stored is the one of the
    collaborator. *)
Lemma C6_counterexample_cache_on :
  both_supplied (sign_options (JBool true)) = true
  /\ is_Ok (fst cached_run) = true
  /\ calls (snd (snd cached_run)) = [CallCheckAndSignAuthMessage "ethereum" None]
  /\ EthWalletProvider.this_authSig (fst (snd cached_run)) = Some cached_sig.
Proof. evaluate. Qed.

(** C6, witness: the same options with caching off: the address is
    checksummed, the message is prepared for it, and the one call that
    leaves the client is the call of the signing function on the text of
    that message; its signature is packaged with the text and the address
    in lower case. *)
Lemma C6_witness_cache_off :
  truthy (EthWalletProvider.cache_of (sign_options JUndefined)) = false
  /\ both_supplied (sign_options JUndefined) = true
  /\ getAddress (Platform := P) lower_address = Ok checksummed_address
  /\ fst (prepareMessage (Platform := P)
            (sign_in_message (P := P) eth_wallet (sign_options JUndefined)
               checksummed_address 1690000000123)
            outside)
     = Ok signed_text
  /\ calls (snd (snd signed_run)) = [CallSignMessage signed_text]
  /\ EthWalletProvider.this_authSig (fst (snd signed_run))
     = Some {| sig := "0x1b2c3d4e5f"; derivedVia := "web3.eth.personal.sign";
               signedMessage := signed_text; address := lower_address |}.
Proof.
  assert (Hc : truthy (EthWalletProvider.cache_of (sign_options JUndefined)) = false)
    by (vm_compute; reflexivity).
  assert (Hb : both_supplied (sign_options JUndefined) = true)
    by (vm_compute; reflexivity).
  assert (Hget : getAddress (Platform := P) lower_address = Ok checksummed_address)
    by (vm_compute; reflexivity).
  assert (Htext : fst (prepareMessage (Platform := P)
                         (sign_in_message (P := P) eth_wallet (sign_options JUndefined)
                            checksummed_address 1690000000123)
                         outside)
                  = Ok signed_text)
    by (vm_compute; reflexivity).
  split; [exact Hc|]. split; [exact Hb|]. split; [exact Hget|]. split; [exact Htext|].
  destruct (C6_delegation_follows_cache_then_inputs (P := P)
              eth_wallet wallet_page (sign_options JUndefined)
              (fst signed_run) (snd signed_run))
    as (new & Hcalls & Hcase).
  { by apply run_result. }
  change (calls wallet_page) with (@nil Call) in Hcalls. cbn [app] in Hcalls.
  rewrite Hc, Hb in Hcase.
  destruct Hcase as (addr & sign & [= <-] & [= <-] & Hcase).
  rewrite Hget in Hcase.
  change (Date_now (Platform := P) (ext wallet_page)) with 1690000000123%Z in Hcase.
  change (ext wallet_page) with outside in Hcase.
  destruct (prepareMessage _ _) as [[toSign|e] e1]; cbn [fst] in Htext; [|done].
  injection Htext as ->.
  destruct Hcase as (-> & _ & Hsig & _).
  by split.
Defined.




(** C9, witness: the assertion of the scenario.  The method of the
    provider, after [authenticate], and the rule of the dispatcher, on the
    auth method [authenticate] returned, give the same identifier; another
    [rawId] gives another one. *)
Lemma C9_witness_assertion :
  let run := WebAuthnProvider.authenticate (P := P)
               (WebAuthnProvider.constructor "https://rpc.example", wallet_page) in
  fst (WebAuthnProvider.getAuthMethodId (P := P) (snd run))
  = Ok (webauthn_id (P := P) "dGVzdC1jcmVkZW50aWFs")
  /\ Utils.getWebAuthnAuthMethodId (P := P) (result_of run no_method)
     = Ok (JStr (webauthn_id (P := P) "dGVzdC1jcmVkZW50aWFs"))
  /\ webauthn_id (P := P) "dGVzdC1jcmVkZW50aWFs"
     <> webauthn_id (P := P) "b3RoZXItY3JlZGVudGlhbA".
Proof.
  intros run.
  pose proof (C9_webauthn_identifier_is_a_function_of_rawId (P := P)
                "dGVzdC1jcmVkZW50aWFs") as (Hprovider & Hrule & _ & Hdiff).
  split; [|split].
  - destruct (snd run) as [p w] eqn:E.
    rewrite (Hprovider p w); [done| |].
    + replace p with (fst (snd run)) by (by rewrite E). vm_compute. reflexivity.
    + replace p with (fst (snd run)) by (by rewrite E). vm_compute. reflexivity.
  - apply (Hrule (accessToken (result_of run no_method)) assertion_response).
    + vm_compute. reflexivity.
    + reflexivity.
  - destruct (Hdiff "b3RoZXItY3JlZGVudGlhbA") as [Hne | [_ Hsame]].
    + discriminate.
    + exact Hne.
    + exfalso. vm_compute in Hsame. discriminate.
Defined.

(** C10, witness: a new instance of [EthWalletProvider], an [authenticate]
    that fails because the wallet refuses, then [getAuthMethodId]: it throws
    the error that asks to authenticate first. *)
Lemma C10_witness_after_refusal :
  is_Ok (fst refused_run) = false
  /\ EthWalletProvider.getAuthMethodId (P := P) (snd refused_run)
     = (Throw (not_authenticated "Auth signature"), snd refused_run).
Proof.
  split; [vm_compute; reflexivity|].
  apply (proj1 (C10_getAuthMethodId_needs_a_successful_authenticate (P := P))
           {| EthWalletProvider.options_domain := Some "app.example";
              EthWalletProvider.options_origin := Some "https://app.example" |}
           (window wallet_page) wallet_page_refusing).
  eapply rtc_l; [|apply rtc_refl].
  apply (EthWallet_authenticate_fails None _ (Rejection "User rejected the request")).
  apply run_result. vm_compute. reflexivity.
Defined.

(** ** [utils] *)

(** X3, witness: the login URL for [discord] from the page of the application: the
    token of the random source is stored, and its encoding is in the URL. *)
Lemma prepareLoginUrl_witness_discord :
  let run := Utils.prepareLoginUrl (P := P) "discord" "https://app.example/cb" wallet_page in
  Utils.isSocialLoginSupported "discord" = true
  /\ fst run
     = Ok "https://login.litgateway.com/auth/discord?app_redirect=https%3A%2F%2Fapp.example%2Fcb&state=VjFTdEdYUjhfWjVqZEhp"
  /\ stored_state (snd run) = Some "V1StGXR8_Z5jdHi"
  /\ calls (snd run) = [CallNanoid 15].
Proof.
  intros run. split; [reflexivity|].
  destruct (prepareLoginUrl_stores_what_it_encodes (P := P)
              "discord" "https://app.example/cb" wallet_page eq_refl)
    as (Hurl & Hstored & Hcalls & _).
  fold run in Hurl, Hstored, Hcalls.
  split; [rewrite Hurl; vm_compute; reflexivity|].
  split; [rewrite Hstored; vm_compute; reflexivity|].
  exact Hcalls.
Defined.

(** X5, witness: the origin [https://app.example], with and without the port 8080. *)
Lemma getRPIdFromOrigin_witness_port :
  all_chars Utils.is_word "https" = true
  /\ all_chars Utils.is_digit "8080" = true
  /\ Utils.getRPIdFromOrigin "https://app.example:8080" = "app.example"
  /\ Utils.getRPIdFromOrigin "https://app.example" = "app.example".
Proof.
  split; [reflexivity|]. split; [reflexivity|].
  destruct (getRPIdFromOrigin_is_the_host "https" "app.example" "8080")
    as [Hport Hhost]; [discriminate|reflexivity|].
  split.
  - apply Hport; [discriminate|reflexivity].
  - apply Hhost. reflexivity.
Defined.

(** ** The derivation rules *)

(** X7, witness: a Google token with two audiences, and the token of the Apple
    scenario read by the Google rule. *)
Lemma google_witness_two_audiences :
  decodeJwt (Platform := P) google_jwt_two_audiences
  = Ok (JObj [("sub", JStr "110169484474386276334");
              ("aud", JArr [JStr "web.example"; JStr "ios.example"])])
  /\ Utils.getAuthMethodId (P := P) (token_of GoogleJwt google_jwt_two_audiences) wallet_page
     = (Ok (JStr (keccak256 (Platform := P)
                    (toUtf8Bytes (Platform := P)
                       "110169484474386276334:web.example,ios.example"))),
        wallet_page)
  /\ Utils.getAuthMethodId (P := P) (token_of GoogleJwt apple_jwt) wallet_page
     = (Ok (JStr (keccak256 (Platform := P)
                    (toUtf8Bytes (Platform := P) "001234.abcdef:com.example.app"))),
        wallet_page)
  /\ keccak256 (Platform := P)
       (toUtf8Bytes (Platform := P) "110169484474386276334:web.example,ios.example")
     = "0x6507d309f4934e6a96bf255d9c13a538b38dc30fc5b435ff3bbbfdc53fa3bf78"
  /\ keccak256 (Platform := P) (toUtf8Bytes (Platform := P) "001234.abcdef:com.example.app")
     = "0xbe10600250cdbb67d0721126c98008c12cba92bbe9ef28b84e436c2fabd1c028".
Proof.
  split; [vm_compute; reflexivity|].
  split; [|split; [|split; vm_compute; reflexivity]].
  - apply (proj2 (google_identifier_hashes_sub_and_aud (P := P)
                    google_jwt_two_audiences
                    (JObj [("sub", JStr "110169484474386276334");
                           ("aud", JArr [JStr "web.example"; JStr "ios.example"])])
                    "110169484474386276334"
                    ltac:(vm_compute; reflexivity) eq_refl)
             ["web.example"; "ios.example"] wallet_page).
    reflexivity.
  - apply (proj1 (google_identifier_hashes_sub_and_aud (P := P)
                    apple_jwt
                    (JObj [("sub", JStr "001234.abcdef"); ("aud", JStr "com.example.app")])
                    "001234.abcdef"
                    ltac:(vm_compute; reflexivity) eq_refl)
             "com.example.app" wallet_page).
    reflexivity.
Defined.

(** X8, witness: the profile request is answered with the id 80351110224678912. *)
Lemma discord_witness_profile :
  Utils.getAuthMethodId (P := P) (token_of Discord discord_token) wallet_page
  = (Ok (JStr (keccak256 (Platform := P)
                 (toUtf8Bytes (Platform := P) "80351110224678912:1052874239658692668"))),
     logged (P := P) (CallFetchDiscordUser discord_token) outside wallet_page)
  /\ keccak256 (Platform := P)
       (toUtf8Bytes (Platform := P) "80351110224678912:1052874239658692668")
     = "0xe4004e43dbbe22179af4a41b651a74079c80c3435796e5f1abca97c3753219a8".
Proof.
  split; [|vm_compute; reflexivity].
  apply (proj1 (discord_identifier_hashes_the_profile_id (P := P) discord_token wallet_page)
           {| ok := true; json := Ok (JObj [("id", JStr "80351110224678912")]) |}
           outside (JObj [("id", JStr "80351110224678912")]) "80351110224678912");
    reflexivity.
Defined.

(** X9, witness: the OTP token of the scenario, and the same payload under another
    header and another signature. *)
Lemma otp_witness_resigned :
  split "." otp_jwt
  = ["eyJhbGciOiJub25lIn0";
     "eyJvcmdJZCI6Ik9yZ0FCQyIsImV4dHJhRGF0YSI6InVzZXItNDJ8ZXh0cmEtY29udGV4dCJ9";
     "c2ln"]
  /\ split "." otp_jwt_resigned
     = ["eyJhbGciOiJIUzI1NiJ9";
        "eyJvcmdJZCI6Ik9yZ0FCQyIsImV4dHJhRGF0YSI6InVzZXItNDJ8ZXh0cmEtY29udGV4dCJ9";
        "Zm9yZ2Vk"]
  /\ Utils.getOTPMethodId (P := P) (token_of OTP otp_jwt)
     = Utils.getOTPMethodId (P := P) (token_of OTP otp_jwt_resigned).
Proof.
  split; [vm_compute; reflexivity|]. split; [vm_compute; reflexivity|].
  apply (otp_identifier_reads_the_payload_only (P := P) otp_jwt otp_jwt_resigned
           "eyJhbGciOiJub25lIn0"
           "eyJvcmdJZCI6Ik9yZ0FCQyIsImV4dHJhRGF0YSI6InVzZXItNDJ8ZXh0cmEtY29udGV4dCJ9"
           "c2ln" "eyJhbGciOiJIUzI1NiJ9" "Zm9yZ2Vk");
    vm_compute; reflexivity.
Defined.

(** ** [EthWalletProvider] *)

(** X10, witness: the run of the signing branch: the dispatcher reads the address out of
    the auth method it returned. *)
Lemma EthWallet_token_witness_signed :
  EthWalletProvider.this_authSig (fst (snd signed_run)) = Some signed_sig
  /\ JSON_parse (Platform := P) (JSON_stringify (Platform := P) (AuthSig_value signed_sig))
     = Ok (AuthSig_value signed_sig)
  /\ EthWalletProvider.getAuthMethodId (P := P) (snd signed_run)
     = (Ok (address signed_sig), snd signed_run)
  /\ Utils.getAuthMethodId (P := P) (result_of signed_run no_method) wallet_page
     = (Ok (JStr (address signed_sig)), wallet_page)
  /\ address signed_sig = lower_address.
Proof.
  assert (H1 : EthWalletProvider.this_authSig (fst (snd signed_run)) = Some signed_sig)
    by (vm_compute; reflexivity).
  assert (H2 : JSON_parse (Platform := P)
                 (JSON_stringify (Platform := P) (AuthSig_value signed_sig))
               = Ok (AuthSig_value signed_sig))
    by (vm_compute; reflexivity).
  destruct (EthWallet_token_carries_the_identifier (P := P)
              (sign_options JUndefined) (eth_wallet, wallet_page) (snd signed_run)
              (result_of signed_run no_method) signed_sig)
    as [Hid Hrule]; [apply run_result; vm_compute; reflexivity | exact H1 | exact H2 |].
  split; [exact H1|]. split; [exact H2|]. split; [exact Hid|].
  split; [apply Hrule|]. vm_compute. reflexivity.
Defined.

(** X11, witness: no options, on a wallet that answers [undefined], and on the wallet
    that has a signature in its cache. *)
Lemma EthWallet_delegation_witness_undefined :
  let asked := CallCheckAndSignAuthMessage "ethereum" None in
  both_supplied (P := P) None = false
  /\ EthWalletProvider.authenticate (P := P) None (eth_wallet, wallet_page_undefined)
     = (Throw (Error "Auth signature is undefined"),
        (eth_wallet, logged (P := P) asked outside_undefined wallet_page_undefined))
  /\ EthWalletProvider.authenticate (P := P) None (eth_wallet, wallet_page)
     = (Ok {| authMethodType := EthWallet;
              accessToken := JSON_stringify (Platform := P) (AuthSig_value cached_sig) |},
        (EthWalletProvider.set_authSig cached_sig eth_wallet,
         logged (P := P) asked outside wallet_page)).
Proof.
  intros asked. split; [reflexivity|]. split.
  - exact (proj1 (EthWallet_delegation_outcomes (P := P) None eth_wallet
                    wallet_page_undefined eq_refl eq_refl)).
  - exact (proj1 (EthWallet_delegation_outcomes (P := P) None eth_wallet
                    wallet_page eq_refl eq_refl)).
Defined.

(** X12, witness: caching on with an expiration of 12 hours, and of 0 hours, at the
    clock of the scenario. *)
Lemma EthWallet_cached_expiration_witness :
  truthy (EthWalletProvider.cache_of (cached_options 12)) = true
  /\ calls (snd (snd (EthWalletProvider.authenticate (cached_options 12)
                        (eth_wallet, wallet_page))))
     = [CallCheckAndSignAuthMessage "polygon" (Some "2023-07-22T16:26:40.123Z")]
  /\ calls (snd (snd (EthWalletProvider.authenticate (cached_options 0)
                        (eth_wallet, wallet_page))))
     = [CallCheckAndSignAuthMessage "polygon" None].
Proof.
  split; [reflexivity|]. split.
  - apply (proj1 (EthWallet_cached_expiration (P := P) (cached_options 12)
                    eth_wallet wallet_page eq_refl)
             "hours" 12%Z "2023-07-22T16:26:40.123Z" outside);
      [reflexivity | discriminate | reflexivity | discriminate |].
    apply run_result. vm_compute. reflexivity.
  - apply (proj2 (EthWallet_cached_expiration (P := P) (cached_options 0)
                    eth_wallet wallet_page eq_refl)).
    right. reflexivity.
Defined.

(** X13, witness: address and signing function without chain and expiration: the message
    is for chain id 1, and expires 24 hours after the clock of the
    scenario. *)
Lemma EthWallet_message_witness_plain :
  truthy (EthWalletProvider.cache_of sign_options_plain) = false
  /\ exists a fields e',
       EthWalletProvider.this_authSig (fst (snd plain_run)) = Some a
       /\ prepareMessage (Platform := P) fields (ext wallet_page) = (Ok (signedMessage a), e')
       /\ siwe_version fields = "1"
       /\ siwe_chainId fields = 1%Z
       /\ siwe_expirationTime fields = "2023-07-23T04:26:40.123Z".
Proof.
  split; [reflexivity|].
  destruct (EthWallet_message_defaults (P := P) eth_wallet wallet_page sign_options_plain
              lower_address sign_stub (result_of plain_run no_method) (snd plain_run))
    as (a & fields & e' & Hset & Hprep & _ & Hver & _ & _ & _ & Hchain & Hexp & _).
  - reflexivity.
  - reflexivity.
  - discriminate.
  - reflexivity.
  - apply run_result. vm_compute. reflexivity.
  - exists a, fields, e'. split; [exact Hset|]. split; [exact Hprep|].
    split; [exact Hver|]. split.
    + rewrite (Hchain {| chainId := 1 |}); [reflexivity|vm_compute; reflexivity].
    + rewrite Hexp; [vm_compute; reflexivity|reflexivity].
Defined.

(** X14, witness: an address of four digits is refused by [getAddress]; nothing is
    signed. *)
Lemma EthWallet_invalid_address_witness :
  getAddress (Platform := P) "0x1234" = Throw (Error "invalid address")
  /\ EthWalletProvider.authenticate short_address_options (eth_wallet, wallet_page)
     = (Throw (Error "invalid address"), (eth_wallet, wallet_page)).
Proof.
  assert (H : getAddress (Platform := P) "0x1234" = Throw (Error "invalid address"))
    by (vm_compute; reflexivity).
  split; [exact H|].
  apply (EthWallet_invalid_address_is_not_signed (P := P) eth_wallet wallet_page
           short_address_options "0x1234" sign_stub (Error "invalid address"));
    [reflexivity | reflexivity | discriminate | reflexivity | exact H].
Defined.

(** ** [AppleProvider] *)


(** X16, witness: a callback that reports [access_denied], and a callback of the provider
    [google], both at the redirect URI. *)
Lemma Apple_error_witness_denied :
  startsWith (href (window denied_callback)) (AppleProvider.redirectUri apple) = true
  /\ AppleProvider.authenticate (P := P) (apple, denied_callback)
     = (Throw (Error "access_denied"), (apple, denied_callback))
  /\ provider (callback (P := P) google_callback) = Some "google"
  /\ AppleProvider.authenticate (P := P) (apple, google_callback)
     = (Throw (AppleProvider.provider_mismatch (provider (callback (P := P) google_callback))),
        (apple, google_callback)).
Proof.
  split; [vm_compute; reflexivity|]. split; [|split; [vm_compute; reflexivity|]].
  - apply (proj1 (Apple_error_parameter_then_provider (P := P) apple denied_callback
                    ltac:(vm_compute; reflexivity)) "access_denied").
    + vm_compute. reflexivity.
    + discriminate.
  - apply (proj2 (Apple_error_parameter_then_provider (P := P) apple google_callback
                    ltac:(vm_compute; reflexivity))).
    + vm_compute. reflexivity.
    + vm_compute. discriminate.
Defined.

(** X17, witness: a [state] with a broken escape, and a [state] of one character: the
    errors of [decodeURIComponent] and of [atob]. *)
Lemma Apple_undecodable_state_witness :
  state (callback (P := P) escaped_callback) = Some "%ZZ"
  /\ AppleProvider.authenticate (P := P) (apple, escaped_callback)
     = (Throw (URIError "URI malformed"), (apple, escaped_callback))
  /\ state (callback (P := P) short_callback) = Some "a"
  /\ AppleProvider.authenticate (P := P) (apple, short_callback)
     = (Throw (InvalidCharacterError "The string to be decoded is not correctly encoded."),
        (apple, short_callback)).
Proof.
  assert (H1 : state (callback (P := P) escaped_callback) = Some "%ZZ")
    by (vm_compute; reflexivity).
  assert (H2 : state (callback (P := P) short_callback) = Some "a")
    by (vm_compute; reflexivity).
  split; [exact H1|]. split; [|split; [exact H2|]].
  - apply (proj1 (Apple_undecodable_state_throws_the_decoder_error (P := P)
                    apple escaped_callback "%ZZ"
                    ltac:(vm_compute; reflexivity) ltac:(vm_compute; reflexivity)
                    ltac:(vm_compute; reflexivity) H1 ltac:(discriminate))).
    vm_compute. reflexivity.
  - apply (proj2 (Apple_undecodable_state_throws_the_decoder_error (P := P)
                    apple short_callback "a"
                    ltac:(vm_compute; reflexivity) ltac:(vm_compute; reflexivity)
                    ltac:(vm_compute; reflexivity) H2 ltac:(discriminate)) "a").
    + vm_compute. reflexivity.
    + vm_compute. reflexivity.
Defined.

(** X18, witness: a callback with the right provider and state and no ID
    token: the error of the missing token, and an address without query.
    The same callback under the path [//evil.example/cb]: the exception of
    the browser, and the address as it was. *)
Lemma Apple_missing_token_witness :
  state_agrees (P := P) tokenless_callback
  /\ truthy_str (idToken (callback (P := P) tokenless_callback)) = false
  /\ cleared_window (P := P) tokenless_callback = Ok rewritten_page
  /\ AppleProvider.authenticate (P := P) (apple, tokenless_callback)
     = (Throw (Error ("Missing ID token in redirect callback URL for Apple OAuth" ++ dq)),
        (apple, cleared (P := P) rewritten_page tokenless_callback))
  /\ href rewritten_page = "https://app.example/cb"
  /\ AppleProvider.authenticate (P := P) (apple_at_origin, slashes_tokenless_callback)
     = (Throw (SecurityError "The operation is insecure."),
        (apple_at_origin, refused (P := P) slashes_tokenless_callback))
  /\ href (window (refused (P := P) slashes_tokenless_callback))
     = "https://app.example//evil.example/cb?provider=apple&state=YWJjMTIz".
Proof.
  assert (Hstate : state_agrees (P := P) tokenless_callback).
  { exists "YWJjMTIz", "YWJjMTIz", "abc123".
    split; [vm_compute; reflexivity|]. split; [discriminate|].
    split; [vm_compute; reflexivity|]. split; [vm_compute; reflexivity|].
    vm_compute. reflexivity. }
  assert (Hstate' : state_agrees (P := P) slashes_tokenless_callback).
  { exists "YWJjMTIz", "YWJjMTIz", "abc123".
    split; [vm_compute; reflexivity|]. split; [discriminate|].
    split; [vm_compute; reflexivity|]. split; [vm_compute; reflexivity|].
    vm_compute. reflexivity. }
  assert (Hclear : cleared_window (P := P) tokenless_callback = Ok rewritten_page)
    by (vm_compute; reflexivity).
  split; [exact Hstate|]. split; [vm_compute; reflexivity|]. split; [exact Hclear|].
  split; [|split; [reflexivity|split; [|vm_compute; reflexivity]]].
  - apply (proj1 (Apple_missing_token_after_cleanup (P := P) apple tokenless_callback
                    ltac:(vm_compute; reflexivity) ltac:(vm_compute; reflexivity)
                    ltac:(vm_compute; reflexivity) Hstate ltac:(vm_compute; reflexivity))
             _ Hclear).
  - apply (proj2 (Apple_missing_token_after_cleanup (P := P)
                    apple_at_origin slashes_tokenless_callback
                    ltac:(vm_compute; reflexivity) ltac:(vm_compute; reflexivity)
                    ltac:(vm_compute; reflexivity) Hstate' ltac:(vm_compute; reflexivity))).
    vm_compute. reflexivity.
Defined.


(** X20, witness: a login started on the page of the redirect URI stores the token
    [V1StGXR8_Z5jdHi]; the callback that brings its encoding is accepted,
    and after a second login, which stores [6ZrB7wQKx3nPq0a], it is
    refused. *)
Lemma state_round_trip_witness :
  let w1 := snd (Utils.setStateParam (P := P) login_page) in
  let w2 := snd (Utils.setStateParam (P := P) w1) in
  let back := fun w' : @World P =>
                with_callback (P := P) returning_query (sessionStorage (window w')) w' in
  stored_state (P := P) w1 = Some "V1StGXR8_Z5jdHi"
  /\ stored_state (P := P) w2 = Some "6ZrB7wQKx3nPq0a"
  /\ cleared_window (P := P) login_page = Ok rewritten_page
  /\ fst (AppleProvider.authenticate (P := P) (apple, back w1))
     = Ok {| authMethodType := AppleJwt; accessToken := apple_jwt |}
  /\ fst (AppleProvider.authenticate (P := P) (apple, back w2))
     = Throw (Error ("Invalid state parameter " ++ quoted "VjFTdEdYUjhfWjVqZEhp"
                       ++ " passed in redirect callback URL")).
Proof.
  intros w1 w2 back.
  assert (Hclear : cleared_window (P := P) login_page = Ok rewritten_page)
    by (vm_compute; reflexivity).
  split; [vm_compute; reflexivity|]. split; [vm_compute; reflexivity|].
  split; [exact Hclear|].
  destruct (state_of_a_login_is_accepted_until_the_next_login (P := P)
              apple login_page returning_query "VjFTdEdYUjhfWjVqZEhp" apple_jwt)
    as (Haccepted & _ & Hrefused);
    [vm_compute; reflexivity | vm_compute; reflexivity | vm_compute; reflexivity
    | vm_compute; reflexivity | vm_compute; reflexivity | discriminate
    | vm_compute; reflexivity | vm_compute; reflexivity | discriminate |].
  split; [exact (Haccepted _ Hclear)|]. apply Hrefused. vm_compute. discriminate.
Defined.

(** X22, witness: the Apple token of the scenario is read alike by the two parsers. *)
Lemma apple_identifier_witness :
  let p := AppleProvider.set_idToken apple_jwt apple in
  parseJWT (Platform := P) apple_jwt = decodeJwt (Platform := P) apple_jwt
  /\ (id <~ fst (AppleProvider.getAuthMethodId (P := P) (p, wallet_page)) ;; Ok (JStr id))
     = Utils.getGoogleAuthMethodId (P := P) (token_of GoogleJwt apple_jwt)
  /\ snd (AppleProvider.getAuthMethodId (P := P) (p, wallet_page)) = (p, wallet_page).
Proof.
  intros p. split; [vm_compute; reflexivity|].
  apply (apple_identifier_is_the_google_rule (P := P) p wallet_page apple_jwt eq_refl).
  - discriminate.
  - vm_compute. reflexivity.
Defined.

(** ** [WebAuthnProvider] *)

(** X23, witness: the ceremony on the page of the application: the challenge is the
    hash of the block of the scenario, the relying party is the host. *)
Lemma WebAuthn_challenge_witness :
  calls (snd (snd webauthn_run))
  = [CallGetBlock "https://rpc.example";
     CallStartAuthentication
       {| challenge := "iOltRTe-pNnAXRJUmQezJWHTvzH0Wq5zTNwRnxNAbLY";
          timeout := 60000;
          userVerification := "required";
          rpId := "app.example" |}].
Proof.
  pose proof (proj2 (WebAuthn_challenge_is_the_latest_block_hash (P := P)
                       webauthn wallet_page)) as H.
  vm_compute in H. vm_compute. exact H.
Defined.

(** X24, witness: the auth method of the run, read by the dispatcher. *)
Lemma WebAuthn_token_witness :
  let stored := WebAuthnProvider.this_attestationResponse (fst (snd webauthn_run)) in
  truthy stored = true
  /\ JSON_parse (Platform := P) (JSON_stringify (Platform := P) stored) = Ok stored
  /\ result_of webauthn_run no_method
     = {| authMethodType := WebAuthn; accessToken := JSON_stringify (Platform := P) stored |}
  /\ Utils.getAuthMethodId (P := P) (result_of webauthn_run no_method) wallet_page
     = (id <~ fst (WebAuthnProvider.getAuthMethodId (P := P) (snd webauthn_run)) ;;
        Ok (JStr id), wallet_page).
Proof.
  intros stored.
  assert (H1 : truthy stored = true) by (vm_compute; reflexivity).
  assert (H2 : JSON_parse (Platform := P) (JSON_stringify (Platform := P) stored) = Ok stored)
    by (vm_compute; reflexivity).
  destruct (WebAuthn_token_carries_the_identifier (P := P) webauthn wallet_page
              (result_of webauthn_run no_method) (snd webauthn_run))
    as [Ham Hrule]; [apply run_result; vm_compute; reflexivity | exact H1 | exact H2 |].
  split; [exact H1|]. split; [exact H2|]. split; [exact Ham|]. apply Hrule.
Defined.

(** X25, witness: an assertion with the user handle [user-handle-7]: the stored response
    has its base64url encoding, and the [rawId] of the assertion. *)
Lemma WebAuthn_user_handle_witness :
  let stored := WebAuthnProvider.this_attestationResponse (fst (snd handle_run)) in
  is_Ok (fst handle_run) = true
  /\ (r <~ get stored "response" ;; get r "userHandle") = Ok (JStr "dXNlci1oYW5kbGUtNw")
  /\ get stored "rawId" = Ok (JStr "dGVzdC1jcmVkZW50aWFs").
Proof.
  intros stored. split; [vm_compute; reflexivity|].
  destruct (WebAuthn_user_handle_is_reencoded (P := P) webauthn handle_page
              (result_of handle_run no_method) (snd handle_run))
    as (answer & copy & handle & Hanswer & Hcopy & Hhandle & Hraw & _ & Hwith).
  { apply run_result. vm_compute. reflexivity. }
  vm_compute in Hanswer. injection Hanswer as <-.
  vm_compute in Hhandle. injection Hhandle as <-.
  vm_compute in Hcopy. injection Hcopy as <-.
  destruct (Hwith eq_refl) as (encoded & Henc & Hget).
  vm_compute in Henc. injection Henc as <-.
  split.
  - exact (Hget _ _ eq_refl eq_refl).
  - fold stored in Hraw. rewrite Hraw. reflexivity.
Defined.

(** X26, witness: a registration on a new instance: the ceremony runs, and the error
    asks to authenticate first. *)
Lemma registration_witness_fresh_instance :
  truthy (WebAuthnProvider.this_attestationResponse webauthn) = false
  /\ fst early_registration_run = Throw (not_authenticated "Authentication data")
  /\ calls (snd (snd early_registration_run)) = [CallStartRegistration registration_request].
Proof.
  split; [reflexivity|].
  destruct (registration_needs_an_earlier_authenticate (P := P)
              registration_request webauthn registration_page eq_refl)
    as (_ & Hcalls & _ & Hthrow).
  split; [apply Hthrow; vm_compute; reflexivity | exact Hcalls].
Defined.

(** X27, witness: a registration on the instance that has authenticated: the relay is
    asked with the identifier of the credential of the assertion and the
    public key of the attestation, and its request id is returned. *)
Lemma mint_request_witness :
  let body := mint_body (P := P_decoding)
                (webauthn_id (P := P_decoding) "dGVzdC1jcmVkZW50aWFs")
                (hexlify (Platform := P_decoding) attestation_bytes) in
  credentialPublicKey (Platform := P_decoding)
    (Buffer_from_base64 (Platform := P_decoding) "o2NmbXRkbm9uZQ==") = Ok attestation_bytes
  /\ calls (snd (snd registration_run))
     = [CallStartRegistration registration_request; CallMintPKP WebAuthn body]
  /\ fst registration_run = Ok (JStr "0x1f")
  /\ body = "{" ++ quoted "authMethodType" ++ ":3," ++ quoted "authMethodId" ++ ":"
              ++ quoted "0xb1e425f5f74cc92c20ae501281e595a775da7d2ab94759eba59dd9a72c49394b"
              ++ "," ++ quoted "authMethodPubKey" ++ ":" ++ quoted "0xa363666d74646e6f6e65"
              ++ "}".
Proof.
  intros body.
  assert (Hkey : credentialPublicKey (Platform := P_decoding)
                   (Buffer_from_base64 (Platform := P_decoding) "o2NmbXRkbm9uZQ==")
                 = Ok attestation_bytes) by (vm_compute; reflexivity).
  destruct (mint_request_of_a_registration (P := P_decoding)
              registration_request authenticated_webauthn registration_page_decoding
              "dGVzdC1jcmVkZW50aWFs" "o2NmbXRkbm9uZQ==" attestation_response
              (JObj [("attestationObject", JStr "o2NmbXRkbm9uZQ==");
                     ("clientDataJSON", JStr "eyJ0eXBlIjoid2ViYXV0aG4uY3JlYXRlIn0")])
              attestation_bytes outside_registering outside_registering
              (JObj [("requestId", JStr "0x1f")]))
    as (Hcalls & Hok & _ & _);
    [reflexivity | reflexivity | reflexivity | reflexivity | reflexivity | exact Hkey
    | reflexivity |].
  split; [exact Hkey|]. split; [exact Hcalls|].
  split; [exact (Hok (JStr "0x1f") eq_refl eq_refl eq_refl)|].
  vm_compute. reflexivity.
Defined.

(** X28, witness: a registration on the instance that has authenticated, on the platform
    whose decoder does not understand the attestation: the decoding error,
    and no request to the relay. *)
Lemma undecodable_attestation_witness :
  credentialPublicKey (Platform := P)
    (Buffer_from_base64 (Platform := P) "o2NmbXRkbm9uZQ==")
  = Throw (Error "attestation object not understood")
  /\ WebAuthnProvider.verifyAndMintPKPThroughRelayer (P := P) registration_request
       (authenticated_webauthn, registration_page)
     = (Throw (Error ("Error while decoding credential create response for public key retrieval. attestation response not encoded as expected: "
                        ++ Exn_toString (Error "attestation object not understood"))),
        (authenticated_webauthn,
         logged (P := P) (CallStartRegistration registration_request) outside_registering
           registration_page)).
Proof.
  split; [reflexivity|].
  apply (undecodable_attestation_is_not_minted (P := P) registration_request
           authenticated_webauthn registration_page
           "dGVzdC1jcmVkZW50aWFs" "o2NmbXRkbm9uZQ==" attestation_response
           (JObj [("attestationObject", JStr "o2NmbXRkbm9uZQ==");
                  ("clientDataJSON", JStr "eyJ0eXBlIjoid2ViYXV0aG4uY3JlYXRlIn0")])
           outside_registering (Error "attestation object not understood"));
    reflexivity.
Defined.

(** ** A failed [authenticate] after a successful one *)

(** X30, witness: after the run of the signing branch, the wallet refuses a second
    [authenticate]; the identifier is still the address of the first. *)
Lemma failed_authenticate_witness_refusal :
  let second := EthWalletProvider.authenticate (P := P) None signed_then_refusing in
  fst second = Throw (Rejection "User rejected the request")
  /\ fst (EthWalletProvider.getAuthMethodId (P := P) (snd second))
     = fst (EthWalletProvider.getAuthMethodId (P := P) signed_then_refusing)
  /\ fst (EthWalletProvider.getAuthMethodId (P := P) signed_then_refusing) = Ok lower_address.
Proof.
  intros second. split; [vm_compute; reflexivity|]. split; [|vm_compute; reflexivity].
  apply (proj1 (failed_authenticate_keeps_the_credential (P := P))
           None signed_then_refusing (Rejection "User rejected the request")).
  apply run_result. vm_compute. reflexivity.
Defined.

End OnScenarios.
